(** * RailuinoSeeed: the Maerklin CAN track protocol of [RailuinoSeeed.cpp]

    A shallow embedding of [TrackMessage] (binary and textual codec) and of
    [TrackController] (send, receive, exchange and the command catalogue),
    followed by the properties proved about them.

    Target: the AVR boards the header accepts (ATmega328P, ATmega32U4), so
    [int] is a 16-bit two's complement integer, [word] an unsigned 16-bit
    integer, [byte] an unsigned 8-bit integer and [unsigned long] an unsigned
    32-bit integer.  Machine integers are [Z] with the wrap-around written
    out at every store. *)

From Stdlib Require Import ZArith String Ascii Lia Bool.
From stdpp Require Import base list.

Local Open Scope Z_scope.

(* ================================================================== *)
(** * Machine integers *)
(* ================================================================== *)

(** Conversion to [byte] (uint8_t). *)
Definition to_byte (x : Z) : Z := x mod 256.

(** Conversion to [word] (uint16_t). *)
Definition to_word (x : Z) : Z := x mod 65536.

(** Conversion to [uint32_t] / [unsigned long]. *)
Definition to_ulong (x : Z) : Z := x mod 4294967296.

(** Conversion to [int] (16 bits, two's complement). *)
Definition to_int (x : Z) : Z := (x + 32768) mod 65536 - 32768.

(** Arduino [highByte(w)] is [(uint8_t)((w) >> 8)]. *)
Definition highByte (w : Z) : Z := to_byte (Z.shiftr w 8).

(** Arduino [lowByte(w)] is [(uint8_t)((w) & 0xff)]. *)
Definition lowByte (w : Z) : Z := to_byte (Z.land w 255).

(** Arduino [word(h, l)] is [(h << 8) | l] as a 16-bit value. *)
Definition makeWord (h l : Z) : Z := to_word (Z.lor (Z.shiftl h 8) l).

(** Arduino [bitRead(value, bit)] is [((value) >> (bit)) & 0x01]. *)
Definition bitRead (value : Z) (bit : Z) : Z := Z.land (Z.shiftr value bit) 1.

(* ================================================================== *)
(** * Characters and Arduino strings *)
(* ================================================================== *)

(** The value of a [char]; [char] is signed on AVR. *)
Definition char_code (c : ascii) : Z :=
  let n := Z.of_nat (nat_of_ascii c) in
  if 128 <=? n then n - 256 else n.

(** [String::charAt]: the character at [loc], or 0 past the end. *)
Definition charAt (s : string) (loc : nat) : ascii :=
  match String.get loc s with
  | Some c => c
  | None => Ascii.zero
  end.

(** One digit of [ultoa]: ['0'..'9'] then ['a'..'z']. *)
Definition digit_char (d : Z) : ascii :=
  if d <? 10 then ascii_of_nat (Z.to_nat (48 + d))
  else ascii_of_nat (Z.to_nat (97 + (d - 10))).

(** [ultoa(value, buf, base)]: the digits of [value], most significant
    first, no leading zero, at least one digit.  [acc] holds the digits
    produced so far. *)
Fixpoint ultoa (fuel : nat) (value base : Z) (acc : string) : string :=
  match fuel with
  | O => acc
  | S fuel' =>
      let acc' := String (digit_char (value mod base)) acc in
      if value / base =? 0 then acc'
      else ultoa fuel' (value / base) base acc'
  end.

(** [String(unsigned long value, HEX)]: an unsigned long has at most 32
    digits in any base. *)
Definition String_of_ulong (value base : Z) : string :=
  ultoa 32 (to_ulong value) base EmptyString.

Definition HEX : Z := 16.

(** [n] copies of the one-character string ["0"]. *)
Fixpoint zeros (n : nat) : string :=
  match n with
  | O => EmptyString
  | S n' => String "0" (zeros n')
  end.

(** [printHex(p, hex, digits)]: the text written to [p]; the returned size
    is the length of that text. *)
Definition printHex (hex : Z) (digits : nat) : string :=
  let s := String_of_ulong hex HEX in
  (zeros (digits - String.length s) ++ s)%string.

(** The body of the [for] loop of [parseHex], run [n] times from index [i]:
    [None] is the [*ok = false; return -1] exit.  [value] is an [int]: its
    arithmetic is taken with the 16-bit two's complement wrap-around of the
    AVR code. *)
Fixpoint parseHex_loop (s : string) (i n : nat) (value : Z) : option Z :=
  match n with
  | O => Some value
  | S n' =>
      let c := char_code (charAt s i) in
      if (48 <=? c) && (c <=? 57) then
        parseHex_loop s (S i) n' (to_int (16 * value + c - 48))
      else if (97 <=? c) && (c <=? 102) then
        parseHex_loop s (S i) n' (to_int (16 * value + 10 + c - 97))
      else if (65 <=? c) && (c <=? 70) then
        parseHex_loop s (S i) n' (to_int (16 * value + 10 + c - 65))
      else None
  end.

(** [parseHex(s, start, end, &ok)]: the returned [int] and the new value
    of [*ok]. *)
Definition parseHex (s : string) (start end_ : nat) (ok : bool) : Z * bool :=
  match parseHex_loop s start (end_ - start) 0 with
  | Some value => (value, ok)
  | None => (-1, false)
  end.

(** The value of a hexadecimal digit as [parseHex] reads it, [None] for
    any other character. *)
Definition hex_value (ch : ascii) : option Z :=
  let c := char_code ch in
  if (48 <=? c) && (c <=? 57) then Some (c - 48)
  else if (97 <=? c) && (c <=? 102) then Some (10 + c - 97)
  else if (65 <=? c) && (c <=? 70) then Some (10 + c - 65)
  else None.

Definition is_hex (ch : ascii) : bool :=
  match hex_value ch with Some _ => true | None => false end.

(** The character at offset [i] of [s] is a hexadecimal digit. *)
Definition hex_at (s : string) (i : nat) : bool := is_hex (charAt s i).

(** The [d] low hexadecimal digits of [v], most significant first. *)
Fixpoint fixhex (d : nat) (v : Z) : string :=
  match d with
  | O => EmptyString
  | S d' => (fixhex d' (v / 16) ++ String (digit_char (v mod 16)) EmptyString)%string
  end.

(* ================================================================== *)
(** * TrackMessage *)
(* ================================================================== *)

(** [class TrackMessage]: [byte command; word hash; boolean response;
    byte length; byte data[8]].  The fields carry the prefix [msg_], as
    [length] is also the length of a list. *)
Record TrackMessage := mkMessage {
  msg_command : Z;
  msg_hash : Z;
  msg_response : bool;
  msg_length : Z;
  msg_data : list Z
}.

Definition set_command (v : Z) (m : TrackMessage) : TrackMessage :=
  mkMessage (to_byte v) (msg_hash m) (msg_response m) (msg_length m) (msg_data m).

Definition set_hash (v : Z) (m : TrackMessage) : TrackMessage :=
  mkMessage (msg_command m) (to_word v) (msg_response m) (msg_length m) (msg_data m).

Definition set_response (v : bool) (m : TrackMessage) : TrackMessage :=
  mkMessage (msg_command m) (msg_hash m) v (msg_length m) (msg_data m).

Definition set_length (v : Z) (m : TrackMessage) : TrackMessage :=
  mkMessage (msg_command m) (msg_hash m) (msg_response m) (to_byte v) (msg_data m).

(** [data[i] = v].  The array has 8 cells; a store past its end lands
    outside the array and leaves its 8 cells as they are. *)
Definition set_data (i : nat) (v : Z) (m : TrackMessage) : TrackMessage :=
  mkMessage (msg_command m) (msg_hash m) (msg_response m) (msg_length m)
            (<[i := to_byte v]> (msg_data m)).

(** Cell [i] of a byte array; a read past its end is taken to give 0. *)
Definition byte_at (buf : list Z) (i : nat) : Z := default 0 (buf !! i).

(** [data[i]]. *)
Definition get_data (m : TrackMessage) (i : nat) : Z := byte_at (msg_data m) i.

(** [TrackMessage::clear]. *)
Definition clear (m : TrackMessage) : TrackMessage :=
  mkMessage 0 0 false 0 (replicate 8 0).

(** The data loop of [printTo], for [i] from [i] to [i + n - 1]. *)
Fixpoint printTo_data (m : TrackMessage) (i n : nat) : string :=
  match n with
  | O => EmptyString
  | S n' => (" " ++ printHex (get_data m i) 2 ++ printTo_data m (S i) n')%string
  end.

(** [TrackMessage::printTo]: the text written to the [Print] object. *)
Definition printTo (m : TrackMessage) : string :=
  (printHex (msg_hash m) 4
   ++ (if msg_response m then " R " else "   ")
   ++ printHex (msg_command m) 2
   ++ " "
   ++ printHex (msg_length m) 1
   ++ printTo_data m 0 (Z.to_nat (msg_length m)))%string.

(** The data loop of [parseFrom], for [i] from [i] to [i + n - 1]. *)
Fixpoint parseFrom_data (s : string) (i n : nat) (m : TrackMessage) (result : bool)
  : TrackMessage * bool :=
  match n with
  | O => (m, result)
  | S n' =>
      let '(v, result') := parseHex s (12 + 3 * i) (12 + 3 * i + 2) result in
      parseFrom_data s (S i) n' (set_data i v m) result'
  end.

(** [TrackMessage::parseFrom]: the returned boolean and the message as the
    call leaves it. *)
Definition parseFrom (m : TrackMessage) (s : string) : bool * TrackMessage :=
  let result := true in
  let m := clear m in
  if (String.length s <? 11)%nat then (false, m)
  else
    let '(h, result) := parseHex s 0 4 result in
    let m := set_hash h m in
    let m := set_response (negb (Ascii.eqb (charAt s 5) " ")) m in
    let '(c, result) := parseHex s 7 9 result in
    let m := set_command c m in
    let '(l, result) := parseHex s 10 11 result in
    let m := set_length l m in
    if 8 <? msg_length m then (false, m)
    else if Z.of_nat (String.length s) <? 11 + 3 * msg_length m then (false, m)
    else
      let '(m, result) := parseFrom_data s 0 (Z.to_nat (msg_length m)) m result in
      (result, m).

(** The copy loop of [fromCanMsg], for [i] from [i] to [i + n - 1]. *)
Fixpoint fromCanMsg_data (aBuf : list Z) (i n : nat) (m : TrackMessage) : TrackMessage :=
  match n with
  | O => m
  | S n' => fromCanMsg_data aBuf (S i) n' (set_data i (byte_at aBuf i) m)
  end.

(** [TrackMessage::fromCanMsg]. *)
Definition fromCanMsg (m : TrackMessage) (aId aExt aRtr aLen : Z) (aBuf : list Z)
  : bool * TrackMessage :=
  let m := clear m in
  let m := set_command (Z.land (Z.shiftr aId 17) 255) m in
  let m := set_hash (Z.land aId 65535) m in
  let m := set_response (negb (bitRead aId 16 =? 0)) m in
  let m := set_length aLen m in
  let m := fromCanMsg_data aBuf 0 (Z.to_nat (msg_length m)) m in
  (true, m).

(* ================================================================== *)
(** * The world outside the controller *)
(* ================================================================== *)

(** A CAN frame as the driver's [sendMsgBuf] and [readMsgBufID] see it. *)
Record CanFrame := mkFrame {
  can_id : Z;
  can_ext : Z;
  can_rtr : Z;
  can_len : Z;
  can_buf : list Z
}.

(** What the controller does to the outside, in order. *)
Inductive Event :=
| EvSend (f : CanFrame) (status : Z)   (* sendMsgBuf and the status it gave *)
| EvRecv (f : CanFrame)                (* a frame taken out of the driver *)
| EvDelay (ms : Z)                     (* delay(ms) *)
| EvPrint (s : string)                 (* SERIAL_PORT_MONITOR.print *)
| EvPrintln (s : string).              (* SERIAL_PORT_MONITOR.println *)

(** The environment: the clock, the driver and the serial monitor.
    - [w_clock k] is what the [k]-th call of [millis()] reads, [w_nclock]
      counts the calls made so far;
    - [w_tx k] is the status the driver gives to the [k]-th [sendMsgBuf];
    - [w_rx] is what the successive receive polls will find: [Some f] when
      frame [f] waits in the driver, [None] when nothing does; past the end
      of the list nothing arrives any more;
    - [w_trace] records what the controller did. *)
Record World := mkWorld {
  w_clock : nat -> Z;
  w_nclock : nat;
  w_tx : nat -> Z;
  w_ntx : nat;
  w_rx : list (option CanFrame);
  w_trace : list Event
}.

(** How a call ends, and the world it leaves: it returns, it spins in
    [for (;;);] for ever, or the model's loop bound ran out. *)
Inductive Outcome (A : Type) :=
| Ret (a : A) (w : World)
| Halt (w : World)
| OutOfFuel (w : World).
Arguments Ret {A} a w.
Arguments Halt {A} w.
Arguments OutOfFuel {A} w.

Definition M (A : Type) : Type := World -> Outcome A.

#[global] Instance M_ret : MRet M := fun A a w => Ret a w.

#[global] Instance M_bind : MBind M := fun A B f m w =>
  match m w with
  | Ret a w' => f a w'
  | Halt w' => Halt w'
  | OutOfFuel w' => OutOfFuel w'
  end.

(** [for (;;);] *)
Definition spin {A} : M A := fun w => Halt w.

Definition out_of_fuel {A} : M A := fun w => OutOfFuel w.

Definition emit (e : Event) : M unit := fun w =>
  Ret tt (mkWorld (w_clock w) (w_nclock w) (w_tx w) (w_ntx w) (w_rx w)
                  (w_trace w ++ [e])).

(** [millis()]: an unsigned long. *)
Definition millis : M Z := fun w =>
  Ret (to_ulong (w_clock w (w_nclock w)))
      (mkWorld (w_clock w) (S (w_nclock w)) (w_tx w) (w_ntx w) (w_rx w) (w_trace w)).

(** [delay(ms)] *)
Definition delay (ms : Z) : M unit := emit (EvDelay ms).

Definition serial_print (s : string) : M unit := emit (EvPrint s).
Definition serial_println (s : string) : M unit := emit (EvPrintln s).

(** Status codes of the MCP2515 driver, with the values of its header
    mcp2515_can_dfs.h (the CAN shield library that [RailuinoSeeed.cpp]
    includes; it is no part of this repository).  The controller only tests
    a send status for being [CAN_OK] and a receive status for being
    [CAN_MSGAVAIL]. *)
Definition CAN_OK : Z := 0.
Definition CAN_MSGAVAIL : Z := 3.
Definition CAN_NOMSG : Z := 4.

(** [mCAN->sendMsgBuf(id, ext, rtr, len, buf)]: the driver is handed [len]
    bytes of [buf] and answers with its next status. *)
Definition sendMsgBuf (id ext rtr len : Z) (buf : list Z) : M Z := fun w =>
  let status := to_byte (w_tx w (w_ntx w)) in
  Ret status
      (mkWorld (w_clock w) (w_nclock w) (w_tx w) (S (w_ntx w)) (w_rx w)
               (w_trace w ++ [EvSend (mkFrame id ext rtr len (take (Z.to_nat len) buf)) status])).

(** [mCAN->checkReceive()]: a poll that finds nothing uses up that poll. *)
Definition checkReceive : M Z := fun w =>
  match w_rx w with
  | Some _ :: _ => Ret CAN_MSGAVAIL w
  | None :: rx' =>
      Ret CAN_NOMSG (mkWorld (w_clock w) (w_nclock w) (w_tx w) (w_ntx w) rx' (w_trace w))
  | [] => Ret CAN_NOMSG w
  end.

Definition no_frame : CanFrame := mkFrame 0 0 0 0 [].

(** [mCAN->readMsgBufID(mCAN->readRxTxStatus(), ...)]: takes the waiting
    frame out of the driver. *)
Definition readMsgBufID : M CanFrame := fun w =>
  match w_rx w with
  | Some f :: rx' =>
      Ret f (mkWorld (w_clock w) (w_nclock w) (w_tx w) (w_ntx w) rx'
                     (w_trace w ++ [EvRecv f]))
  | _ => Ret no_frame w
  end.

(** [byte cdata[MAX_CHAR_IN_MESSAGE] = {0}] after the driver copied the
    frame's bytes into it. *)
Definition cdata_of (f : CanFrame) : list Z :=
  take 8 (map to_byte (take (Z.to_nat (can_len f)) (can_buf f)) ++ replicate 8 0).

(** One digit of [Print::printNumber]: ['0'..'9'] then ['A'..'Z']. *)
Definition number_char (d : Z) : ascii :=
  if d <? 10 then ascii_of_nat (Z.to_nat (48 + d))
  else ascii_of_nat (Z.to_nat (65 + (d - 10))).

(** [Print::printNumber(n, base)], as [println(result, HEX)] uses it. *)
Fixpoint printNumber (fuel : nat) (n base : Z) (acc : string) : string :=
  match fuel with
  | O => acc
  | S fuel' =>
      let acc' := String (number_char (n mod base)) acc in
      if n / base =? 0 then acc' else printNumber fuel' (n / base) base acc'
  end.

(* ================================================================== *)
(** * TrackController *)
(* ================================================================== *)

(** [class TrackController]: [mHash] and [mDebug]; [mCAN] is the driver
    part of the world. *)
Record TrackController := mkController {
  mHash : Z;
  mDebug : bool
}.

(** [if (mDebug) { ... }] *)
Definition when_debug (ctl : TrackController) (c : M unit) : M unit :=
  if mDebug ctl then c else mret tt.

(** The identifier computed by [sendMessage]:
    [((uint32_t)message.command) << 17 | (uint32_t)message.hash]. *)
Definition can_id_of (message : TrackMessage) : Z :=
  Z.lor (to_ulong (Z.shiftl (to_ulong (msg_command message)) 17))
        (to_ulong (msg_hash message)).

(** [TrackController::sendMessage]: the result and [message] as the call
    leaves it. *)
Definition sendMessage (ctl : TrackController) (message : TrackMessage)
  : M (bool * TrackMessage) :=
  let message := set_hash (mHash ctl) message in
  let id := can_id_of message in
  let ext := 1 in
  let rtr := 0 in
  when_debug ctl (serial_print "==> " ;; serial_println (printTo message)) ;;
  result ← sendMsgBuf id ext rtr (msg_length message) (msg_data message);
  when_debug ctl (serial_print "  result " ;;
                  serial_println (printNumber 32 result HEX EmptyString)) ;;
  mret (result =? CAN_OK, message).

(** [TrackController::receiveMessage]: the result and [message] as the
    call leaves it. *)
Definition receiveMessage (ctl : TrackController) (message : TrackMessage)
  : M (bool * TrackMessage) :=
  t ← millis;
  avail ← checkReceive;
  if negb (CAN_MSGAVAIL =? avail) then mret (false, message)
  else
    f ← readMsgBufID;
    let '(_, message) :=
      fromCanMsg message (to_ulong (can_id f)) (to_byte (can_ext f))
                 (to_byte (can_rtr f)) (to_byte (can_len f)) (cdata_of f) in
    when_debug ctl (serial_print "<== " ;; serial_println (printTo message)) ;;
    mret (true, message).

(** The [in] argument of [exchangeMessage]: a reference to the object that
    is also [out], or to another object. *)
Inductive InRef :=
| SameAsOut
| Other (m : TrackMessage).

(** The [while] loop of [exchangeMessage]: [true] is the [return true]
    inside the loop, [false] the loop's normal end. *)
Fixpoint exchangeMessage_loop (fuel : nat) (ctl : TrackController)
    (command deadline : Z) (in_ : TrackMessage) : M (bool * TrackMessage) :=
  match fuel with
  | O => out_of_fuel
  | S fuel' =>
      now ← millis;
      if now <? deadline then
        let in_ := clear in_ in
        '(result, in_) ← receiveMessage ctl in_;
        if result && (msg_command in_ =? command) && msg_response in_
        then mret (true, in_)
        else exchangeMessage_loop fuel' ctl command deadline in_
      else mret (false, in_)
  end.

(** [TrackController::exchangeMessage]: the result, then [out] and [in] as
    the call leaves them (one and the same object under [SameAsOut]). *)
Definition exchangeMessage (fuel : nat) (ctl : TrackController)
    (out : TrackMessage) (in_ : InRef) (timeout : Z)
  : M (bool * TrackMessage * TrackMessage) :=
  let timeout := to_word timeout in
  let command := msg_command out in
  '(sent, out) ← sendMessage ctl out;
  (if negb sent then
     when_debug ctl (serial_println "!!! Send error" ;;
                     serial_println "!!! Emergency stop") ;;
     spin
   else mret tt) ;;
  time ← millis;
  let in0 := match in_ with SameAsOut => out | Other m => m end in
  '(found, in1) ← exchangeMessage_loop fuel ctl command (to_ulong (time + timeout)) in0;
  let out1 := match in_ with SameAsOut => in1 | Other _ => out end in
  if found : bool then mret (true, out1, in1)
  else
    when_debug ctl (serial_println "!!! Receive timeout") ;;
    mret (false, out1, in1).

(** A fresh [TrackMessage message;] followed by [message.clear()]. *)
Definition new_message : TrackMessage := clear (mkMessage 0 0 false 0 []).

(** [TrackController::setPower2] *)
Definition setPower2 (ctl : TrackController) (power : bool) : M bool :=
  let message := new_message in
  let message := set_command 0 message in
  let message := set_length 5 message in
  let message := set_data 4 (if power then 1 else 0) message in
  '(r, _) ← sendMessage ctl message;
  mret r.

(** [TrackController::setLocoSpeed] *)
Definition setLocoSpeed (fuel : nat) (ctl : TrackController) (address speed : Z)
  : M bool :=
  let address := to_word address in
  let speed := to_word speed in
  let message := new_message in
  let message := set_command 4 message in
  let message := set_length 6 message in
  let message := set_data 2 (highByte address) message in
  let message := set_data 3 (lowByte address) message in
  let message := set_data 4 (highByte speed) message in
  let message := set_data 5 (lowByte speed) message in
  '(r, _, _) ← exchangeMessage fuel ctl message SameAsOut 1000;
  mret r.

(** [TrackController::getLocoSpeed]: the result and [speed[0]] as the call
    leaves it. *)
Definition getLocoSpeed (fuel : nat) (ctl : TrackController) (address : Z) (speed : Z)
  : M (bool * Z) :=
  let address := to_word address in
  let message := new_message in
  let message := set_command 4 message in
  let message := set_length 4 message in
  let message := set_data 2 (highByte address) message in
  let message := set_data 3 (lowByte address) message in
  '(r, message, _) ← exchangeMessage fuel ctl message SameAsOut 1000;
  if r : bool then mret (true, makeWord (get_data message 4) (get_data message 5))
  else mret (false, speed).

(** [speed += 77; if (speed > 1023) speed = 1023;] on a [word]. *)
Definition accelerate_speed (speed : Z) : Z :=
  let speed := to_word (speed + 77) in
  if 1023 <? speed then 1023 else speed.

(** [speed -= 77; if (speed > 32767) speed = 0;] on a [word]. *)
Definition decelerate_speed (speed : Z) : Z :=
  let speed := to_word (speed - 77) in
  if 32767 <? speed then 0 else speed.

(** [TrackController::accelerateLoco]; the local [word speed] starts out
    unset and is read only after [getLocoSpeed] filled it. *)
Definition accelerateLoco (fuel : nat) (ctl : TrackController) (address : Z) : M bool :=
  let address := to_word address in
  '(r, speed) ← getLocoSpeed fuel ctl address 0;
  if r : bool then setLocoSpeed fuel ctl address (accelerate_speed speed)
  else mret false.

(** [TrackController::decelerateLoco] *)
Definition decelerateLoco (fuel : nat) (ctl : TrackController) (address : Z) : M bool :=
  let address := to_word address in
  '(r, speed) ← getLocoSpeed fuel ctl address 0;
  if r : bool then setLocoSpeed fuel ctl address (decelerate_speed speed)
  else mret false.

(** [TrackController::setAccessory] *)
Definition setAccessory (fuel : nat) (ctl : TrackController)
    (address position power time : Z) : M bool :=
  let address := to_word address in
  let position := to_byte position in
  let power := to_byte power in
  let time := to_word time in
  let message := new_message in
  let message := set_command 11 message in
  let message := set_length 6 message in
  let message := set_data 2 (highByte address) message in
  let message := set_data 3 (lowByte address) message in
  let message := set_data 4 position message in
  let message := set_data 5 power message in
  '(_, message, _) ← exchangeMessage fuel ctl message SameAsOut 1000;
  (if negb (time =? 0) then
     delay time ;;
     let message := clear message in
     let message := set_command 11 message in
     let message := set_length 6 message in
     let message := set_data 2 (highByte address) message in
     let message := set_data 3 (lowByte address) message in
     let message := set_data 4 position message in
     '(_, message, _) ← exchangeMessage fuel ctl message SameAsOut 1000;
     mret tt
   else mret tt) ;;
  mret true.

(** The [while (receiveMessage(message))] loop of [getVersion].  The
    condition of its [if] is the assignment
    [message.command = 0x18 && message.data[6] == 0x00 && message.data[7] == 0x10]:
    [command] receives the truth value of the conjunction and that value is
    tested. *)
Fixpoint getVersion_loop (fuel : nat) (ctl : TrackController)
    (message : TrackMessage) (high low : Z) (result : bool)
  : M (bool * Z * Z) :=
  match fuel with
  | O => out_of_fuel
  | S fuel' =>
      '(got, message) ← receiveMessage ctl message;
      if got : bool then
        let v := negb (24 =? 0) && (get_data message 6 =? 0)
                 && (get_data message 7 =? 16) in
        let message := set_command (if v then 1 else 0) message in
        if negb (msg_command message =? 0) then
          getVersion_loop fuel' ctl message (get_data message 4) (get_data message 5) true
        else
          getVersion_loop fuel' ctl message high low result
      else mret (result, high, low)
  end.

(** [TrackController::getVersion]: the result, then [*high] and [*low] as
    the call leaves them. *)
Definition getVersion (fuel : nat) (ctl : TrackController) (high low : Z)
  : M (bool * Z * Z) :=
  let result := false in
  let message := new_message in
  let message := set_command 24 message in
  '(_, message) ← sendMessage ctl message;
  delay 500 ;;
  getVersion_loop fuel ctl message high low result.

(* ================================================================== *)
(** * The rest of the command catalogue *)
(* ================================================================== *)

(** Constants of [RailuinoSeeed.h]. *)
Definition DIR_CHANGE : Z := 3.
Definition ACC_ROUND : Z := 0.
Definition ACC_STRAIGHT : Z := 1.

(** [TrackController::init]: [mCAN = &aCAN] binds the driver, which is the
    driver part of the world. *)
Definition init (ctl : TrackController) : M unit :=
  delay 500 ;;
  let message := new_message in
  let message := set_command 27 message in
  let message := set_length 5 message in
  let message := set_data 4 17 message in
  '(_, _) ← sendMessage ctl message;
  mret tt.

(** [TrackController::setPower] *)
Definition setPower (fuel : nat) (ctl : TrackController) (power : bool) : M bool :=
  let message := new_message in
  message ←
    (if power return M TrackMessage then
       let message := clear message in
       let message := set_command 0 message in
       let message := set_length 7 message in
       let message := set_data 4 9 message in
       let message := set_data 6 13 message in
       '(_, message, _) ← exchangeMessage fuel ctl message SameAsOut 1000;
       let message := clear message in
       let message := set_command 0 message in
       let message := set_length 6 message in
       let message := set_data 4 8 message in
       let message := set_data 5 7 message in
       '(_, message, _) ← exchangeMessage fuel ctl message SameAsOut 1000;
       mret message
     else mret message);
  let message := clear message in
  let message := set_command 0 message in
  let message := set_length 5 message in
  let message := set_data 4 (if power then 1 else 0) message in
  '(r, _, _) ← exchangeMessage fuel ctl message SameAsOut 1000;
  mret r.

(** [TrackController::getPower2] *)
Definition getPower2 (ctl : TrackController) : M bool :=
  let message := new_message in
  let message := set_command 0 message in
  let message := set_length 4 message in
  '(r, _) ← sendMessage ctl message;
  mret r.

(** [TrackController::setLocoDirection] *)
Definition setLocoDirection (fuel : nat) (ctl : TrackController) (address direction : Z)
  : M bool :=
  let address := to_word address in
  let direction := to_byte direction in
  let message := new_message in
  let message := set_command 0 message in
  let message := set_length 5 message in
  let message := set_data 2 (highByte address) message in
  let message := set_data 3 (lowByte address) message in
  let message := set_data 4 3 message in
  '(_, message, _) ← exchangeMessage fuel ctl message SameAsOut 1000;
  let message := clear message in
  let message := set_command 5 message in
  let message := set_length 5 message in
  let message := set_data 2 (highByte address) message in
  let message := set_data 3 (lowByte address) message in
  let message := set_data 4 direction message in
  '(r, _, _) ← exchangeMessage fuel ctl message SameAsOut 1000;
  mret r.

(** [TrackController::toggleLocoDirection] *)
Definition toggleLocoDirection (fuel : nat) (ctl : TrackController) (address : Z) : M bool :=
  setLocoDirection fuel ctl (to_word address) DIR_CHANGE.

(** [TrackController::setLocoFunction] *)
Definition setLocoFunction (fuel : nat) (ctl : TrackController)
    (address function power : Z) : M bool :=
  let address := to_word address in
  let function := to_byte function in
  let power := to_byte power in
  let message := new_message in
  let message := set_command 6 message in
  let message := set_length 6 message in
  let message := set_data 2 (highByte address) message in
  let message := set_data 3 (lowByte address) message in
  let message := set_data 4 function message in
  let message := set_data 5 power message in
  '(r, _, _) ← exchangeMessage fuel ctl message SameAsOut 1000;
  mret r.

(** [TrackController::getLocoFunction]: the result and [power[0]] as the
    call leaves it. *)
Definition getLocoFunction (fuel : nat) (ctl : TrackController)
    (address function : Z) (power : Z) : M (bool * Z) :=
  let address := to_word address in
  let function := to_byte function in
  let message := new_message in
  let message := set_command 6 message in
  let message := set_length 5 message in
  let message := set_data 2 (highByte address) message in
  let message := set_data 3 (lowByte address) message in
  let message := set_data 4 function message in
  '(r, message, _) ← exchangeMessage fuel ctl message SameAsOut 1000;
  if r : bool then mret (true, get_data message 5)
  else mret (false, power).

(** [TrackController::toggleLocoFunction]; the local [byte power] starts
    out unset and is read only after [getLocoFunction] filled it. *)
Definition toggleLocoFunction (fuel : nat) (ctl : TrackController)
    (address function : Z) : M bool :=
  let address := to_word address in
  let function := to_byte function in
  '(r, power) ← getLocoFunction fuel ctl address function 0;
  if r : bool then
    setLocoFunction fuel ctl address function (if negb (power =? 0) then 0 else 1)
  else mret false.

(** [TrackController::setAccessory2] *)
Definition setAccessory2 (ctl : TrackController) (address position power time : Z)
  : M bool :=
  let address := to_word address in
  let position := to_byte position in
  let power := to_byte power in
  let time := to_word time in
  let message := new_message in
  let message := set_command 11 message in
  let message := set_length 6 message in
  let message := set_data 2 (highByte address) message in
  let message := set_data 3 (lowByte address) message in
  let message := set_data 4 position message in
  let message := set_data 5 power message in
  '(_, _) ← sendMessage ctl message;
  mret true.

(** [TrackController::setTurnout] *)
Definition setTurnout (fuel : nat) (ctl : TrackController) (address : Z) (straight : bool)
  : M bool :=
  setAccessory fuel ctl (to_word address) (if straight then ACC_STRAIGHT else ACC_ROUND) 1 0.

(** [TrackController::getLocoDirection]: the result and [direction[0]] as
    the call leaves it. *)
Definition getLocoDirection (fuel : nat) (ctl : TrackController)
    (address : Z) (direction : Z) : M (bool * Z) :=
  let address := to_word address in
  let message := new_message in
  let message := set_command 5 message in
  let message := set_length 4 message in
  let message := set_data 2 (highByte address) message in
  let message := set_data 3 (lowByte address) message in
  '(r, message, _) ← exchangeMessage fuel ctl message SameAsOut 1000;
  if r : bool then mret (true, get_data message 4)
  else mret (false, direction).

(** [TrackController::getAccessory]: the result, then [position[0]] and
    [power[0]] as the call leaves them. *)
Definition getAccessory (fuel : nat) (ctl : TrackController)
    (address : Z) (position power : Z) : M (bool * Z * Z) :=
  let address := to_word address in
  let message := new_message in
  let message := set_command 11 message in
  let message := set_length 4 message in
  let message := set_data 2 (highByte address) message in
  let message := set_data 3 (lowByte address) message in
  '(r, message, _) ← exchangeMessage fuel ctl message SameAsOut 1000;
  if r : bool then mret (true, get_data message 4, get_data message 5)
  else mret (false, position, power).

(** [TrackController::getAccessory2] *)
Definition getAccessory2 (ctl : TrackController) (address : Z) : M bool :=
  let address := to_word address in
  let message := new_message in
  let message := set_command 11 message in
  let message := set_length 4 message in
  let message := set_data 2 (highByte address) message in
  let message := set_data 3 (lowByte address) message in
  '(r, _) ← sendMessage ctl message;
  mret r.

(** [TrackController::writeConfig] *)
Definition writeConfig (fuel : nat) (ctl : TrackController) (address number value : Z)
  : M bool :=
  let address := to_word address in
  let number := to_word number in
  let value := to_byte value in
  let message := new_message in
  let message := set_command 8 message in
  let message := set_length 8 message in
  let message := set_data 2 (highByte address) message in
  let message := set_data 3 (lowByte address) message in
  let message := set_data 4 (highByte number) message in
  let message := set_data 5 (lowByte number) message in
  let message := set_data 6 value message in
  '(r, _, _) ← exchangeMessage fuel ctl message SameAsOut 10000;
  mret r.

(** [TrackController::readConfig]: the result and [value[0]] as the call
    leaves it. *)
Definition readConfig (fuel : nat) (ctl : TrackController)
    (address number : Z) (value : Z) : M (bool * Z) :=
  let address := to_word address in
  let number := to_word number in
  let message := new_message in
  let message := set_command 7 message in
  let message := set_length 7 message in
  let message := set_data 2 (highByte address) message in
  let message := set_data 3 (lowByte address) message in
  let message := set_data 4 (highByte number) message in
  let message := set_data 5 (lowByte number) message in
  let message := set_data 6 1 message in
  '(r, message, _) ← exchangeMessage fuel ctl message SameAsOut 10000;
  if r : bool then mret (true, get_data message 6)
  else mret (false, value).

(** [TrackController::getSystemStatus]: the result and [*status] as the
    call leaves it. *)
Definition getSystemStatus (fuel : nat) (ctl : TrackController)
    (uid channel : Z) (status : Z) : M (bool * Z) :=
  let uid := to_ulong uid in
  let channel := to_byte channel in
  let message := new_message in
  let message := set_command 0 message in
  let message := set_length 6 message in
  let message := set_data 0 (Z.shiftr uid 24) message in
  let message := set_data 1 (Z.shiftr uid 16) message in
  let message := set_data 2 (Z.shiftr uid 8) message in
  let message := set_data 3 uid message in
  let message := set_data 4 11 message in
  let message := set_data 5 channel message in
  '(r, message, _) ← exchangeMessage fuel ctl message SameAsOut 1000;
  if negb r then mret (false, status)
  else if negb (msg_length message =? 8) then mret (false, status)
  else mret (true, makeWord (get_data message 6) (get_data message 7)).

(** ** What a trace shows *)

(** The frames handed to the driver, in order. *)
Fixpoint sent_frames (t : list Event) : list CanFrame :=
  match t with
  | [] => []
  | EvSend f _ :: t' => f :: sent_frames t'
  | _ :: t' => sent_frames t'
  end.

(** What happened on the bus and the clock, in order: the trace without
    the lines printed on the serial monitor. *)
Fixpoint bus_events (t : list Event) : list Event :=
  match t with
  | [] => []
  | EvPrint _ :: t' => bus_events t'
  | EvPrintln _ :: t' => bus_events t'
  | e :: t' => e :: bus_events t'
  end.

(** What the [j]-th receive poll from now on will find. *)
Definition poll_at (w : World) (j : nat) : option CanFrame :=
  default None (w_rx w !! j).

(** The frames found by a run of polls, as events. *)
Fixpoint recv_events (polls : list (option CanFrame)) : list Event :=
  match polls with
  | [] => []
  | Some f :: polls' => EvRecv f :: recv_events polls'
  | None :: polls' => recv_events polls'
  end.

(** The length digit of a text: the value of its character at offset 10. *)
Definition length_digit (s : string) : Z := default 0 (hex_value (charAt s 10)).

(** The texts [parseFrom] takes, read off its code: at least 11 characters;
    hexadecimal digits at offsets 0-3, 7-8 and 10; a length digit [L] of at
    most 8; at least [11 + 3 * L] characters; hexadecimal digits at offsets
    [12 + 3 * i] and [13 + 3 * i] for every [i < L].  No other character of
    the text is looked at, except the one at offset 5, which sets the
    response flag. *)
Definition parseFrom_accepts (s : string) : bool :=
  (11 <=? String.length s)%nat
  && forallb (hex_at s) (seq 0 4)
  && forallb (hex_at s) (seq 7 2)
  && hex_at s 10
  && (length_digit s <=? 8)
  && (11 + 3 * length_digit s <=? Z.of_nat (String.length s))
  && forallb (fun i => forallb (hex_at s) (seq (12 + 3 * i) 2))
             (seq 0 (Z.to_nat (length_digit s))).

(** The frame that encodes [message]: what [sendMessage] computes from the
    message once the hash is stamped, and hands to [sendMsgBuf]. *)
Definition frame_of (message : TrackMessage) : CanFrame :=
  mkFrame (can_id_of message) 1 0 (msg_length message)
          (take (Z.to_nat (msg_length message)) (msg_data message)).

(** The frame [sendMessage] hands to the driver for [message]. *)
Definition sent_frame (ctl : TrackController) (message : TrackMessage) : CanFrame :=
  frame_of (set_hash (mHash ctl) message).

(** The message [receiveMessage] makes of frame [f]. *)
Definition received_message (f : CanFrame) : TrackMessage :=
  snd (fromCanMsg new_message (to_ulong (can_id f)) (to_byte (can_ext f))
                  (to_byte (can_rtr f)) (to_byte (can_len f)) (cdata_of f)).

(** The test of [exchangeMessage] on what a poll found:
    [result && in.command == command && in.response]. *)
Definition is_reply (command : Z) (p : option CanFrame) : bool :=
  match p with
  | Some f =>
      (msg_command (received_message f) =? command) && msg_response (received_message f)
  | None => false
  end.

(** What the [while] test of [exchangeMessage] reads from [millis()] on its
    [j]-th turn, for a loop entered in world [w]: every turn reads the clock
    twice, once in the test and once in [receiveMessage]. *)
Definition loop_clock (w : World) (j : nat) : Z :=
  to_ulong (w_clock w (w_nclock w + 2 * j)).

(** For a call of [exchangeMessage] made in world [w]: what
    [time = millis()] reads after the send, the value of [time + timeout]
    that the loop compares with, and what the loop's test reads on its
    [j]-th turn. *)
Definition exchange_start (w : World) : Z := to_ulong (w_clock w (w_nclock w)).

Definition exchange_deadline (w : World) (timeout : Z) : Z :=
  to_ulong (exchange_start w + to_word timeout).

Definition exchange_clock (w : World) (j : nat) : Z :=
  to_ulong (w_clock w (S (w_nclock w) + 2 * j)).

(** Turn [j] of an exchange passes the time test and finds no reply. *)
Definition idle_turn (w : World) (command timeout : Z) (j : nat) : Prop :=
  exchange_clock w j < exchange_deadline w timeout /\
  is_reply command (poll_at w j) = false.

(** [out] as [exchangeMessage] leaves it: the reply when [in] is the same
    object, else [out] with the stamped hash. *)
Definition out_after (ctl : TrackController) (out : TrackMessage) (in_ : InRef)
    (in1 : TrackMessage) : TrackMessage :=
  match in_ with
  | SameAsOut => in1
  | Other _ => set_hash (mHash ctl) out
  end.

(** The request [setLocoSpeed] builds. *)
Definition setLocoSpeed_message (address speed : Z) : TrackMessage :=
  let address := to_word address in
  let speed := to_word speed in
  let message := new_message in
  let message := set_command 4 message in
  let message := set_length 6 message in
  let message := set_data 2 (highByte address) message in
  let message := set_data 3 (lowByte address) message in
  let message := set_data 4 (highByte speed) message in
  let message := set_data 5 (lowByte speed) message in
  message.

(** The value a call returns, when it returns. *)
Definition outcome_value {A} (o : Outcome A) : option A :=
  match o with
  | Ret a _ => Some a
  | _ => None
  end.

(** The world an outcome leaves behind. *)
Definition outcome_world {A} (o : Outcome A) : World :=
  match o with
  | Ret _ w => w
  | Halt w => w
  | OutOfFuel w => w
  end.

(* ================================================================== *)
(** * Well-formed messages *)
(* ================================================================== *)

(** The fields of [m] are within their C++ types, [length] is at most 8 and
    [data] has its 8 cells. *)
Record wf_message (m : TrackMessage) : Prop := {
  wf_command : 0 <= msg_command m < 256;
  wf_hash : 0 <= msg_hash m < 65536;
  wf_length : 0 <= msg_length m <= 8;
  wf_cells : length (msg_data m) = 8%nat;
  wf_bytes : Forall (fun b => 0 <= b < 256) (msg_data m)
}.

(** A valid message: well formed, and zero past its [length]. *)
Record valid_message (m : TrackMessage) : Prop := {
  valid_wf : wf_message m;
  valid_tail : forall i : nat, (Z.to_nat (msg_length m) <= i)%nat -> get_data m i = 0
}.

(** The two predicates as checks that compute. *)
Definition wf_messageb (m : TrackMessage) : bool :=
  (0 <=? msg_command m) && (msg_command m <? 256)
  && (0 <=? msg_hash m) && (msg_hash m <? 65536)
  && (0 <=? msg_length m) && (msg_length m <=? 8)
  && (length (msg_data m) =? 8)%nat
  && forallb (fun b => (0 <=? b) && (b <? 256)) (msg_data m).

Definition valid_messageb (m : TrackMessage) : bool :=
  wf_messageb m && forallb (fun b => b =? 0) (drop (Z.to_nat (msg_length m)) (msg_data m)).

(* ================================================================== *)
(** * Requests on the wire *)
(* ================================================================== *)

(** The frame that carries a request of [command] with the bytes [payload]
    from this controller: identifier [command * 2^17 + hash], which leaves
    the response bit clear; extended format, no remote request. *)
Definition request_frame (ctl : TrackController) (command : Z) (payload : list Z)
  : CanFrame :=
  mkFrame (command * 131072 + to_word (mHash ctl)) 1 0 (Z.of_nat (length payload)) payload.

(** A call made in world [w] with outcome [o] returned [r], and all it did
    to the outside was to hand frame [f] to the driver: no poll, no look at
    the clock, no wait. *)
Definition sent_only {A} (w : World) (o : Outcome A) (f : CanFrame) (r : A) : Prop :=
  outcome_value o = Some r /\
  bus_events (w_trace (outcome_world o))
  = bus_events (w_trace w) ++ [EvSend f (to_byte (w_tx w (w_ntx w)))] /\
  w_rx (outcome_world o) = w_rx w /\
  w_nclock (outcome_world o) = w_nclock w.

(** A call made in world [w] with outcome [o] never returned: it handed
    one frame to the driver, got a status other than [CAN_OK], and has been
    spinning since without doing anything more on the bus. *)
Definition halted_after_send {A} (w : World) (o : Outcome A) : Prop :=
  exists f w',
    o = Halt w' /\
    bus_events (w_trace w')
    = bus_events (w_trace w) ++ [EvSend f (to_byte (w_tx w (w_ntx w)))].

(** Among what the polls of world [w] will find, frame [f] on poll [n] is
    the first reply to a request of [command]: it has that command and the
    response flag, and nothing polled before it has both. *)
Definition first_reply (w : World) (command : Z) (n : nat) (f : CanFrame) : Prop :=
  poll_at w n = Some f /\
  is_reply command (Some f) = true /\
  forall j, (j < n)%nat -> is_reply command (poll_at w j) = false.

(* ================================================================== *)
(** * What [getVersion] makes of the frames that wait *)
(* ================================================================== *)




(* ================================================================== *)
(** * Elapsed time *)
(* ================================================================== *)


(* ================================================================== *)
(** * Worked examples *)
(* ================================================================== *)

(** The rendering scenario of the textual form. *)
Example printTo_scenario :
  printTo (mkMessage 5 4660 true 2 [0; 1; 0; 0; 0; 0; 0; 0]) = "1234 R 05 2 00 01"%string.
Proof. reflexivity. Qed.

Example parseFrom_scenario :
  parseFrom new_message "1234 R 05 2 00 01"
  = (true, mkMessage 5 4660 true 2 [0; 1; 0; 0; 0; 0; 0; 0]).
Proof. reflexivity. Qed.

(** Upper-case digits are read as well, and text after the last data byte
    is not looked at. *)
Example parseFrom_upper_case :
  parseFrom new_message "12AB R 0B 1 FF and so on"
  = (true, mkMessage 11 4779 true 1 [255; 0; 0; 0; 0; 0; 0; 0]).
Proof. reflexivity. Qed.

Example parseFrom_short : fst (parseFrom new_message "1234 R 05 ") = false.
Proof. reflexivity. Qed.

Example parseFrom_length_9 :
  fst (parseFrom new_message "1234 R 05 9 00 01 02 03 04 05 06 07 08") = false.
Proof. reflexivity. Qed.

Example parseFrom_not_hex : fst (parseFrom new_message "12g4 R 05 0") = false.
Proof. reflexivity. Qed.

Example accelerate_from_1000 : accelerate_speed 1000 = 1023.
Proof. reflexivity. Qed.

Example decelerate_from_50 : decelerate_speed 50 = 0.
Proof. reflexivity. Qed.

Example decelerate_from_500 : decelerate_speed 500 = 423.
Proof. reflexivity. Qed.

(* ================================================================== *)
(** * Machine integer facts *)
(* ================================================================== *)

Lemma to_byte_small x : 0 <= x < 256 -> to_byte x = x.
Proof. intros; unfold to_byte; apply Z.mod_small; lia. Qed.

Lemma to_word_small x : 0 <= x < 65536 -> to_word x = x.
Proof. intros; unfold to_word; apply Z.mod_small; lia. Qed.

Lemma to_ulong_small x : 0 <= x < 4294967296 -> to_ulong x = x.
Proof. intros; unfold to_ulong; apply Z.mod_small; lia. Qed.

Lemma to_byte_range x : 0 <= to_byte x < 256.
Proof. unfold to_byte; apply Z.mod_pos_bound; lia. Qed.

Lemma to_word_range x : 0 <= to_word x < 65536.
Proof. unfold to_word; apply Z.mod_pos_bound; lia. Qed.

Lemma to_ulong_range x : 0 <= to_ulong x < 4294967296.
Proof. unfold to_ulong; apply Z.mod_pos_bound; lia. Qed.

(** The ranges of the machine integers, for [auto with machine_int]. *)
Create HintDb machine_int.
#[local] Hint Resolve to_byte_range to_word_range to_ulong_range : machine_int.

(** The identifier is [command * 2^17 + hash]: the two fields do not
    overlap. *)
Lemma can_id_of_value m :
  0 <= msg_command m < 256 -> 0 <= msg_hash m < 65536 ->
  can_id_of m = msg_command m * 131072 + msg_hash m.
Proof.
  intros Hc Hh. unfold can_id_of.
  rewrite (to_ulong_small (msg_command m)) by lia.
  rewrite Z.shiftl_mul_pow2 by lia.
  change (2 ^ 17) with 131072.
  rewrite (to_ulong_small (msg_command m * 131072)) by lia.
  rewrite (to_ulong_small (msg_hash m)) by lia.
  rewrite <- Z.add_nocarry_lor; [reflexivity|].
  apply Z.bits_inj'; intros n Hn.
  rewrite Z.land_spec, Z.bits_0.
  destruct (Z.lt_ge_cases n 17) as [Hlt|Hge].
  - replace (msg_command m * 131072) with (msg_command m * 2 ^ 17) by reflexivity.
    rewrite Z.mul_pow2_bits_low by lia. reflexivity.
  - rewrite (Z.bits_above_log2 (msg_hash m) n); [apply andb_false_r|lia|].
    destruct (Z.eq_dec (msg_hash m) 0) as [->|Hnz]; [simpl; lia|].
    apply Z.lt_le_trans with 16; [|lia].
    apply Z.log2_lt_pow2; lia.
Qed.

Lemma can_id_command c h :
  0 <= c < 256 -> 0 <= h < 65536 ->
  Z.land (Z.shiftr (c * 131072 + h) 17) 255 = c.
Proof.
  intros Hc Hh.
  rewrite Z.shiftr_div_pow2 by lia. change (2 ^ 17) with 131072.
  replace ((c * 131072 + h) / 131072) with c
    by (apply Z.div_unique with h; lia).
  change 255 with (Z.ones 8). rewrite Z.land_ones by lia.
  apply Z.mod_small. change (2 ^ 8) with 256. lia.
Qed.

Lemma can_id_hash c h :
  0 <= c < 256 -> 0 <= h < 65536 ->
  Z.land (c * 131072 + h) 65535 = h.
Proof.
  intros Hc Hh.
  change 65535 with (Z.ones 16). rewrite Z.land_ones by lia.
  change (2 ^ 16) with 65536.
  symmetry. apply Z.mod_unique with (2 * c); lia.
Qed.

Lemma can_id_response c h :
  0 <= c < 256 -> 0 <= h < 65536 ->
  bitRead (c * 131072 + h) 16 = 0.
Proof.
  intros Hc Hh. unfold bitRead.
  rewrite Z.shiftr_div_pow2 by lia. change (2 ^ 16) with 65536.
  replace ((c * 131072 + h) / 65536) with (2 * c)
    by (apply Z.div_unique with h; lia).
  change 1 with (Z.ones 1). rewrite Z.land_ones by lia.
  change (2 ^ 1) with 2. rewrite Z.mul_comm. apply Z.mod_mul. lia.
Qed.

(* ================================================================== *)
(** * The binary codec: [fromCanMsg] *)
(* ================================================================== *)

Lemma get_data_set_data i j v m :
  get_data (set_data i v m) j =
  if decide (i = j /\ (i < length (msg_data m))%nat) then to_byte v else get_data m j.
Proof.
  unfold get_data, byte_at, set_data; simpl.
  destruct (decide (i = j)) as [->|Hne].
  - destruct (decide (j < length (msg_data m))%nat) as [Hlt|Hge].
    + rewrite list_lookup_insert_eq by assumption.
      rewrite decide_True; [reflexivity|split; [reflexivity|assumption]].
    + rewrite list_insert_ge by lia.
      rewrite decide_False; [reflexivity|intros [_ ?]; contradiction].
  - rewrite list_lookup_insert_ne by assumption.
    rewrite decide_False; [reflexivity|intros [? _]; contradiction].
Qed.

(** The copy loop changes cells [i .. i+n-1] only, and only [data]. *)
Lemma fromCanMsg_data_fields aBuf n : forall i m,
  let m' := fromCanMsg_data aBuf i n m in
  msg_command m' = msg_command m /\ msg_hash m' = msg_hash m /\
  msg_response m' = msg_response m /\ msg_length m' = msg_length m /\
  length (msg_data m') = length (msg_data m).
Proof.
  induction n as [|n IH]; intros i m; simpl.
  - repeat split.
  - destruct (IH (S i) (set_data i (byte_at aBuf i) m)) as (Hc & Hh & Hr & Hl & Hd).
    rewrite Hc, Hh, Hr, Hl, Hd. simpl. rewrite length_insert. repeat split.
Qed.

Lemma fromCanMsg_data_cell aBuf n : forall i m j,
  get_data (fromCanMsg_data aBuf i n m) j =
  if decide ((i <= j < i + n)%nat /\ (j < length (msg_data m))%nat)
  then to_byte (byte_at aBuf j) else get_data m j.
Proof.
  induction n as [|n IH]; intros i m j; simpl.
  - rewrite decide_False by lia. reflexivity.
  - rewrite IH, get_data_set_data. simpl. rewrite length_insert.
    repeat case_decide; try reflexivity; try lia.
    destruct H0 as [-> _]. reflexivity.
Qed.

Lemma get_data_clear m j : get_data (clear m) j = 0.
Proof.
  unfold get_data, byte_at, clear; cbn [msg_data].
  destruct (decide (j < 8)%nat).
  - rewrite lookup_replicate_2 by assumption. reflexivity.
  - rewrite lookup_ge_None_2; [reflexivity|].
    rewrite length_replicate. lia.
Qed.

Lemma byte_at_range buf i :
  Forall (fun b => 0 <= b < 256) buf -> 0 <= byte_at buf i < 256.
Proof.
  intros H. unfold byte_at.
  destruct (buf !! i) as [b|] eqn:E; simpl; [|lia].
  rewrite Forall_forall in H. apply H.
  eapply list_elem_of_lookup_2. exact E.
Qed.

Lemma get_data_range m i : wf_message m -> 0 <= get_data m i < 256.
Proof. intros H. apply byte_at_range, (wf_bytes _ H). Qed.

Lemma wf_messageb_sound m : wf_messageb m = true -> wf_message m.
Proof.
  unfold wf_messageb. rewrite !andb_true_iff.
  intros [[[[[[[H1 H2] H3] H4] H5] H6] H7] H8].
  constructor; try lia.
  - apply Nat.eqb_eq. assumption.
  - rewrite forallb_forall in H8. apply Forall_forall. intros b Hb.
    apply list_elem_of_In, H8 in Hb. lia.
Qed.

Lemma valid_messageb_sound m : valid_messageb m = true -> valid_message m.
Proof.
  unfold valid_messageb. rewrite andb_true_iff. intros [Hwf Htail].
  constructor; [apply wf_messageb_sound; assumption|].
  intros i Hi. unfold get_data, byte_at.
  destruct (msg_data m !! i) as [b|] eqn:E; simpl; [|reflexivity].
  rewrite forallb_forall in Htail.
  assert (Hin : In b (drop (Z.to_nat (msg_length m)) (msg_data m))).
  { apply list_elem_of_In. apply list_elem_of_lookup.
    exists (i - Z.to_nat (msg_length m))%nat.
    rewrite lookup_drop. rewrite <- E. f_equal. lia. }
  apply Htail in Hin. lia.
Qed.

Lemma byte_at_take buf n i : (i < n)%nat -> byte_at (take n buf) i = byte_at buf i.
Proof. intros H. unfold byte_at. rewrite lookup_take_lt by assumption. reflexivity. Qed.

(** [fromCanMsg], field by field. *)
Lemma fromCanMsg_fields m0 aId aExt aRtr aLen aBuf :
  exists m',
    fromCanMsg m0 aId aExt aRtr aLen aBuf = (true, m') /\
    msg_command m' = to_byte (Z.land (Z.shiftr aId 17) 255) /\
    msg_hash m' = to_word (Z.land aId 65535) /\
    msg_response m' = negb (bitRead aId 16 =? 0) /\
    msg_length m' = to_byte aLen /\
    length (msg_data m') = 8%nat /\
    forall i : nat,
      get_data m' i =
      if decide (i < Z.to_nat (to_byte aLen) /\ i < 8)%nat
      then to_byte (byte_at aBuf i) else 0.
Proof.
  unfold fromCanMsg. eexists. split; [reflexivity|].
  match goal with |- context [fromCanMsg_data ?b ?i ?n ?m] =>
    pose proof (fromCanMsg_data_fields b n i m) as Hf;
    pose proof (fromCanMsg_data_cell b n i m) as Hc
  end.
  cbv zeta in Hf. destruct Hf as (H1 & H2 & H3 & H4 & H5).
  rewrite H1, H2, H3, H4, H5. cbn [msg_command msg_hash msg_response msg_length
    msg_data set_length set_response set_hash set_command clear] in *.
  repeat split; try reflexivity.
  intros i. rewrite Hc.
  rewrite length_replicate.
  repeat case_decide; try reflexivity; try lia.
  apply (get_data_clear m0).
Qed.

Lemma sent_frames_app t1 t2 :
  sent_frames (t1 ++ t2) = sent_frames t1 ++ sent_frames t2.
Proof.
  induction t1 as [|e t1 IH]; [reflexivity|].
  destruct e; simpl; rewrite IH; reflexivity.
Qed.

Lemma bus_events_app t1 t2 :
  bus_events (t1 ++ t2) = bus_events t1 ++ bus_events t2.
Proof.
  induction t1 as [|e t1 IH]; [reflexivity|].
  destruct e; simpl; rewrite IH; reflexivity.
Qed.

(** Unfolding the monad and the primitive actions, and nothing else. *)
Ltac run_M :=
  cbv beta iota zeta delta
    [mbind M_bind mret M_ret emit serial_print serial_println delay sendMsgBuf
     millis checkReceive readMsgBufID spin out_of_fuel when_debug];
  cbn [w_clock w_nclock w_tx w_ntx w_rx w_trace].

Ltac trace_simpl :=
  rewrite ?sent_frames_app, ?bus_events_app;
  cbn [sent_frames bus_events];
  rewrite ?app_nil_r.

(** [sendMessage] always returns: it stamps the hash, hands one frame to
    the driver and reports whether the driver took it. *)
Lemma sendMessage_run ctl m w :
  exists w',
    sendMessage ctl m w
    = Ret (to_byte (w_tx w (w_ntx w)) =? CAN_OK, set_hash (mHash ctl) m) w' /\
    sent_frames (w_trace w') = sent_frames (w_trace w) ++ [sent_frame ctl m] /\
    bus_events (w_trace w')
    = bus_events (w_trace w) ++ [EvSend (sent_frame ctl m) (to_byte (w_tx w (w_ntx w)))] /\
    w_rx w' = w_rx w /\ w_clock w' = w_clock w /\ w_nclock w' = w_nclock w /\
    w_tx w' = w_tx w /\ w_ntx w' = S (w_ntx w).
Proof.
  unfold sendMessage, sent_frame, frame_of.
  destruct (mDebug ctl) eqn:Hd; run_M; rewrite ?Hd; run_M;
    (eexists; split; [reflexivity|]); run_M; trace_simpl;
    repeat split; reflexivity.
Qed.

(** [fromCanMsg] reports success whatever byte count it is handed, and
    stores that count as the message's [length]. *)
Lemma fromCanMsg_never_rejects m0 aId aExt aRtr aLen aBuf :
  fst (fromCanMsg m0 aId aExt aRtr aLen aBuf) = true /\
  msg_length (snd (fromCanMsg m0 aId aExt aRtr aLen aBuf)) = to_byte aLen.
Proof.
  destruct (fromCanMsg_fields m0 aId aExt aRtr aLen aBuf) as (m' & -> & _ & _ & _ & Hl & _).
  split; [reflexivity | exact Hl].
Qed.

(** C6 (code defect): [fromCanMsg] does not reject a frame that declares more
    than 8 payload bytes.  Handed a byte count of 9 it reports success and
    leaves a message whose [length] is 9; [receiveMessage] passes such a frame
    on as received.  [parseFrom], the other decode path, refuses a length
    above 8. *)
Theorem fromCanMsg_accepts_length_9 :
  let buf := [1; 2; 3; 4; 5; 6; 7; 8; 9] in
  let f := mkFrame 589923 1 0 9 buf in
  let w := mkWorld (fun k => Z.of_nat k) 0 (fun _ => CAN_OK) 0 [Some f] [] in
  fst (fromCanMsg new_message 589923 1 0 9 buf) = true /\
  msg_length (snd (fromCanMsg new_message 589923 1 0 9 buf)) = 9 /\
  (exists m' w', receiveMessage (mkController 4660 false) new_message w
                 = Ret (true, m') w' /\ msg_length m' = 9) /\
  fst (parseFrom new_message "1234 R 04 9 01 02 03 04 05 06 07 08 09") = false.
Proof.
  cbv zeta. split; [reflexivity|]. split; [reflexivity|].
  split; [|reflexivity].
  eexists; eexists. split; reflexivity.
Qed.

Lemma wf_message_set_hash h m : wf_message m -> wf_message (set_hash h m).
Proof.
  intros [Hc Hh Hl Hn Hb]. constructor; cbn [set_hash msg_command msg_hash msg_length msg_data];
    try assumption. auto with machine_int.
Qed.

(** Decoding the frame that encodes a well-formed message. *)
Lemma fromCanMsg_frame_of (m m0 : TrackMessage) :
  wf_message m ->
  let f := frame_of m in
  exists m',
    fromCanMsg m0 (can_id f) (can_ext f) (can_rtr f) (can_len f) (can_buf f) = (true, m') /\
    msg_command m' = msg_command m /\
    msg_hash m' = msg_hash m /\
    msg_response m' = false /\
    msg_length m' = msg_length m /\
    (forall i : nat, (i < Z.to_nat (msg_length m))%nat -> get_data m' i = get_data m i) /\
    (forall i : nat, (Z.to_nat (msg_length m) <= i)%nat -> get_data m' i = 0).
Proof.
  intros Hwf f.
  pose proof (wf_command _ Hwf) as Hc.
  pose proof (wf_hash _ Hwf) as Hh.
  pose proof (wf_length _ Hwf) as Hl.
  destruct (fromCanMsg_fields m0 (can_id f) (can_ext f) (can_rtr f) (can_len f) (can_buf f))
    as (m' & Hrun & H1 & H2 & H3 & H4 & _ & H6).
  exists m'. split; [exact Hrun|].
  assert (Hid : can_id f = msg_command m * 131072 + msg_hash m).
  { unfold f, frame_of; cbn [can_id]. apply can_id_of_value; assumption. }
  assert (Hlen : to_byte (can_len f) = msg_length m).
  { unfold f, frame_of; cbn [can_len]. apply to_byte_small. lia. }
  rewrite Hid in H1, H2, H3. rewrite Hlen in H4, H6.
  rewrite can_id_command in H1 by assumption.
  rewrite can_id_hash in H2 by assumption.
  rewrite can_id_response in H3 by assumption.
  rewrite to_byte_small in H1 by assumption.
  rewrite to_word_small in H2 by assumption.
  repeat split; try assumption.
  - intros i Hi. rewrite H6. rewrite decide_True by lia.
    unfold f, frame_of; cbn [can_buf].
    rewrite byte_at_take by assumption.
    apply to_byte_small. apply (get_data_range m i Hwf).
  - intros i Hi. rewrite H6. rewrite decide_False by lia. reflexivity.
Qed.

(** C5: for every message [m] (fields within their types, [length] at most
    8), the frame that encodes [m] has the identifier [command << 17 | hash]
    and [length] payload bytes, and [fromCanMsg] applied to it gives back
    [m]'s command, [m]'s hash, [response = false], [m]'s length and [m]'s
    first [length] data bytes, with zeros after them.  [sendMessage] hands the
    driver the frame that encodes [m] with the controller's hash stamped into
    it, so decoding what was sent gives [m]'s command and bytes and that
    hash. *)
Theorem fromCanMsg_sent_frame (ctl : TrackController) (m m0 : TrackMessage) (w : World) :
  wf_message m ->
  let f := frame_of m in
  can_id f = Z.lor (to_ulong (Z.shiftl (to_ulong (msg_command m)) 17))
                   (to_ulong (msg_hash m)) /\
  can_len f = msg_length m /\
  (exists m',
     fromCanMsg m0 (can_id f) (can_ext f) (can_rtr f) (can_len f) (can_buf f) = (true, m') /\
     msg_command m' = msg_command m /\
     msg_hash m' = msg_hash m /\
     msg_response m' = false /\
     msg_length m' = msg_length m /\
     (forall i : nat, (i < Z.to_nat (msg_length m))%nat -> get_data m' i = get_data m i) /\
     (forall i : nat, (Z.to_nat (msg_length m) <= i)%nat -> get_data m' i = 0)) /\
  let m1 := set_hash (mHash ctl) m in
  let f1 := sent_frame ctl m in
  (exists ok w', sendMessage ctl m w = Ret (ok, m1) w' /\
                 sent_frames (w_trace w') = sent_frames (w_trace w) ++ [f1]) /\
  f1 = frame_of m1 /\
  exists m',
    fromCanMsg m0 (can_id f1) (can_ext f1) (can_rtr f1) (can_len f1) (can_buf f1)
    = (true, m') /\
    msg_command m' = msg_command m /\
    msg_hash m' = msg_hash m1 /\
    msg_response m' = false /\
    msg_length m' = msg_length m /\
    (forall i : nat, (i < Z.to_nat (msg_length m))%nat -> get_data m' i = get_data m i) /\
    (forall i : nat, (Z.to_nat (msg_length m) <= i)%nat -> get_data m' i = 0).
Proof.
  intros Hwf f.
  split; [reflexivity|]. split; [reflexivity|].
  split; [exact (fromCanMsg_frame_of m m0 Hwf)|].
  intros m1 f1. split.
  { destruct (sendMessage_run ctl m w) as (w' & Hrun & Hs & _).
    eexists; exists w'. split; [exact Hrun | exact Hs]. }
  split; [reflexivity|].
  exact (fromCanMsg_frame_of m1 m0 (wf_message_set_hash _ _ Hwf)).
Qed.

Lemma fromCanMsg_sent_frame_witness :
  let m := mkMessage 4 4660 true 6 [0; 0; 192; 5; 3; 232; 0; 0] in
  wf_message m /\
  exists m',
    fromCanMsg new_message (can_id (frame_of m)) 1 0 6 (can_buf (frame_of m))
    = (true, m') /\
    msg_command m' = 4 /\ msg_hash m' = 4660 /\ msg_response m' = false.
Proof.
  cbv zeta.
  assert (Hwf : wf_message (mkMessage 4 4660 true 6 [0; 0; 192; 5; 3; 232; 0; 0]))
    by (apply wf_messageb_sound; reflexivity).
  split; [exact Hwf|].
  destruct (fromCanMsg_sent_frame (mkController 4660 false) _ new_message
              (mkWorld (fun _ => 0) 0 (fun _ => 0) 0 [] []) Hwf)
    as (_ & _ & (m' & Hrun & Hc & Hh & Hr & _) & _).
  exists m'. repeat split; assumption.
Defined.

(* ================================================================== *)
(** * Strings *)
(* ================================================================== *)

Lemma str_length_app (a b : string) :
  String.length (a ++ b) = (String.length a + String.length b)%nat.
Proof. induction a as [|c a IH]; simpl; [reflexivity|]. rewrite IH. reflexivity. Qed.

Lemma str_app_assoc (a b c : string) : ((a ++ b) ++ c = a ++ (b ++ c))%string.
Proof. induction a as [|x a IH]; simpl; [reflexivity|]. rewrite IH. reflexivity. Qed.

Lemma str_app_nil_r (a : string) : (a ++ "")%string = a.
Proof. induction a as [|x a IH]; simpl; [reflexivity|]. rewrite IH. reflexivity. Qed.

Lemma charAt_cons c s i : charAt (String c s) (S i) = charAt s i.
Proof. reflexivity. Qed.

(** Reading past a prefix of known length. *)
Lemma charAt_app_r (a s : string) (k j : nat) :
  String.length a = k -> (k <= j)%nat -> charAt (a ++ s) j = charAt s (j - k).
Proof.
  intros <-. revert j. induction a as [|c a IH]; intros j Hj; simpl.
  - rewrite Nat.sub_0_r. reflexivity.
  - destruct j as [|j]; [simpl in Hj; lia|].
    rewrite charAt_cons. apply IH. simpl in Hj. lia.
Qed.

Lemma charAt_app_l (a s : string) (j : nat) :
  (j < String.length a)%nat -> charAt (a ++ s) j = charAt a j.
Proof.
  revert j. induction a as [|c a IH]; intros j Hj; simpl in *; [lia|].
  destruct j as [|j]; [reflexivity|]. rewrite !charAt_cons. apply IH. lia.
Qed.

Lemma charAt_past (s : string) (j : nat) :
  (String.length s <= j)%nat -> charAt s j = Ascii.zero.
Proof.
  revert j. induction s as [|c s IH]; intros j Hj; [destruct j; reflexivity|].
  destruct j as [|j]; [simpl in Hj; lia|]. rewrite charAt_cons. apply IH. simpl in Hj. lia.
Qed.

(* ================================================================== *)
(** * [parseHex] *)
(* ================================================================== *)

(** One turn of the loop, through [hex_value]. *)
Lemma parseHex_loop_step s i n value :
  parseHex_loop s i (S n) value =
  match hex_value (charAt s i) with
  | Some d => parseHex_loop s (S i) n (to_int (16 * value + d))
  | None => None
  end.
Proof.
  simpl. unfold hex_value.
  destruct ((48 <=? char_code (charAt s i)) && (char_code (charAt s i) <=? 57)).
  { f_equal. f_equal. lia. }
  destruct ((97 <=? char_code (charAt s i)) && (char_code (charAt s i) <=? 102)).
  { f_equal. f_equal. lia. }
  destruct ((65 <=? char_code (charAt s i)) && (char_code (charAt s i) <=? 70)).
  { f_equal. f_equal. lia. }
  reflexivity.
Qed.

Lemma parseHex_loop_app_r (a s : string) (k : nat) n : forall j value,
  String.length a = k -> (k <= j)%nat ->
  parseHex_loop (a ++ s) j n value = parseHex_loop s (j - k) n value.
Proof.
  induction n as [|n IH]; intros j value Hk Hj; [reflexivity|].
  rewrite !parseHex_loop_step.
  rewrite (charAt_app_r a s k j Hk Hj).
  destruct (hex_value (charAt s (j - k))); [|reflexivity].
  rewrite IH by (assumption || lia).
  replace (S j - k)%nat with (S (j - k)) by lia. reflexivity.
Qed.

(** The loop over [n1 + n2] characters is the loop over [n1] followed by
    the loop over [n2]. *)
Lemma parseHex_loop_split s n1 n2 : forall i value,
  parseHex_loop s i (n1 + n2) value =
  match parseHex_loop s i n1 value with
  | Some v => parseHex_loop s (i + n1) n2 v
  | None => None
  end.
Proof.
  induction n1 as [|n1 IH]; intros i value.
  - simpl. rewrite Nat.add_0_r. reflexivity.
  - change (S n1 + n2)%nat with (S (n1 + n2)).
    rewrite !parseHex_loop_step.
    destruct (hex_value (charAt s i)); [|reflexivity].
    rewrite IH. replace (S i + n1)%nat with (i + S n1)%nat by lia. reflexivity.
Qed.

Lemma parseHex_loop_snoc s n i value :
  parseHex_loop s i (S n) value =
  match parseHex_loop s i n value with
  | Some v => parseHex_loop s (i + n) 1 v
  | None => None
  end.
Proof. rewrite <- parseHex_loop_split. f_equal. lia. Qed.

(** Whether the loop succeeds depends on the characters only. *)
Lemma parseHex_loop_ok s n : forall i value,
  match parseHex_loop s i n value with Some _ => true | None => false end
  = forallb (hex_at s) (seq i n).
Proof.
  induction n as [|n IH]; intros i value; [reflexivity|].
  rewrite parseHex_loop_step. simpl. unfold hex_at at 1, is_hex.
  destruct (hex_value (charAt s i)); [apply IH | reflexivity].
Qed.

(* ================================================================== *)
(** * [printHex] *)
(* ================================================================== *)

Lemma length_fixhex d : forall v, String.length (fixhex d v) = d.
Proof.
  induction d as [|d IH]; intros v; simpl; [reflexivity|].
  rewrite str_length_app, IH. simpl. lia.
Qed.

Lemma fixhex_0 d : fixhex d 0 = zeros d.
Proof.
  induction d as [|d IH]; [reflexivity|].
  simpl fixhex. change (0 / 16) with 0. rewrite IH.
  change (digit_char (0 mod 16)) with "0"%char.
  clear IH. induction d as [|d IH]; [reflexivity|].
  simpl. rewrite IH. reflexivity.
Qed.

(** [ultoa] writes the digits of [value] in front of [acc]; it writes [k]
    of them, [k] being the least width that holds [value]. *)
Lemma ultoa_fixhex fuel : forall value acc,
  0 <= value < 16 ^ Z.of_nat fuel -> (0 < fuel)%nat ->
  exists k : nat,
    (1 <= k <= fuel)%nat /\
    ultoa fuel value 16 acc = (fixhex k value ++ acc)%string /\
    value < 16 ^ Z.of_nat k /\
    (k = 1%nat \/ 16 ^ Z.of_nat (k - 1) <= value).
Proof.
  induction fuel as [|fuel IH]; intros value acc Hv Hf; [lia|].
  simpl ultoa.
  destruct (value / 16 =? 0) eqn:E.
  - apply Z.eqb_eq in E. exists 1%nat.
    assert (value < 16).
    { destruct (Z.lt_ge_cases value 16) as [?|Hge]; [assumption|].
      assert (1 <= value / 16) by (apply Z.div_le_lower_bound; lia). lia. }
    split; [lia|]. split; [reflexivity|].
    split; [change (16 ^ Z.of_nat 1) with 16; assumption | left; reflexivity].
  - apply Z.eqb_neq in E.
    assert (Hq : 0 <= value / 16 < 16 ^ Z.of_nat fuel).
    { split; [apply Z.div_pos; lia|].
      apply Z.div_lt_upper_bound; [lia|].
      rewrite Nat2Z.inj_succ, Z.pow_succ_r in Hv by lia. lia. }
    assert (Hfuel : (0 < fuel)%nat).
    { destruct fuel; [|lia]. simpl in Hq. lia. }
    destruct (IH (value / 16) (String (digit_char (value mod 16)) acc) Hq Hfuel)
      as (k & Hk & Hrun & Hlt & Hmin).
    exists (S k). split; [lia|]. split; [|split].
    + rewrite Hrun. simpl fixhex. rewrite str_app_assoc. reflexivity.
    + rewrite Nat2Z.inj_succ, Z.pow_succ_r by lia.
      pose proof (Z.div_mod value 16 ltac:(lia)).
      pose proof (Z.mod_pos_bound value 16 ltac:(lia)). lia.
    + right. replace (S k - 1)%nat with k by lia.
      destruct Hmin as [->|Hmin].
      * change (16 ^ Z.of_nat 1) with 16.
        pose proof (Z.div_mod value 16 ltac:(lia)).
        pose proof (Z.mod_pos_bound value 16 ltac:(lia)).
        assert (0 < value / 16) by lia. lia.
      * destruct k as [|k]; [lia|].
        replace (S k - 1)%nat with k in Hmin by lia.
        rewrite Nat2Z.inj_succ, Z.pow_succ_r by lia.
        pose proof (Z.div_mod value 16 ltac:(lia)).
        pose proof (Z.mod_pos_bound value 16 ltac:(lia)). lia.
Qed.

(** Leading zero digits of a wider rendering. *)
Lemma fixhex_pad k : forall value p,
  0 <= value < 16 ^ Z.of_nat k ->
  fixhex (p + k) value = (zeros p ++ fixhex k value)%string.
Proof.
  induction k as [|k IH]; intros value p Hv.
  - simpl in Hv. assert (value = 0) by lia. subst.
    rewrite Nat.add_0_r, fixhex_0. simpl. rewrite str_app_nil_r. reflexivity.
  - replace (p + S k)%nat with (S (p + k)) by lia. simpl fixhex.
    rewrite IH.
    + rewrite str_app_assoc. reflexivity.
    + rewrite Nat2Z.inj_succ, Z.pow_succ_r in Hv by lia.
      split; [apply Z.div_pos; lia|]. apply Z.div_lt_upper_bound; lia.
Qed.

(** [printHex] of a value that fits in [d] digits is its [d]-digit form. *)
Lemma printHex_fixhex (d : nat) (v : Z) :
  (1 <= d <= 8)%nat -> 0 <= v < 16 ^ Z.of_nat d -> printHex v d = fixhex d v.
Proof.
  intros Hd Hv. unfold printHex, String_of_ulong, HEX.
  assert (Hpow : 16 ^ Z.of_nat d <= 16 ^ 8) by (apply Z.pow_le_mono_r; lia).
  change (16 ^ 8) with 4294967296 in Hpow.
  rewrite to_ulong_small by lia.
  destruct (ultoa_fixhex 32 v EmptyString) as (k & Hk & Hrun & Hlt & Hmin).
  { change (16 ^ Z.of_nat 32) with 340282366920938463463374607431768211456. lia. }
  { lia. }
  rewrite Hrun, str_app_nil_r, length_fixhex.
  assert (Hkd : (k <= d)%nat).
  { destruct Hmin as [->|Hmin]; [lia|].
    destruct (le_lt_dec k d) as [?|Hgt]; [assumption|].
    assert (16 ^ Z.of_nat d <= 16 ^ Z.of_nat (k - 1)) by (apply Z.pow_le_mono_r; lia).
    lia. }
  replace d with ((d - k) + k)%nat at 2 by lia.
  rewrite fixhex_pad by lia. reflexivity.
Qed.

(* ================================================================== *)
(** * Reading back what [printHex] wrote *)
(* ================================================================== *)

Lemma hex_value_digit_char x : 0 <= x < 16 -> hex_value (digit_char x) = Some x.
Proof.
  intros H.
  assert (Hx : x = 0 \/ x = 1 \/ x = 2 \/ x = 3 \/ x = 4 \/ x = 5 \/ x = 6 \/ x = 7 \/
               x = 8 \/ x = 9 \/ x = 10 \/ x = 11 \/ x = 12 \/ x = 13 \/ x = 14 \/ x = 15)
    by lia.
  repeat (destruct Hx as [->|Hx]; [reflexivity|]). subst. reflexivity.
Qed.

(** [to_int] changes a value by a multiple of 65536. *)
Lemma to_int_cong x : exists k, to_int x = x + 65536 * k.
Proof.
  unfold to_int. exists (- ((x + 32768) / 65536)).
  pose proof (Z.div_mod (x + 32768) 65536 ltac:(lia)). lia.
Qed.

Lemma to_word_cong r v k : r = v + 65536 * k -> 0 <= v < 65536 -> to_word r = v.
Proof.
  intros -> Hv. unfold to_word.
  replace (v + 65536 * k) with (v + k * 65536) by lia.
  rewrite Z.mod_add by lia. apply Z.mod_small. assumption.
Qed.

Lemma to_byte_cong r v k : r = v + 65536 * k -> 0 <= v < 256 -> to_byte r = v.
Proof.
  intros -> Hv. unfold to_byte.
  replace (v + 65536 * k) with (v + (256 * k) * 256) by lia.
  rewrite Z.mod_add by lia. apply Z.mod_small. assumption.
Qed.

(** Reading [d] digits written by [fixhex] gives the value back, up to the
    wrap-around of [int]. *)
Lemma parseHex_loop_fixhex d : forall v rest acc,
  0 <= v ->
  exists r k,
    parseHex_loop (fixhex d v ++ rest) 0 d acc = Some r /\
    r = acc * 16 ^ Z.of_nat d + v mod 16 ^ Z.of_nat d + 65536 * k.
Proof.
  induction d as [|d IH]; intros v rest acc Hv.
  - exists acc, 0. split; [reflexivity|]. simpl. rewrite Z.mod_1_r. lia.
  - simpl fixhex. rewrite str_app_assoc.
    rewrite parseHex_loop_snoc.
    destruct (IH (v / 16) (String (digit_char (v mod 16)) "" ++ rest)%string acc)
      as (r1 & k1 & Hrun & Hr1); [apply Z.div_pos; lia|].
    rewrite Hrun. simpl Nat.add.
    rewrite (parseHex_loop_app_r _ _ d) by (apply length_fixhex || lia).
    rewrite Nat.sub_diag. rewrite parseHex_loop_step.
    change (charAt (String (digit_char (v mod 16)) "" ++ rest) 0)
      with (digit_char (v mod 16)).
    pose proof (Z.mod_pos_bound v 16 ltac:(lia)) as Hm.
    rewrite hex_value_digit_char by assumption.
    destruct (to_int_cong (16 * r1 + v mod 16)) as (k2 & Hk2).
    eexists; exists (16 * k1 + k2). split; [reflexivity|].
    rewrite Hk2, Hr1.
    rewrite Nat2Z.inj_succ, Z.pow_succ_r by lia.
    rewrite (Z.rem_mul_r v 16 (16 ^ Z.of_nat d)) by lia. lia.
Qed.

(** Reading a field that [printHex] wrote, wherever it stands in the text. *)
Lemma parseHex_printHex (pre rest : string) (d : nat) (v : Z) (start : nat) (ok : bool) :
  (1 <= d <= 8)%nat -> 0 <= v < 16 ^ Z.of_nat d ->
  String.length pre = start ->
  exists r k,
    parseHex (pre ++ printHex v d ++ rest) start (start + d) ok = (r, ok) /\
    r = v + 65536 * k.
Proof.
  intros Hd Hv Hpre. unfold parseHex.
  replace (start + d - start)%nat with d by lia.
  rewrite (parseHex_loop_app_r _ _ start) by (assumption || lia).
  rewrite Nat.sub_diag, printHex_fixhex by assumption.
  destruct (parseHex_loop_fixhex d v rest 0) as (r & k & Hrun & Hr); [lia|].
  rewrite Hrun. exists r, k. split; [reflexivity|].
  rewrite Hr, Z.mod_small by assumption. lia.
Qed.

(* ================================================================== *)
(** * The textual codec: [printTo] then [parseFrom] *)
(* ================================================================== *)

Lemma length_printHex (d : nat) (v : Z) :
  (1 <= d <= 8)%nat -> 0 <= v < 16 ^ Z.of_nat d -> String.length (printHex v d) = d.
Proof. intros Hd Hv. rewrite printHex_fixhex by assumption. apply length_fixhex. Qed.

Lemma length_printTo_data m n : forall i,
  wf_message m -> String.length (printTo_data m i n) = (3 * n)%nat.
Proof.
  induction n as [|n IH]; intros i Hwf; [reflexivity|].
  simpl printTo_data. cbn [String.length].
  rewrite !str_length_app, IH by assumption.
  rewrite length_printHex; [lia | lia |].
  change (16 ^ Z.of_nat 2) with 256. apply get_data_range. assumption.
Qed.

Lemma byte_list_ext (l1 l2 : list Z) :
  length l1 = length l2 -> (forall j, byte_at l1 j = byte_at l2 j) -> l1 = l2.
Proof.
  intros Hlen Hcell. apply list_eq. intros j.
  specialize (Hcell j). unfold byte_at in Hcell.
  destruct (decide (j < length l1)%nat) as [Hlt|Hge].
  - destruct (lookup_lt_is_Some_2 l1 j Hlt) as [x Hx].
    destruct (lookup_lt_is_Some_2 l2 j ltac:(lia)) as [y Hy].
    rewrite Hx, Hy in *. simpl in Hcell. congruence.
  - rewrite !lookup_ge_None_2 by lia. reflexivity.
Qed.

Lemma printTo_data_S m i n :
  printTo_data m i (S n)
  = (" " ++ (printHex (get_data m i) 2 ++ printTo_data m (S i) n))%string.
Proof. reflexivity. Qed.

Lemma parseFrom_data_S s i n m result :
  parseFrom_data s i (S n) m result =
  let '(v, result') := parseHex s (12 + 3 * i) (12 + 3 * i + 2) result in
  parseFrom_data s (S i) n (set_data i v m) result'.
Proof. reflexivity. Qed.

(** The data loop of [parseFrom] reads back what the data loop of
    [printTo] wrote. *)
Lemma parseFrom_data_printTo m : wf_message m -> forall n i pre m',
  String.length pre = (11 + 3 * i)%nat ->
  length (msg_data m') = 8%nat ->
  (i + n <= 8)%nat ->
  exists m'',
    parseFrom_data (pre ++ printTo_data m i n) i n m' true = (m'', true) /\
    msg_command m'' = msg_command m' /\ msg_hash m'' = msg_hash m' /\
    msg_response m'' = msg_response m' /\ msg_length m'' = msg_length m' /\
    length (msg_data m'') = 8%nat /\
    forall j, get_data m'' j =
              if decide (i <= j < i + n)%nat then get_data m j else get_data m' j.
Proof.
  intros Hwf. induction n as [|n IH]; intros i pre m' Hpre Hcells Hin.
  - exists m'. simpl. repeat split; try assumption.
    intros j. rewrite decide_False by lia. reflexivity.
  - rewrite printTo_data_S, parseFrom_data_S.
    assert (Hb : 0 <= get_data m i < 16 ^ Z.of_nat 2)
      by (change (16 ^ Z.of_nat 2) with 256; apply get_data_range; assumption).
    rewrite <- (str_app_assoc pre " ").
    destruct (parseHex_printHex (pre ++ " ") (printTo_data m (S i) n) 2 (get_data m i)
                (12 + 3 * i) true) as (r & k & Hrun & Hr);
      [lia | exact Hb | rewrite str_length_app, Hpre; simpl; lia |].
    rewrite Hrun.
    rewrite <- (str_app_assoc (pre ++ " ")).
    destruct (IH (S i) ((pre ++ " ") ++ printHex (get_data m i) 2)%string (set_data i r m'))
      as (m'' & Hrun' & Hc & Hh & Hrs & Hl & Hd & Hcell).
    { rewrite !str_length_app, Hpre, length_printHex by (lia || exact Hb). simpl. lia. }
    { simpl. rewrite length_insert. assumption. }
    { lia. }
    exists m''. split; [exact Hrun'|].
    repeat split; try assumption.
    intros j. rewrite Hcell, get_data_set_data.
    repeat case_decide; try reflexivity; try lia.
    destruct H0 as [-> _].
    apply (to_byte_cong r _ k Hr). apply get_data_range. assumption.
Qed.

Lemma length_printTo m :
  wf_message m ->
  String.length (printTo m) = (11 + 3 * Z.to_nat (msg_length m))%nat.
Proof.
  intros Hwf. unfold printTo.
  pose proof (wf_command _ Hwf). pose proof (wf_hash _ Hwf). pose proof (wf_length _ Hwf).
  rewrite !str_length_app, length_printTo_data by assumption.
  rewrite !length_printHex;
    try lia; try (change (16 ^ Z.of_nat 4) with 65536; lia);
    try (change (16 ^ Z.of_nat 2) with 256; lia);
    try (change (16 ^ Z.of_nat 1) with 16; lia).
  destruct (msg_response m); simpl; lia.
Qed.

(** C3: for every valid message [m] (fields within their types, [length] at
    most 8, data bytes from index [length] on equal to zero), [parseFrom]
    applied to the text [printTo] writes for [m] succeeds and leaves exactly
    [m]: command, hash, response flag, length and all eight data bytes. *)
Theorem parseFrom_printTo (m m0 : TrackMessage) :
  valid_message m -> parseFrom m0 (printTo m) = (true, m).
Proof.
  intros [Hwf Htail].
  pose proof (wf_command _ Hwf) as Hc. pose proof (wf_hash _ Hwf) as Hh.
  pose proof (wf_length _ Hwf) as Hl. pose proof (wf_cells _ Hwf) as Hcells.
  pose proof (length_printTo m Hwf) as Hlen.
  set (n := Z.to_nat (msg_length m)) in *.
  set (sep := if msg_response m then " R "%string else "   "%string).
  assert (Hsep : String.length sep = 3%nat) by (unfold sep; destruct (msg_response m); reflexivity).
  set (D := printTo_data m 0 n).
  set (H4 := printHex (msg_hash m) 4).
  set (C2 := printHex (msg_command m) 2).
  set (L1 := printHex (msg_length m) 1).
  assert (HH4 : String.length H4 = 4%nat)
    by (apply length_printHex; [lia | change (16 ^ Z.of_nat 4) with 65536; lia]).
  assert (HC2 : String.length C2 = 2%nat)
    by (apply length_printHex; [lia | change (16 ^ Z.of_nat 2) with 256; lia]).
  assert (HL1 : String.length L1 = 1%nat)
    by (apply length_printHex; [lia | change (16 ^ Z.of_nat 1) with 16; lia]).
  assert (Hs : printTo m = (H4 ++ sep ++ C2 ++ " " ++ L1 ++ D)%string) by reflexivity.
  set (s := printTo m) in *.
  (* the hash field *)
  assert (E1 : exists r k, parseHex s 0 4 true = (r, true) /\ r = msg_hash m + 65536 * k).
  { rewrite Hs.
    apply (parseHex_printHex "" (sep ++ C2 ++ " " ++ L1 ++ D) 4 (msg_hash m) 0 true);
      [lia | change (16 ^ Z.of_nat 4) with 65536; lia | reflexivity]. }
  (* the response mark *)
  assert (E2 : negb (Ascii.eqb (charAt s 5) " ") = msg_response m).
  { rewrite Hs, (charAt_app_r H4 _ 4 5 HH4) by lia.
    unfold sep. destruct (msg_response m); reflexivity. }
  (* the command field *)
  assert (E3 : exists r k, parseHex s 7 9 true = (r, true) /\ r = msg_command m + 65536 * k).
  { rewrite Hs, <- (str_app_assoc H4 sep).
    apply (parseHex_printHex (H4 ++ sep) (" " ++ L1 ++ D) 2 (msg_command m) 7 true);
      [lia | change (16 ^ Z.of_nat 2) with 256; lia | rewrite str_length_app; lia]. }
  (* the length field *)
  assert (E4 : exists r k, parseHex s 10 11 true = (r, true) /\ r = msg_length m + 65536 * k).
  { rewrite Hs, <- (str_app_assoc H4 sep), <- (str_app_assoc (H4 ++ sep) C2),
      <- (str_app_assoc ((H4 ++ sep) ++ C2) " ").
    apply (parseHex_printHex (((H4 ++ sep) ++ C2) ++ " ") D 1 (msg_length m) 10 true);
      [lia | change (16 ^ Z.of_nat 1) with 16; lia | rewrite !str_length_app; simpl; lia]. }
  destruct E1 as (r1 & k1 & E1 & Hr1).
  destruct E3 as (r3 & k3 & E3 & Hr3).
  destruct E4 as (r4 & k4 & E4 & Hr4).
  unfold parseFrom. cbv zeta.
  destruct (Nat.ltb_spec (String.length s) 11) as [Hshort|_]; [lia|].
  rewrite E1, E2, E3, E4.
  cbn [msg_length set_length].
  rewrite (to_byte_cong r4 _ k4 Hr4) by lia.
  destruct (Z.ltb_spec 8 (msg_length m)) as [Hbig|_]; [lia|].
  destruct (Z.ltb_spec (Z.of_nat (String.length s)) (11 + 3 * msg_length m)) as [Hbig|_];
    [lia|].
  fold n.
  (* the data bytes *)
  match goal with |- context [parseFrom_data s 0 n ?m1 true] => set (m' := m1) end.
  destruct (parseFrom_data_printTo m Hwf n 0 (H4 ++ sep ++ C2 ++ " " ++ L1)%string m')
    as (m'' & Hrun & Hc' & Hh' & Hr' & Hl' & Hd' & Hcell).
  { rewrite !str_length_app. simpl. lia. }
  { reflexivity. }
  { lia. }
  assert (Hs' : s = ((H4 ++ sep ++ C2 ++ " " ++ L1) ++ D)%string).
  { rewrite Hs, !str_app_assoc. reflexivity. }
  rewrite Hs' at 1. fold D in Hrun. rewrite Hrun.
  f_equal.
  destruct m'' as [c'' h'' rs'' l'' d''], m as [c h rs l d].
  cbn [msg_command msg_hash msg_response msg_length msg_data] in *.
  subst m'. cbn [msg_command msg_hash msg_response msg_length set_length set_command
                 set_response set_hash clear] in *.
  rewrite (to_byte_cong r3 _ k3 Hr3) in Hc' by lia.
  rewrite (to_word_cong r1 _ k1 Hr1) in Hh' by lia.
  rewrite (to_byte_cong r4 _ k4 Hr4) in Hl' by lia.
  subst c'' h'' rs'' l''. f_equal.
  apply byte_list_ext; [congruence|].
  intros j. specialize (Hcell j).
  unfold get_data in Hcell, Htail. cbn [msg_data] in Hcell, Htail. rewrite Hcell.
  case_decide; [reflexivity|].
  rewrite Htail by lia. apply (get_data_clear m0 j).
Qed.

Lemma parseFrom_printTo_witness :
  let m := mkMessage 5 4660 true 2 [0; 1; 0; 0; 0; 0; 0; 0] in
  valid_message m /\ parseFrom new_message (printTo m) = (true, m).
Proof.
  cbv zeta.
  assert (Hv : valid_message (mkMessage 5 4660 true 2 [0; 1; 0; 0; 0; 0; 0; 0]))
    by (apply valid_messageb_sound; reflexivity).
  split; [exact Hv | exact (parseFrom_printTo _ new_message Hv)].
Defined.

(* ================================================================== *)
(** * The textual codec: which texts [parseFrom] takes *)
(* ================================================================== *)

Lemma hex_value_range ch d : hex_value ch = Some d -> 0 <= d < 16.
Proof.
  unfold hex_value.
  destruct ((48 <=? char_code ch) && (char_code ch <=? 57)) eqn:E1;
    [intros [= <-]; lia|].
  destruct ((97 <=? char_code ch) && (char_code ch <=? 102)) eqn:E2;
    [intros [= <-]; lia|].
  destruct ((65 <=? char_code ch) && (char_code ch <=? 70)) eqn:E3;
    [intros [= <-]; lia|].
  discriminate.
Qed.

(** The flag [parseHex] leaves in [*ok]. *)
Lemma parseHex_flag s a b ok :
  snd (parseHex s a b ok) = ok && forallb (hex_at s) (seq a (b - a)).
Proof.
  unfold parseHex.
  pose proof (parseHex_loop_ok s (b - a) a 0) as H.
  destruct (parseHex_loop s a (b - a) 0); simpl; rewrite <- H;
    destruct ok; reflexivity.
Qed.

(** The flag the data loop of [parseFrom] leaves in [result]. *)
Lemma parseFrom_data_flag s n : forall i m result,
  snd (parseFrom_data s i n m result)
  = result && forallb (fun i => forallb (hex_at s) (seq (12 + 3 * i) 2)) (seq i n).
Proof.
  induction n as [|n IH]; intros i m result.
  - simpl. rewrite andb_true_r. reflexivity.
  - rewrite parseFrom_data_S.
    pose proof (parseHex_flag s (12 + 3 * i) (12 + 3 * i + 2) result) as Hf.
    destruct (parseHex s (12 + 3 * i) (12 + 3 * i + 2) result) as [v r].
    cbn [snd] in Hf.
    replace (12 + 3 * i + 2 - (12 + 3 * i))%nat with 2%nat in Hf by lia.
    rewrite IH, Hf.
    cbn [seq forallb]. rewrite !andb_assoc. reflexivity.
Qed.

(** The length field: the digit's value, or 255 when the character at
    offset 10 is no digit. *)
Lemma parseHex_length_field s ok :
  to_byte (fst (parseHex s 10 11 ok)) =
  match hex_value (charAt s 10) with Some d => d | None => 255 end.
Proof.
  unfold parseHex. change (11 - 10)%nat with 1%nat.
  rewrite parseHex_loop_step.
  destruct (hex_value (charAt s 10)) as [d|] eqn:E; [|reflexivity].
  apply hex_value_range in E. simpl fst.
  unfold to_int, to_byte.
  rewrite (Z.mod_small (16 * 0 + d + 32768)) by lia.
  rewrite Z.mod_small by lia. lia.
Qed.

(** C4 (as amended): [parseFrom] succeeds exactly on the texts of at least
    11 characters that have hexadecimal digits at offsets 0-3, 7-8 and 10, a
    length digit [L] of at most 8, at least [11 + 3 * L] characters, and
    hexadecimal digits at offsets [12 + 3 * i] and [13 + 3 * i] for every
    [i < L].  So a text shorter than 11 characters, a length digit above 8 and
    a character that is no hexadecimal digit in a hexadecimal field are
    failures; the characters at the separator offsets 4, 6, 9 and
    [11 + 3 * i] are not looked at. *)
Theorem parseFrom_succeeds_iff (m0 : TrackMessage) (s : string) :
  fst (parseFrom m0 s) = parseFrom_accepts s.
Proof.
  unfold parseFrom, parseFrom_accepts. cbv zeta.
  destruct (Nat.ltb_spec (String.length s) 11) as [Hshort|Hlong].
  { destruct (Nat.leb_spec 11 (String.length s)); [lia|]. reflexivity. }
  destruct (Nat.leb_spec 11 (String.length s)) as [_|]; [|lia].
  pose proof (parseHex_flag s 0 4 true) as F1.
  destruct (parseHex s 0 4 true) as [h r1].
  pose proof (parseHex_flag s 7 9 r1) as F2.
  destruct (parseHex s 7 9 r1) as [c r2].
  pose proof (parseHex_flag s 10 11 r2) as F3.
  pose proof (parseHex_length_field s r2) as F4.
  destruct (parseHex s 10 11 r2) as [l r3].
  cbn [fst snd] in F1, F2, F3, F4.
  change (4 - 0)%nat with 4%nat in F1. change (9 - 7)%nat with 2%nat in F2.
  change (11 - 10)%nat with 1%nat in F3. cbn [seq forallb] in F3.
  cbn [msg_length set_length]. rewrite F4.
  unfold length_digit.
  change (hex_at s 10)
    with (match hex_value (charAt s 10) with Some _ => true | None => false end)
    in F3 |- *.
  destruct (hex_value (charAt s 10)) as [d|] eqn:E; cbn [default]; unfold id.
  - destruct (Z.ltb_spec 8 d) as [Hbig|Hfit].
    { destruct (Z.leb_spec d 8); [lia|].
      cbn [fst]. rewrite !andb_false_r. reflexivity. }
    destruct (Z.leb_spec d 8) as [_|]; [|lia].
    destruct (Z.ltb_spec (Z.of_nat (String.length s)) (11 + 3 * d)) as [Hless|Hmore].
    { destruct (Z.leb_spec (11 + 3 * d) (Z.of_nat (String.length s))); [lia|].
      cbn [fst]. rewrite !andb_false_r. reflexivity. }
    destruct (Z.leb_spec (11 + 3 * d) (Z.of_nat (String.length s))) as [_|]; [|lia].
    match goal with |- context [parseFrom_data s 0 ?n ?m ?r] =>
      pose proof (parseFrom_data_flag s n 0 m r) as F5;
      destruct (parseFrom_data s 0 n m r) as [m' r5]
    end.
    cbn [fst snd] in *. subst.
    rewrite !andb_true_r. reflexivity.
  - change (8 <? 255) with true. cbn [fst].
    rewrite !andb_false_r. reflexivity.
Qed.

(** The data loop of [parseFrom] leaves [length] as it is. *)
Lemma parseFrom_data_length s n : forall i m result,
  msg_length (fst (parseFrom_data s i n m result)) = msg_length m.
Proof.
  induction n as [|n IH]; intros i m result; [reflexivity|].
  rewrite parseFrom_data_S.
  destruct (parseHex s (12 + 3 * i) (12 + 3 * i + 2) result) as [v r].
  rewrite IH. reflexivity.
Qed.

(** A message that [parseFrom] reports as parsed has a [length] of at most
    8: this decode path refuses a longer one. *)
Lemma parseFrom_length_bound (m0 : TrackMessage) (s : string) :
  fst (parseFrom m0 s) = true -> 0 <= msg_length (snd (parseFrom m0 s)) <= 8.
Proof.
  unfold parseFrom. cbv zeta.
  destruct (String.length s <? 11)%nat; [discriminate|].
  destruct (parseHex s 0 4 true) as [h r1].
  destruct (parseHex s 7 9 r1) as [c r2].
  destruct (parseHex s 10 11 r2) as [l r3].
  cbn [msg_length set_length].
  destruct (Z.ltb_spec 8 (to_byte l)) as [|Hfit]; [discriminate|].
  destruct (Z.of_nat (String.length s) <? 11 + 3 * to_byte l); [discriminate|].
  match goal with |- context [parseFrom_data s 0 ?n ?m ?r] =>
    pose proof (parseFrom_data_length s n 0 m r) as Hlen;
    destruct (parseFrom_data s 0 n m r) as [m' r5]
  end.
  cbn [fst snd msg_length set_length] in *. intros _. rewrite Hlen.
  pose proof (to_byte_range l). lia.
Qed.

(** C4, the claim as stated fails: a text that departs from the grammar at
    every separator position (offsets 4, 6, 9, 11 and 14 hold no space) is
    parsed with success, to the same message as the well-formed text. *)
Lemma parseFrom_ignores_separators :
  let s := "1234xRy05z2_00#01"%string in
  charAt s 4 <> " "%char /\ charAt s 6 <> " "%char /\ charAt s 9 <> " "%char /\
  charAt s 11 <> " "%char /\ charAt s 14 <> " "%char /\
  parseFrom new_message s = (true, mkMessage 5 4660 true 2 [0; 1; 0; 0; 0; 0; 0; 0]) /\
  parseFrom new_message "1234 R 05 2 00 01"
  = (true, mkMessage 5 4660 true 2 [0; 1; 0; 0; 0; 0; 0; 0]).
Proof.
  cbv zeta. repeat split; try reflexivity; intros H; vm_compute in H; discriminate H.
Qed.

(* ================================================================== *)
(** * Receiving *)
(* ================================================================== *)

(** [receiveMessage] always returns.  It uses up one poll; when a frame
    waits it takes it and decodes it, otherwise it leaves [message] alone. *)
Lemma receiveMessage_run ctl m w :
  exists w',
    receiveMessage ctl m w
    = Ret (match poll_at w 0 with
           | Some f => (true, received_message f)
           | None => (false, m)
           end) w' /\
    bus_events (w_trace w') = bus_events (w_trace w) ++ recv_events (take 1 (w_rx w)) /\
    w_rx w' = drop 1 (w_rx w) /\ w_clock w' = w_clock w /\
    w_nclock w' = S (w_nclock w) /\ w_tx w' = w_tx w /\ w_ntx w' = w_ntx w.
Proof.
  assert (Hp : poll_at w 0 = match w_rx w with Some f :: _ => Some f | _ => None end).
  { unfold poll_at. destruct (w_rx w) as [|[f|] rx]; reflexivity. }
  rewrite Hp. clear Hp. unfold receiveMessage.
  destruct (w_rx w) as [|[f|] rx] eqn:E; run_M; rewrite ?E; run_M.
  - change (negb (CAN_MSGAVAIL =? CAN_NOMSG)) with true. run_M.
    eexists; split; [reflexivity|]. run_M. rewrite ?E, app_nil_r. repeat split; reflexivity.
  - change (negb (CAN_MSGAVAIL =? CAN_MSGAVAIL)) with false. run_M. rewrite ?E. run_M.
    unfold received_message.
    change (fromCanMsg m) with (fromCanMsg new_message).
    destruct (fromCanMsg new_message (to_ulong (can_id f)) (to_byte (can_ext f))
                (to_byte (can_rtr f)) (to_byte (can_len f)) (cdata_of f)) as [b m'].
    destruct (mDebug ctl); run_M; (eexists; split; [reflexivity|]); run_M;
      trace_simpl; cbn [take drop recv_events]; repeat split; reflexivity.
  - change (negb (CAN_MSGAVAIL =? CAN_NOMSG)) with true. run_M.
    eexists; split; [reflexivity|]. run_M. rewrite ?E.
    cbn [take drop recv_events]. rewrite app_nil_r. repeat split; reflexivity.
Qed.

(* ================================================================== *)
(** * The polling loop of [exchangeMessage] *)
(* ================================================================== *)

Lemma recv_events_app l1 l2 : recv_events (l1 ++ l2) = recv_events l1 ++ recv_events l2.
Proof.
  induction l1 as [|[f|] l1 IH]; simpl; [reflexivity| |assumption].
  rewrite IH. reflexivity.
Qed.

Lemma take_S_drop {A} (l : list A) n : take (S n) l = take 1 l ++ take n (drop 1 l).
Proof. destruct l; [destruct n|]; reflexivity. Qed.

Lemma take_S_snoc {A} n : forall l : list A,
  take (S n) l = take n l ++ take 1 (drop n l).
Proof.
  induction n as [|n IH]; intros [|a l]; try reflexivity.
  change (take (S (S n)) (a :: l)) with (a :: take (S n) l).
  rewrite IH. reflexivity.
Qed.

Lemma poll_at_drop w w' k j : w_rx w' = drop k (w_rx w) -> poll_at w' j = poll_at w (k + j).
Proof. intros H. unfold poll_at. rewrite H, lookup_drop. reflexivity. Qed.

Lemma loop_clock_shift w w' k j :
  w_clock w' = w_clock w -> w_nclock w' = (w_nclock w + 2 * k)%nat ->
  loop_clock w' j = loop_clock w (k + j).
Proof. intros Hc Hn. unfold loop_clock. rewrite Hc, Hn. do 2 f_equal. lia. Qed.

Section PollingLoop.

Variable ctl : TrackController.
Variables command deadline : Z.

(** The loop's test fails: the loop ends, nothing was polled. *)
Lemma loop_iter_timeout fuel in_ w :
  deadline <= loop_clock w 0 ->
  exists w',
    exchangeMessage_loop (S fuel) ctl command deadline in_ w = Ret (false, in_) w' /\
    bus_events (w_trace w') = bus_events (w_trace w) /\
    w_rx w' = w_rx w /\ w_clock w' = w_clock w /\
    w_nclock w' = S (w_nclock w) /\ w_tx w' = w_tx w /\ w_ntx w' = w_ntx w.
Proof.
  unfold loop_clock. rewrite Nat.mul_0_r, Nat.add_0_r. intros Hd.
  cbn [exchangeMessage_loop]. run_M.
  destruct (Z.ltb_spec (to_ulong (w_clock w (w_nclock w))) deadline); [lia|].
  eexists. split; [reflexivity|]. run_M. repeat split; reflexivity.
Qed.

(** The loop's test passes and the poll finds no matching reply: what was
    found is dropped and the loop goes on. *)
Lemma loop_iter_continue fuel in_ w :
  loop_clock w 0 < deadline ->
  is_reply command (poll_at w 0) = false ->
  exists w' in',
    exchangeMessage_loop (S fuel) ctl command deadline in_ w
    = exchangeMessage_loop fuel ctl command deadline in' w' /\
    bus_events (w_trace w') = bus_events (w_trace w) ++ recv_events (take 1 (w_rx w)) /\
    w_rx w' = drop 1 (w_rx w) /\ w_clock w' = w_clock w /\
    w_nclock w' = (w_nclock w + 2 * 1)%nat /\ w_tx w' = w_tx w /\ w_ntx w' = w_ntx w.
Proof.
  unfold loop_clock. rewrite Nat.mul_0_r, Nat.add_0_r. intros Hd Hnot.
  cbn [exchangeMessage_loop]. run_M.
  destruct (Z.ltb_spec (to_ulong (w_clock w (w_nclock w))) deadline); [|lia].
  match goal with |- context [receiveMessage ctl ?m ?w1] =>
    destruct (receiveMessage_run ctl m w1) as (w2 & Hrun & Hb & Hrx & Hc & Hn & Ht & Hnt);
    change (poll_at w1 0) with (poll_at w 0) in Hrun
  end.
  rewrite Hrun. cbn [w_trace w_rx w_clock w_nclock w_tx w_ntx] in *.
  destruct (poll_at w 0) as [f|] eqn:Hp.
  - cbn [is_reply] in Hnot. cbn [andb]. rewrite Hnot.
    exists w2, (received_message f). split; [reflexivity|].
    repeat split; try assumption. rewrite Hn. lia.
  - cbn [andb]. exists w2, (clear in_). split; [reflexivity|].
    repeat split; try assumption. rewrite Hn. lia.
Qed.

(** The loop's test passes and the poll finds a matching reply: the loop
    returns it. *)
Lemma loop_iter_found fuel in_ w f :
  loop_clock w 0 < deadline ->
  poll_at w 0 = Some f ->
  is_reply command (Some f) = true ->
  exists w',
    exchangeMessage_loop (S fuel) ctl command deadline in_ w
    = Ret (true, received_message f) w' /\
    bus_events (w_trace w') = bus_events (w_trace w) ++ recv_events (take 1 (w_rx w)) /\
    w_rx w' = drop 1 (w_rx w) /\ w_clock w' = w_clock w /\
    w_nclock w' = (w_nclock w + 2 * 1)%nat /\ w_tx w' = w_tx w /\ w_ntx w' = w_ntx w.
Proof.
  unfold loop_clock. rewrite Nat.mul_0_r, Nat.add_0_r. intros Hd Hp Hyes.
  cbn [exchangeMessage_loop]. run_M.
  destruct (Z.ltb_spec (to_ulong (w_clock w (w_nclock w))) deadline); [|lia].
  match goal with |- context [receiveMessage ctl ?m ?w1] =>
    destruct (receiveMessage_run ctl m w1) as (w2 & Hrun & Hb & Hrx & Hc & Hn & Ht & Hnt);
    change (poll_at w1 0) with (poll_at w 0) in Hrun
  end.
  rewrite Hrun, Hp. cbn [w_trace w_rx w_clock w_nclock w_tx w_ntx] in *.
  cbn [is_reply] in Hyes. cbn [andb]. rewrite Hyes.
  exists w2. split; [reflexivity|].
  repeat split; try assumption. rewrite Hn. lia.
Qed.

(** [n] turns that pass the test and find no matching reply. *)
Lemma exchangeMessage_loop_skip n : forall fuel w in_,
  (forall j, (j < n)%nat ->
             loop_clock w j < deadline /\ is_reply command (poll_at w j) = false) ->
  exists w' in',
    exchangeMessage_loop (n + fuel) ctl command deadline in_ w
    = exchangeMessage_loop fuel ctl command deadline in' w' /\
    (n = 0%nat -> in' = in_) /\
    bus_events (w_trace w') = bus_events (w_trace w) ++ recv_events (take n (w_rx w)) /\
    w_rx w' = drop n (w_rx w) /\ w_clock w' = w_clock w /\
    w_nclock w' = (w_nclock w + 2 * n)%nat /\ w_tx w' = w_tx w /\ w_ntx w' = w_ntx w.
Proof.
  induction n as [|n IH]; intros fuel w in_ Hturns.
  - exists w, in_. split; [reflexivity|]. split; [reflexivity|].
    cbn [take drop recv_events]. rewrite app_nil_r, Nat.mul_0_r, Nat.add_0_r.
    repeat split; reflexivity.
  - destruct (Hturns 0%nat ltac:(lia)) as [Hd Hnot].
    destruct (loop_iter_continue (n + fuel) in_ w Hd Hnot)
      as (w1 & in1 & Hrun1 & Hb1 & Hrx1 & Hc1 & Hn1 & Ht1 & Hnt1).
    destruct (IH fuel w1 in1) as (w2 & in2 & Hrun2 & _ & Hb2 & Hrx2 & Hc2 & Hn2 & Ht2 & Hnt2).
    { intros j Hj.
      rewrite (loop_clock_shift w w1 1 j Hc1 Hn1), (poll_at_drop w w1 1 j Hrx1).
      apply Hturns. lia. }
    exists w2, in2. split; [change (S n + fuel)%nat with (S (n + fuel)); congruence|].
    split; [lia|].
    rewrite Hb2, Hb1, Hrx2, Hrx1, Hc2, Hc1, Hn2, Hn1, Ht2, Ht1, Hnt2, Hnt1.
    rewrite <- app_assoc, <- recv_events_app, <- take_S_drop, drop_drop.
    repeat split; try reflexivity. lia.
Qed.

End PollingLoop.

(* ================================================================== *)
(** * [exchangeMessage] *)
(* ================================================================== *)

(** The driver takes the frame: [exchangeMessage] sends, reads the clock
    and enters its loop. *)
Lemma exchangeMessage_accepted fuel ctl out in_ timeout w :
  to_byte (w_tx w (w_ntx w)) = CAN_OK ->
  exists w1,
    exchangeMessage fuel ctl out in_ timeout w
    = ('(found, in1) ← exchangeMessage_loop fuel ctl (msg_command out)
                          (exchange_deadline w timeout)
                          (match in_ with
                           | SameAsOut => set_hash (mHash ctl) out
                           | Other m => m
                           end);
       if found : bool then mret (true, out_after ctl out in_ in1, in1)
       else
         when_debug ctl (serial_println "!!! Receive timeout") ;;
         mret (false, out_after ctl out in_ in1, in1)) w1 /\
    bus_events (w_trace w1)
    = bus_events (w_trace w) ++ [EvSend (sent_frame ctl out) CAN_OK] /\
    w_rx w1 = w_rx w /\ w_clock w1 = w_clock w /\
    w_nclock w1 = S (w_nclock w) /\ w_tx w1 = w_tx w /\ w_ntx w1 = S (w_ntx w).
Proof.
  intros Hok. unfold exchangeMessage.
  destruct (sendMessage_run ctl out w) as (w0 & Hrun & _ & Hb & Hrx & Hc & Hn & Ht & Hnt).
  rewrite Hok in Hrun, Hb.
  unfold mbind at 1, M_bind at 1. rewrite Hrun.
  change (CAN_OK =? CAN_OK) with true. cbn [negb].
  unfold exchange_deadline, exchange_start. rewrite <- Hc, <- Hn.
  eexists. split.
  - run_M. unfold out_after. destruct in_; reflexivity.
  - cbn [w_trace w_rx w_clock w_nclock w_tx w_ntx].
    rewrite Hn. repeat split; assumption.
Qed.

(** The driver takes the frame, [n] turns of the loop find no matching
    reply in time, and on the next turn the time is up. *)
Lemma exchangeMessage_timeout fuel ctl out in_ timeout w n :
  to_byte (w_tx w (w_ntx w)) = CAN_OK ->
  (forall j, (j < n)%nat ->
             exchange_clock w j < exchange_deadline w timeout /\
             is_reply (msg_command out) (poll_at w j) = false) ->
  exchange_deadline w timeout <= exchange_clock w n ->
  (n < fuel)%nat ->
  exists in' w',
    exchangeMessage fuel ctl out in_ timeout w
    = Ret (false, out_after ctl out in_ in', in') w' /\
    bus_events (w_trace w')
    = bus_events (w_trace w)
      ++ EvSend (sent_frame ctl out) CAN_OK :: recv_events (take n (w_rx w)) /\
    w_rx w' = drop n (w_rx w).
Proof.
  intros Hok Hturns Hend Hfuel.
  destruct (exchangeMessage_accepted fuel ctl out in_ timeout w Hok)
    as (w1 & Hrun & Hb1 & Hrx1 & Hc1 & Hn1 & _).
  rewrite Hrun. clear Hrun.
  assert (Hclock : forall j, loop_clock w1 j = exchange_clock w j).
  { intros j. unfold loop_clock, exchange_clock. rewrite Hc1, Hn1. reflexivity. }
  assert (Hpoll : forall j, poll_at w1 j = poll_at w j).
  { intros j. unfold poll_at. rewrite Hrx1. reflexivity. }
  replace fuel with (n + S (fuel - S n))%nat by lia.
  match goal with |- context [exchangeMessage_loop _ _ ?c ?d ?i] =>
    destruct (exchangeMessage_loop_skip ctl c d n (S (fuel - S n)) w1 i)
      as (w2 & in2 & Hrun2 & _ & Hb2 & Hrx2 & Hc2 & Hn2 & _)
  end.
  { intros j Hj. rewrite Hclock, Hpoll. apply Hturns. assumption. }
  unfold mbind at 1, M_bind at 1. rewrite Hrun2.
  destruct (loop_iter_timeout ctl (msg_command out) (exchange_deadline w timeout)
              (fuel - S n) in2 w2)
    as (w3 & Hrun3 & Hb3 & Hrx3 & _).
  { rewrite (loop_clock_shift w1 w2 n 0 Hc2 Hn2), Nat.add_0_r, Hclock. assumption. }
  rewrite Hrun3. exists in2.
  destruct (mDebug ctl) eqn:Hdebug; run_M; rewrite ?Hdebug; run_M;
    (eexists; split; [reflexivity|]); run_M; trace_simpl;
    rewrite ?Hb3, Hb2, Hb1, ?Hrx3, Hrx2, Hrx1, <- app_assoc; split; reflexivity.
Qed.

(** The driver takes the frame, [n] turns of the loop find no matching
    reply in time, and the next turn finds one in time. *)
Lemma exchangeMessage_found fuel ctl out in_ timeout w n f :
  to_byte (w_tx w (w_ntx w)) = CAN_OK ->
  (forall j, (j < n)%nat ->
             exchange_clock w j < exchange_deadline w timeout /\
             is_reply (msg_command out) (poll_at w j) = false) ->
  exchange_clock w n < exchange_deadline w timeout ->
  poll_at w n = Some f ->
  is_reply (msg_command out) (Some f) = true ->
  (n < fuel)%nat ->
  exists w',
    exchangeMessage fuel ctl out in_ timeout w
    = Ret (true, out_after ctl out in_ (received_message f), received_message f) w' /\
    bus_events (w_trace w')
    = bus_events (w_trace w)
      ++ EvSend (sent_frame ctl out) CAN_OK :: recv_events (take (S n) (w_rx w)) /\
    w_rx w' = drop (S n) (w_rx w).
Proof.
  intros Hok Hturns Hintime Hf Hyes Hfuel.
  destruct (exchangeMessage_accepted fuel ctl out in_ timeout w Hok)
    as (w1 & Hrun & Hb1 & Hrx1 & Hc1 & Hn1 & _).
  rewrite Hrun. clear Hrun.
  assert (Hclock : forall j, loop_clock w1 j = exchange_clock w j).
  { intros j. unfold loop_clock, exchange_clock. rewrite Hc1, Hn1. reflexivity. }
  assert (Hpoll : forall j, poll_at w1 j = poll_at w j).
  { intros j. unfold poll_at. rewrite Hrx1. reflexivity. }
  replace fuel with (n + S (fuel - S n))%nat by lia.
  match goal with |- context [exchangeMessage_loop _ _ ?c ?d ?i] =>
    destruct (exchangeMessage_loop_skip ctl c d n (S (fuel - S n)) w1 i)
      as (w2 & in2 & Hrun2 & _ & Hb2 & Hrx2 & Hc2 & Hn2 & _)
  end.
  { intros j Hj. rewrite Hclock, Hpoll. apply Hturns. assumption. }
  unfold mbind at 1, M_bind at 1. rewrite Hrun2.
  destruct (loop_iter_found ctl (msg_command out) (exchange_deadline w timeout)
              (fuel - S n) in2 w2 f)
    as (w3 & Hrun3 & Hb3 & Hrx3 & _).
  { rewrite (loop_clock_shift w1 w2 n 0 Hc2 Hn2), Nat.add_0_r, Hclock. assumption. }
  { rewrite (poll_at_drop w1 w2 n 0 Hrx2), Nat.add_0_r, Hpoll. assumption. }
  { assumption. }
  rewrite Hrun3. run_M. exists w3. split; [reflexivity|].
  rewrite Hb3, Hb2, Hb1, Hrx3, Hrx2, Hrx1, drop_drop.
  rewrite <- !app_assoc. cbn [app].
  rewrite <- recv_events_app.
  rewrite <- take_S_snoc.
  split; [reflexivity|]. f_equal. lia.
Qed.

Lemma idle_turn_dec w command timeout j :
  {idle_turn w command timeout j} + {~ idle_turn w command timeout j}.
Proof.
  unfold idle_turn.
  destruct (Z_lt_dec (exchange_clock w j) (exchange_deadline w timeout));
    destruct (is_reply command (poll_at w j)); intuition congruence.
Qed.

(** The first turn that is not idle, among the first [k + 1] turns. *)
Lemma first_busy_turn w command timeout k :
  ~ idle_turn w command timeout k ->
  exists n, (n <= k)%nat /\
            (forall j, (j < n)%nat -> idle_turn w command timeout j) /\
            ~ idle_turn w command timeout n.
Proof.
  induction k as [k IH] using lt_wf_ind. intros Hk.
  assert (Hprefix : (forall j, (j < k)%nat -> idle_turn w command timeout j) \/
                    exists j, (j < k)%nat /\ ~ idle_turn w command timeout j).
  { clear IH Hk. induction k as [|k IHk]; [left; intros j Hj; lia|].
    destruct IHk as [Hall|(j & Hj & Hnot)].
    - destruct (idle_turn_dec w command timeout k) as [Hidle|Hbusy].
      + left. intros j Hj. destruct (Nat.eq_dec j k) as [->|]; [assumption|].
        apply Hall. lia.
      + right. exists k. split; [lia | assumption].
    - right. exists j. split; [lia | assumption]. }
  destruct Hprefix as [Hall|(j & Hj & Hnot)].
  - exists k. split; [lia|]. split; assumption.
  - destruct (IH j Hj Hnot) as (n & Hn & Hall & Hbusy).
    exists n. split; [lia|]. split; assumption.
Qed.

(** [exchangeMessage] returns: when the driver takes the frame and some turn
    of the loop reads a clock that has reached [time + timeout], the loop
    bound of the model is large enough as soon as it exceeds that turn, and
    the call then returns a result. *)
Lemma exchangeMessage_returns fuel ctl out in_ timeout w k :
  to_byte (w_tx w (w_ntx w)) = CAN_OK ->
  exchange_deadline w timeout <= exchange_clock w k ->
  (k < fuel)%nat ->
  exists r w', exchangeMessage fuel ctl out in_ timeout w = Ret r w'.
Proof.
  intros Hok Hend Hfuel.
  destruct (first_busy_turn w (msg_command out) timeout k) as (n & Hn & Hidle & Hbusy).
  { unfold idle_turn. lia. }
  unfold idle_turn in Hbusy.
  destruct (Z_lt_dec (exchange_clock w n) (exchange_deadline w timeout)) as [Hlt|Hge].
  - destruct (is_reply (msg_command out) (poll_at w n)) eqn:Hrep; [|tauto].
    destruct (poll_at w n) as [f|] eqn:Hp; [|discriminate Hrep].
    destruct (exchangeMessage_found fuel ctl out in_ timeout w n f Hok Hidle Hlt Hp Hrep)
      as (w' & Hrun & _); [lia|].
    eexists; exists w'. exact Hrun.
  - destruct (exchangeMessage_timeout fuel ctl out in_ timeout w n Hok Hidle)
      as (in' & w' & Hrun & _); [lia | lia |].
    eexists; exists w'. exact Hrun.
Qed.






(** C10: for every request, [exchangeMessage] called with timeout 0 hands
    the request to the driver, polls nothing and returns [false], whatever
    waits in the driver: the loop's test comes before the first poll.  (The
    driver takes the frame, and the clock does not run backwards between the
    read after the send and the read of the test.) *)
Theorem exchangeMessage_timeout_zero
    (fuel : nat) (ctl : TrackController) (out : TrackMessage) (in_ : InRef) (w : World) :
  to_byte (w_tx w (w_ntx w)) = CAN_OK ->
  exchange_start w <= exchange_clock w 0 ->
  exists in' w',
    exchangeMessage (S fuel) ctl out in_ 0 w
    = Ret (false, out_after ctl out in_ in', in') w' /\
    bus_events (w_trace w')
    = bus_events (w_trace w) ++ [EvSend (sent_frame ctl out) CAN_OK] /\
    w_rx w' = w_rx w.
Proof.
  intros Hok Hmono.
  destruct (exchangeMessage_timeout (S fuel) ctl out in_ 0 w 0 Hok)
    as (in' & w' & Hrun & Hb & Hrx).
  - intros j Hj. lia.
  - unfold exchange_deadline. change (to_word 0) with 0. rewrite Z.add_0_r.
    unfold exchange_start at 1. unfold to_ulong at 1.
    fold (to_ulong (w_clock w (w_nclock w))).
    unfold to_ulong at 1. rewrite Z.mod_mod by lia.
    exact Hmono.
  - lia.
  - exists in', w'. split; [exact Hrun|]. split; [exact Hb | exact Hrx].
Qed.

Lemma exchangeMessage_timeout_zero_witness :
  let reply := mkFrame 589923 1 0 6 [0; 0; 0; 5; 3; 232] in
  let w := mkWorld (fun k => 1000 + Z.of_nat k) 0 (fun _ => CAN_OK) 0 [Some reply] [] in
  let out := set_length 4 (set_command 4 new_message) in
  is_reply (msg_command out) (poll_at w 0) = true /\
  exists in' w',
    exchangeMessage 1 (mkController 4660 false) out SameAsOut 0 w
    = Ret (false, in', in') w' /\
    w_rx w' = [Some reply].
Proof.
  cbv zeta. split; [reflexivity|].
  destruct (exchangeMessage_timeout_zero 0 (mkController 4660 false)
              (set_length 4 (set_command 4 new_message)) SameAsOut
              (mkWorld (fun k => 1000 + Z.of_nat k) 0 (fun _ => CAN_OK) 0
                       [Some (mkFrame 589923 1 0 6 [0; 0; 0; 5; 3; 232])] []))
    as (in' & w' & Hrun & _ & Hrx).
  - reflexivity.
  - apply Z.leb_le. reflexivity.
  - exists in', w'. split; [exact Hrun | exact Hrx].
Defined.

(** The driver rejects the frame: [exchangeMessage] spins for ever. *)
Lemma exchangeMessage_rejected fuel ctl out in_ timeout w :
  to_byte (w_tx w (w_ntx w)) <> CAN_OK ->
  exists w',
    exchangeMessage fuel ctl out in_ timeout w = Halt w' /\
    bus_events (w_trace w')
    = bus_events (w_trace w)
      ++ [EvSend (sent_frame ctl out) (to_byte (w_tx w (w_ntx w)))] /\
    w_rx w' = w_rx w.
Proof.
  intros Hrej.
  destruct (sendMessage_run ctl out w) as (w0 & Hrun & _ & Hb & Hrx & _).
  apply Z.eqb_neq in Hrej. rewrite Hrej in Hrun.
  unfold exchangeMessage. unfold mbind at 1, M_bind at 1. rewrite Hrun. cbn [negb].
  destruct (mDebug ctl) eqn:Hdebug; run_M; rewrite ?Hdebug; run_M;
    (eexists; split; [reflexivity|]); run_M; trace_simpl;
    rewrite Hb, Hrx; split; reflexivity.
Qed.

(** C2 (as amended): whenever the driver rejects the frame,
    [sendMessage] itself returns [false] to its caller, and it is
    [exchangeMessage] that halts: it never returns and does nothing more on
    the bus, with tracing on or off ([ctl] is any controller). *)
Theorem exchangeMessage_halts_on_rejected_send
    (fuel : nat) (ctl : TrackController) (out : TrackMessage) (in_ : InRef)
    (timeout : Z) (w : World) :
  to_byte (w_tx w (w_ntx w)) <> CAN_OK ->
  (exists w', sendMessage ctl out w = Ret (false, set_hash (mHash ctl) out) w') /\
  (exists w',
     exchangeMessage fuel ctl out in_ timeout w = Halt w' /\
     bus_events (w_trace w')
     = bus_events (w_trace w)
       ++ [EvSend (sent_frame ctl out) (to_byte (w_tx w (w_ntx w)))] /\
     w_rx w' = w_rx w).
Proof.
  intros Hrej. split.
  - destruct (sendMessage_run ctl out w) as (w0 & Hrun & _).
    apply Z.eqb_neq in Hrej. rewrite Hrej in Hrun. exists w0. exact Hrun.
  - apply exchangeMessage_rejected. exact Hrej.
Qed.

Lemma exchangeMessage_halts_on_rejected_send_witness :
  let w := mkWorld (fun k => Z.of_nat k) 0 (fun _ => 7) 0 [] [] in
  let out := set_length 4 (set_command 4 new_message) in
  (exists w', exchangeMessage 5 (mkController 4660 false) out SameAsOut 1000 w = Halt w') /\
  (exists w', exchangeMessage 5 (mkController 4660 true) out SameAsOut 1000 w = Halt w').
Proof.
  cbv zeta.
  assert (Hrej :
    to_byte (w_tx (mkWorld (fun k => Z.of_nat k) 0 (fun _ => 7) 0 [] [])
                  (w_ntx (mkWorld (fun k => Z.of_nat k) 0 (fun _ => 7) 0 [] [])))
    <> CAN_OK) by (vm_compute; discriminate).
  split.
  - destruct (exchangeMessage_halts_on_rejected_send 5 (mkController 4660 false)
                (set_length 4 (set_command 4 new_message)) SameAsOut 1000 _
                Hrej) as (_ & w' & Hrun & _).
    exists w'. exact Hrun.
  - destruct (exchangeMessage_halts_on_rejected_send 5 (mkController 4660 true)
                (set_length 4 (set_command 4 new_message)) SameAsOut 1000 _
                Hrej) as (_ & w' & Hrun & _).
    exists w'. exact Hrun.
Defined.

(** C2, the claim as stated fails: with a driver that rejects the frame,
    [sendMessage] returns [false] to its caller instead of halting;
    [setPower2] passes that [false] on, and [getVersion] carries on with its
    delay and its polls. *)
Lemma sendMessage_rejected_returns :
  let w := mkWorld (fun k => Z.of_nat k) 0 (fun _ => 7) 0 [] [] in
  let ctl := mkController 4660 false in
  (exists w', sendMessage ctl new_message w = Ret (false, set_hash 4660 new_message) w') /\
  (exists w', setPower2 ctl true w = Ret false w') /\
  (exists w', getVersion 5 ctl 0 0 w = Ret (false, 0, 0) w' /\
              bus_events (w_trace w')
              = [EvSend (sent_frame ctl (set_command 24 new_message)) 7; EvDelay 500]).
Proof.
  cbv zeta. split; [|split].
  - eexists. reflexivity.
  - eexists. reflexivity.
  - eexists. split; reflexivity.
Qed.

(* ================================================================== *)
(** * What an exchange puts on the bus first *)
(* ================================================================== *)

(** The loop only adds to what the bus saw, and never spins. *)
Lemma exchangeMessage_loop_trace ctl command deadline fuel : forall in_ w,
  (forall w', exchangeMessage_loop fuel ctl command deadline in_ w <> Halt w') /\
  exists rest,
    bus_events (w_trace (outcome_world (exchangeMessage_loop fuel ctl command deadline in_ w)))
    = bus_events (w_trace w) ++ rest.
Proof.
  induction fuel as [|fuel IH]; intros in_ w.
  { split; [discriminate|]. exists []. rewrite app_nil_r. reflexivity. }
  destruct (Z.lt_ge_cases (loop_clock w 0) deadline) as [Hlt|Hge].
  - destruct (is_reply command (poll_at w 0)) eqn:Hrep.
    + destruct (poll_at w 0) as [f|] eqn:Hp; [|discriminate Hrep].
      destruct (loop_iter_found ctl command deadline fuel in_ w f Hlt Hp Hrep)
        as (w2 & Hrun2 & Hb & _).
      rewrite Hrun2. split; [discriminate|]. eexists. exact Hb.
    + destruct (loop_iter_continue ctl command deadline fuel in_ w Hlt Hrep)
        as (w2 & in2 & Hrun2 & Hb & _).
      rewrite Hrun2. destruct (IH in2 w2) as (Hnohalt & rest & Hrest).
      split; [exact Hnohalt|].
      eexists. rewrite Hrest, Hb, <- app_assoc. reflexivity.
  - destruct (loop_iter_timeout ctl command deadline fuel in_ w Hge)
      as (w2 & Hrun2 & Hb & _).
    rewrite Hrun2. split; [discriminate|].
    exists []. rewrite app_nil_r. exact Hb.
Qed.

(** Whatever way an exchange ends, the first thing it did on the bus was to
    hand its request to the driver. *)
Lemma exchangeMessage_sends_first fuel ctl out in_ timeout w :
  exists rest,
    bus_events (w_trace (outcome_world (exchangeMessage fuel ctl out in_ timeout w)))
    = bus_events (w_trace w)
      ++ EvSend (sent_frame ctl out) (to_byte (w_tx w (w_ntx w))) :: rest.
Proof.
  destruct (Z.eq_dec (to_byte (w_tx w (w_ntx w))) CAN_OK) as [Hok|Hrej].
  - destruct (exchangeMessage_accepted fuel ctl out in_ timeout w Hok)
      as (w1 & Hrun & Hb1 & _).
    rewrite Hrun, Hok. clear Hrun. unfold mbind at 1, M_bind at 1.
    match goal with |- context [exchangeMessage_loop fuel ctl ?c ?d ?i w1] =>
      destruct (exchangeMessage_loop_trace ctl c d fuel i w1) as (Hnohalt & rest & Hrest);
      destruct (exchangeMessage_loop fuel ctl c d i w1) as [[found in1] w2|w2|w2]
    end; cbn [outcome_world] in Hrest.
    + destruct found; [|destruct (mDebug ctl) eqn:Hdebug]; run_M; rewrite ?Hdebug; run_M;
        cbn [outcome_world]; run_M; trace_simpl;
        exists rest; rewrite Hrest, Hb1, <- app_assoc; reflexivity.
    + exfalso. exact (Hnohalt w2 eq_refl).
    + cbn [outcome_world]. exists rest. rewrite Hrest, Hb1, <- app_assoc. reflexivity.
  - destruct (exchangeMessage_rejected fuel ctl out in_ timeout w Hrej)
      as (w1 & Hrun & Hb & _).
    rewrite Hrun. cbn [outcome_world]. exists []. exact Hb.
Qed.

(* ================================================================== *)
(** * Speed: [getLocoSpeed], [setLocoSpeed], accelerate and decelerate *)
(* ================================================================== *)

Lemma makeWord_range h l : 0 <= makeWord h l < 65536.
Proof. unfold makeWord. auto with machine_int. Qed.

(** A speed that [getLocoSpeed] reports as read is a [word]. *)
Lemma getLocoSpeed_word fuel ctl address speed0 w current w1 :
  getLocoSpeed fuel ctl address speed0 w = Ret (true, current) w1 ->
  0 <= current < 65536.
Proof.
  unfold getLocoSpeed. cbv zeta. unfold mbind, M_bind.
  match goal with |- context [exchangeMessage fuel ctl ?m SameAsOut 1000 w] =>
    destruct (exchangeMessage fuel ctl m SameAsOut 1000 w) as [[[r m1] m2] w2|w2|w2]
  end; try discriminate.
  destruct r; unfold mret, M_ret; intros H; [|discriminate H].
  injection H as <- _. apply makeWord_range.
Qed.

(** [setLocoSpeed] is one exchange of [setLocoSpeed_message]. *)
Lemma setLocoSpeed_exchange fuel ctl address speed w :
  setLocoSpeed fuel ctl address speed w =
  match exchangeMessage fuel ctl (setLocoSpeed_message address speed) SameAsOut 1000 w with
  | Ret (r, _, _) w' => Ret r w'
  | Halt w' => Halt w'
  | OutOfFuel w' => OutOfFuel w'
  end.
Proof.
  unfold setLocoSpeed, setLocoSpeed_message. cbv zeta. unfold mbind, M_bind.
  match goal with |- context [exchangeMessage fuel ctl ?m SameAsOut 1000 w] =>
    destruct (exchangeMessage fuel ctl m SameAsOut 1000 w) as [[[r m1] m2] w2|w2|w2]
  end; reflexivity.
Qed.

(** The frame of [setLocoSpeed]: command 4, six bytes, the address in bytes
    2 and 3, the speed in bytes 4 and 5, high byte first. *)
Lemma setLocoSpeed_frame ctl address speed :
  let f := sent_frame ctl (setLocoSpeed_message address speed) in
  can_id f = can_id_of (set_hash (mHash ctl) (set_command 4 new_message)) /\
  can_len f = 6 /\
  can_buf f = [0; 0; highByte (to_word address); lowByte (to_word address);
               highByte (to_word speed); lowByte (to_word speed)].
Proof.
  cbv zeta. unfold sent_frame, frame_of, setLocoSpeed_message. cbv zeta.
  cbn [can_id can_len can_buf set_hash set_data set_length set_command msg_length
       msg_data msg_command msg_hash msg_response new_message clear].
  split; [reflexivity|]. split; [reflexivity|].
  change (Z.to_nat (to_byte 6)) with 6%nat.
  cbn [replicate list_insert take insert].
  unfold highByte, lowByte. rewrite !(to_byte_small (to_byte _)) by auto with machine_int.
  reflexivity.
Qed.

Lemma accelerate_speed_value current :
  0 <= current < 65536 ->
  accelerate_speed current
  = if 65458 <? current then current + 77 - 65536 else Z.min (current + 77) 1023.
Proof.
  intros H. unfold accelerate_speed, to_word.
  destruct (Z.ltb_spec 65458 current).
  - replace ((current + 77) mod 65536) with (current + 77 - 65536)
      by (apply Z.mod_unique with 1; lia).
    destruct (Z.ltb_spec 1023 (current + 77 - 65536)); [lia | reflexivity].
  - rewrite Z.mod_small by lia.
    destruct (Z.ltb_spec 1023 (current + 77)); lia.
Qed.

Lemma decelerate_speed_value current :
  0 <= current < 65536 ->
  decelerate_speed current
  = if (current <? 77) || (32844 <? current) then 0 else current - 77.
Proof.
  intros H. unfold decelerate_speed, to_word.
  destruct (Z.ltb_spec current 77).
  - replace ((current - 77) mod 65536) with (current - 77 + 65536)
      by (apply Z.mod_unique with (-1); lia).
    destruct (Z.ltb_spec 32767 (current - 77 + 65536)); [reflexivity | lia].
  - rewrite Z.mod_small by lia. cbn [orb].
    destruct (Z.ltb_spec 32767 (current - 77)), (Z.ltb_spec 32844 current);
      try reflexivity; lia.
Qed.

(** C7 (as amended): when the speed read succeeds with [current] (a 16-bit
    value), [accelerateLoco] goes on as [setLocoSpeed] with the speed
    [current + 77] computed in unsigned 16-bit arithmetic and cut to 1023
    when above it: that is [min (current + 77) 1023] for [current <= 65458],
    and the wrapped sum [current + 77 - 65536] above that.  [decelerateLoco]
    goes on as [setLocoSpeed] with [current - 77] computed in unsigned 16-bit
    arithmetic and replaced by 0 when above 32767: that is 0 for
    [current < 77] and for [current > 32844], and [current - 77] otherwise.
    From 1000 accelerate writes 1023, from 50 decelerate writes 0.
    [setLocoSpeed] hands the driver a frame of command 4 with the speed in
    bytes 4 and 5. *)
Theorem accelerate_decelerate_speed
    (fuel : nat) (ctl : TrackController) (address : Z) (w : World)
    (current : Z) (w1 : World) :
  getLocoSpeed fuel ctl (to_word address) 0 w = Ret (true, current) w1 ->
  accelerateLoco fuel ctl address w
  = setLocoSpeed fuel ctl (to_word address) (accelerate_speed current) w1 /\
  decelerateLoco fuel ctl address w
  = setLocoSpeed fuel ctl (to_word address) (decelerate_speed current) w1 /\
  0 <= current < 65536 /\
  accelerate_speed current
  = (if 65458 <? current then current + 77 - 65536 else Z.min (current + 77) 1023) /\
  decelerate_speed current
  = (if (current <? 77) || (32844 <? current) then 0 else current - 77) /\
  accelerate_speed 1000 = 1023 /\
  decelerate_speed 50 = 0 /\
  (forall speed,
      exists f status rest,
        bus_events (w_trace (outcome_world (setLocoSpeed fuel ctl (to_word address) speed w1)))
        = bus_events (w_trace w1) ++ EvSend f status :: rest /\
        can_id f = can_id_of (set_hash (mHash ctl) (set_command 4 new_message)) /\
        can_len f = 6 /\
        can_buf f = [0; 0; highByte (to_word address); lowByte (to_word address);
                     highByte (to_word speed); lowByte (to_word speed)]).
Proof.
  intros Hget.
  pose proof (getLocoSpeed_word _ _ _ _ _ _ _ Hget) as Hword.
  split; [|split].
  - unfold accelerateLoco. cbv zeta. unfold mbind at 1, M_bind at 1.
    rewrite Hget. reflexivity.
  - unfold decelerateLoco. cbv zeta. unfold mbind at 1, M_bind at 1.
    rewrite Hget. reflexivity.
  - split; [exact Hword|].
    split; [apply accelerate_speed_value; exact Hword|].
    split; [apply decelerate_speed_value; exact Hword|].
    split; [reflexivity|]. split; [reflexivity|].
    intros speed.
    destruct (exchangeMessage_sends_first fuel ctl
                (setLocoSpeed_message (to_word address) speed) SameAsOut 1000 w1)
      as (rest & Hrest).
    destruct (setLocoSpeed_frame ctl (to_word address) speed) as (Hid & Hlen & Hbuf).
    eexists; eexists; exists rest. split.
    { rewrite setLocoSpeed_exchange.
      destruct (exchangeMessage fuel ctl (setLocoSpeed_message (to_word address) speed)
                  SameAsOut 1000 w1) as [[[r m1] m2] w2|w2|w2]; exact Hrest. }
    split; [exact Hid|]. split; [exact Hlen|].
    rewrite Hbuf. rewrite (to_word_small (to_word address)) by auto with machine_int.
    reflexivity.
Qed.

Lemma outcome_value_Ret {A} (o : Outcome A) (a : A) :
  outcome_value o = Some a -> exists w, o = Ret a w.
Proof. destruct o as [a' w| |]; try discriminate. intros [= ->]. exists w. reflexivity. Qed.

Lemma accelerate_decelerate_speed_witness :
  let reply := mkFrame 589923 1 0 6 [0; 0; 0; 5; 3; 232] in
  let w := mkWorld (fun k => 100 * Z.of_nat k) 0 (fun _ => CAN_OK) 0 [Some reply] [] in
  let ctl := mkController 4660 false in
  exists w1,
    getLocoSpeed 20 ctl (to_word 5) 0 w = Ret (true, 1000) w1 /\
    accelerateLoco 20 ctl 5 w = setLocoSpeed 20 ctl (to_word 5) 1023 w1 /\
    decelerateLoco 20 ctl 5 w = setLocoSpeed 20 ctl (to_word 5) 923 w1.
Proof.
  cbv zeta.
  set (w := mkWorld (fun k => 100 * Z.of_nat k) 0 (fun _ => CAN_OK) 0
                    [Some (mkFrame 589923 1 0 6 [0; 0; 0; 5; 3; 232])] []).
  set (ctl := mkController 4660 false).
  destruct (outcome_value_Ret (getLocoSpeed 20 ctl (to_word 5) 0 w) (true, 1000))
    as [w1 Hget]; [vm_compute; reflexivity|].
  exists w1. split; [exact Hget|].
  destruct (accelerate_decelerate_speed 20 ctl 5 w 1000 w1 Hget) as (Ha & Hd & _).
  split; [exact Ha | exact Hd].
Defined.

(** C7, the claim as stated fails: a reply that reports speed 65500 makes
    [accelerateLoco] write 41, not [min (65500 + 77) 1023 = 1023]: the sum
    wraps before it is compared with 1023.  And from 40000, which is not below
    77, [decelerateLoco] writes 0, not 39923. *)
Lemma accelerateLoco_wraps :
  let reply := mkFrame 589923 1 0 6 [0; 0; 0; 5; 255; 220] in
  let w := mkWorld (fun k => 100 * Z.of_nat k) 0 (fun _ => CAN_OK) 0 [Some reply] [] in
  let ctl := mkController 4660 false in
  outcome_value (getLocoSpeed 20 ctl 5 0 w) = Some (true, 65500) /\
  outcome_value (accelerateLoco 20 ctl 5 w) = Some false /\
  map can_buf (sent_frames (w_trace (outcome_world (accelerateLoco 20 ctl 5 w))))
  = [[0; 0; 0; 5]; [0; 0; 0; 5; 0; 41]] /\
  accelerate_speed 65500 = 41 /\
  Z.min (65500 + 77) 1023 = 1023 /\
  decelerate_speed 40000 = 0 /\
  ~ 40000 < 77.
Proof.
  cbv zeta. repeat split; try (vm_compute; reflexivity). lia.
Qed.

(* ================================================================== *)
(** * [getVersion] and [setAccessory] at work *)
(* ================================================================== *)


(** Nothing waits in the driver: the drain loop of [getVersion] ends. *)
Lemma getVersion_loop_empty fuel ctl m high low result w :
  poll_at w 0 = None ->
  exists w',
    getVersion_loop (S fuel) ctl m high low result w = Ret (result, high, low) w' /\
    bus_events (w_trace w') = bus_events (w_trace w).
Proof.
  intros Hp. cbn [getVersion_loop].
  destruct (receiveMessage_run ctl m w) as (w2 & Hrun & Hb & Hrx & _).
  unfold mbind at 1, M_bind at 1. rewrite Hrun, Hp.
  assert (Hev : recv_events (take 1 (w_rx w)) = []).
  { unfold poll_at in Hp. destruct (w_rx w) as [|[g|] rx]; try discriminate Hp; reflexivity. }
  rewrite Hev, app_nil_r in Hb.
  exists w2. split; [reflexivity | exact Hb].
Qed.

(** C8 (code defect): in [getVersion] the test on the opcode is the
    assignment [message.command = 0x18 && ...], so the command of a drained
    frame is not compared with anything.  A queued frame of command 0x04 whose
    bytes 6 and 7 are the marker (0x00, 0x10) makes [getVersion] return [true]
    with that frame's bytes 4 and 5 as the version, where the claim has it
    left alone and the result [false]. *)
Theorem getVersion_takes_other_command :
  let f := mkFrame 589923 1 0 8 [0; 0; 0; 0; 1; 2; 0; 16] in
  let w := mkWorld (fun k => Z.of_nat k) 0 (fun _ => CAN_OK) 0 [Some f] [] in
  let ctl := mkController 4660 false in
  msg_command (received_message f) = 4 /\
  outcome_value (getVersion 5 ctl 0 0 w) = Some (true, 1, 2) /\
  bus_events (w_trace (outcome_world (getVersion 5 ctl 0 0 w)))
  = [EvSend (mkFrame 3150388 1 0 0 []) 0; EvDelay 500; EvRecv f].
Proof.
  cbv zeta. repeat split; vm_compute; reflexivity.
Qed.

(** [setAccessory] has one return value. *)
Lemma setAccessory_never_false fuel ctl address position power time w :
  outcome_value (setAccessory fuel ctl address position power time w) <> Some false.
Proof.
  unfold setAccessory. cbv zeta. unfold mbind at 1, M_bind at 1.
  match goal with |- context [exchangeMessage fuel ctl ?m SameAsOut 1000 w] =>
    destruct (exchangeMessage fuel ctl m SameAsOut 1000 w) as [[[r m1] m2] w2|w2|w2]
  end; try discriminate.
  destruct (negb (to_word time =? 0)).
  - unfold mbind at 1, M_bind at 1. unfold mbind at 1, M_bind at 1.
    unfold delay, emit. unfold mbind at 1, M_bind at 1.
    match goal with |- context [exchangeMessage fuel ctl ?m SameAsOut 1000 ?w3] =>
      destruct (exchangeMessage fuel ctl m SameAsOut 1000 w3) as [[[r' m1'] m2'] w4|w4|w4]
    end; discriminate.
  - discriminate.
Qed.

(** C9 (code defect): [setAccessory] returns [true] whatever happened.  With
    no reply at all on the bus both of its exchanges time out, each
    [exchangeMessage] reporting [false], and the call still returns [true];
    the header promises a return value that reflects whether the call was
    successful. *)
Theorem setAccessory_true_without_reply :
  let w := mkWorld (fun k => 100 * Z.of_nat k) 0 (fun _ => CAN_OK) 0 [] [] in
  let ctl := mkController 4660 true in
  let activation :=
    set_data 5 1 (set_data 4 1 (set_data 3 (lowByte 5) (set_data 2 (highByte 5)
      (set_length 6 (set_command 11 new_message))))) in
  option_map (fun r => fst (fst r))
             (outcome_value (exchangeMessage 20 ctl activation SameAsOut 1000 w))
  = Some false /\
  outcome_value (setAccessory 20 ctl 5 1 1 20 w) = Some true /\
  w_trace (outcome_world (setAccessory 20 ctl 5 1 1 20 w))
  = [EvPrint "==> "; EvPrintln "1234   0b 6 00 00 00 05 01 01";
     EvSend (mkFrame 1446452 1 0 6 [0; 0; 0; 5; 1; 1]) 0;
     EvPrint "  result "; EvPrintln "0";
     EvPrintln "!!! Receive timeout";
     EvDelay 20;
     EvPrint "==> "; EvPrintln "1234   0b 6 00 00 00 05 01 00";
     EvSend (mkFrame 1446452 1 0 6 [0; 0; 0; 5; 1; 0]) 0;
     EvPrint "  result "; EvPrintln "0";
     EvPrintln "!!! Receive timeout"].
Proof.
  cbv zeta. repeat split; vm_compute; reflexivity.
Qed.

(* ================================================================== *)
(** * More on [printHex] and [parseHex] *)
(* ================================================================== *)




Lemma to_int_range x : -32768 <= to_int x < 32768.
Proof. unfold to_int. pose proof (Z.mod_pos_bound (x + 32768) 65536 ltac:(lia)). lia. Qed.

(** A loop that ran at least once ends on an [int]. *)
Lemma parseHex_loop_int s n i value r :
  parseHex_loop s i (S n) value = Some r -> -32768 <= r < 32768.
Proof.
  rewrite parseHex_loop_snoc.
  destruct (parseHex_loop s i n value) as [v|]; [|discriminate].
  rewrite parseHex_loop_step.
  destruct (hex_value (charAt s (i + n))); [|discriminate].
  cbn [parseHex_loop]. intros [= <-]. apply to_int_range.
Qed.

Lemma to_int_unique r v k :
  -32768 <= r < 32768 -> r = v + 65536 * k -> r = to_int v.
Proof.
  intros Hr ->. unfold to_int.
  replace (v + 32768) with ((v + 65536 * k + 32768) + (- k) * 65536) by lia.
  rewrite Z.mod_add by lia. rewrite Z.mod_small by lia. lia.
Qed.

(** X2: reading back what [printHex] wrote, wherever the field stands in
    the text.  For a value of at most four hexadecimal digits [parseHex]
    returns the value as an [int]: the value itself below 0x8000, the value
    less 65536 from 0x8000 on (so "ffff" gives -1, the number that also marks
    a failure); [*ok] is left as it was. *)
Theorem parseHex_printHex_int (pre rest : string) (d : nat) (v : Z) (ok : bool) :
  (1 <= d <= 4)%nat -> 0 <= v < 16 ^ Z.of_nat d ->
  parseHex (pre ++ printHex v d ++ rest) (String.length pre) (String.length pre + d) ok
  = (to_int v, ok) /\
  (v < 32768 -> to_int v = v) /\
  (32768 <= v -> to_int v = v - 65536).
Proof.
  intros Hd Hv.
  assert (Hpow : 16 ^ Z.of_nat d <= 16 ^ 4) by (apply Z.pow_le_mono_r; lia).
  change (16 ^ 4) with 65536 in Hpow.
  split; [|split].
  - unfold parseHex.
    replace (String.length pre + d - String.length pre)%nat with d by lia.
    rewrite (parseHex_loop_app_r pre _ (String.length pre)) by (reflexivity || lia).
    rewrite Nat.sub_diag, printHex_fixhex by lia.
    destruct (parseHex_loop_fixhex d v rest 0) as (r & k & Hrun & Hr); [lia|].
    rewrite Hrun. f_equal.
    rewrite Z.mod_small in Hr by assumption.
    destruct d as [|d']; [lia|].
    apply (to_int_unique r v k); [|lia].
    exact (parseHex_loop_int _ _ _ _ _ Hrun).
  - intros Hsmall. unfold to_int. rewrite Z.mod_small by lia. lia.
  - intros Hlarge. unfold to_int.
    replace (v + 32768) with ((v - 32768) + 1 * 65536) by lia.
    rewrite Z.mod_add by lia. rewrite Z.mod_small by lia. lia.
Qed.

Lemma parseHex_printHex_int_witness :
  parseHex ("xy" ++ printHex 65535 4 ++ "z") 2 6 true = (-1, true).
Proof.
  destruct (parseHex_printHex_int "xy" "z" 4 65535 true) as (Hrun & _);
    [lia | vm_compute; split; [discriminate | reflexivity] |].
  exact Hrun.
Defined.

Lemma forallb_false_at {A} (f : A -> bool) (l : list A) (x : A) :
  In x l -> f x = false -> forallb f l = false.
Proof.
  intros Hin Hx. destruct (forallb f l) eqn:E; [|reflexivity].
  rewrite forallb_forall in E. rewrite (E x Hin) in Hx. discriminate.
Qed.

(** X3: how [parseHex] fails.  An empty range gives 0 and leaves [*ok]; a
    character of the range that is no hexadecimal digit gives -1 and sets
    [*ok] to false; a range that runs past the end of the text is such a
    failure; and a success never sets [*ok]: it is left as it was, so an
    earlier failure stays recorded. *)
Theorem parseHex_failure (s : string) (start end_ : nat) (ok : bool) :
  ((end_ <= start)%nat -> parseHex s start end_ ok = (0, ok)) /\
  (forall i, (start <= i < end_)%nat -> hex_at s i = false ->
             parseHex s start end_ ok = (-1, false)) /\
  ((start < end_)%nat -> (String.length s < end_)%nat ->
   parseHex s start end_ ok = (-1, false)) /\
  (forallb (hex_at s) (seq start (end_ - start)) = true ->
   snd (parseHex s start end_ ok) = ok).
Proof.
  assert (Hbad : forall i, (start <= i < end_)%nat -> hex_at s i = false ->
                           parseHex s start end_ ok = (-1, false)).
  { intros i Hi Hnot. unfold parseHex.
    pose proof (parseHex_loop_ok s (end_ - start) start 0) as Hok.
    rewrite (forallb_false_at (hex_at s) _ i) in Hok; [| |exact Hnot].
    - destruct (parseHex_loop s start (end_ - start) 0); [discriminate | reflexivity].
    - apply in_seq. lia. }
  split; [|split; [exact Hbad|split]].
  - intros Hempty. unfold parseHex.
    replace (end_ - start)%nat with 0%nat by lia. reflexivity.
  - intros Hrange Hpast.
    apply (Hbad (Nat.max start (String.length s))); [lia|].
    unfold hex_at. rewrite charAt_past by lia. reflexivity.
  - intros Hall. rewrite parseHex_flag, Hall. apply andb_true_r.
Qed.

Lemma parseHex_failure_witness :
  parseHex "12g4" 0 4 true = (-1, false) /\ parseHex "12" 0 4 true = (-1, false) /\
  snd (parseHex "1234" 0 4 false) = false.
Proof.
  destruct (parseHex_failure "12g4" 0 4 true) as (_ & Hbad & _).
  destruct (parseHex_failure "12" 0 4 true) as (_ & _ & Hpast & _).
  destruct (parseHex_failure "1234" 0 4 false) as (_ & _ & _ & Hgood).
  split; [|split].
  - apply (Hbad 2%nat); [lia | reflexivity].
  - apply Hpast; simpl; lia.
  - apply Hgood. reflexivity.
Defined.

(* ================================================================== *)
(** * More on [printTo] and [parseFrom] *)
(* ================================================================== *)

(** X4: the text [printTo] writes for a well-formed message has exactly
    [11 + 3 * length] characters (the size [printTo] returns), at most 35. *)
Theorem printTo_size (m : TrackMessage) :
  wf_message m ->
  String.length (printTo m) = (11 + 3 * Z.to_nat (msg_length m))%nat /\
  (11 <= String.length (printTo m) <= 35)%nat.
Proof.
  intros Hwf. pose proof (length_printTo m Hwf) as Hlen.
  pose proof (wf_length _ Hwf). split; [exact Hlen|]. rewrite Hlen. lia.
Qed.

Lemma printTo_size_witness :
  String.length (printTo (mkMessage 5 4660 true 2 [0; 1; 0; 0; 0; 0; 0; 0])) = 17%nat.
Proof.
  destruct (printTo_size (mkMessage 5 4660 true 2 [0; 1; 0; 0; 0; 0; 0; 0])) as (Hlen & _).
  - apply wf_messageb_sound. reflexivity.
  - exact Hlen.
Defined.

(** What the data loop of [parseFrom] keeps. *)
Lemma parseFrom_data_inv s n : forall i m result,
  let m' := fst (parseFrom_data s i n m result) in
  msg_command m' = msg_command m /\ msg_hash m' = msg_hash m /\
  msg_response m' = msg_response m /\ msg_length m' = msg_length m /\
  length (msg_data m') = length (msg_data m) /\
  (Forall (fun b => 0 <= b < 256) (msg_data m) ->
   Forall (fun b => 0 <= b < 256) (msg_data m')) /\
  (forall j, ~ (i <= j < i + n)%nat -> get_data m' j = get_data m j).
Proof.
  induction n as [|n IH]; intros i m result.
  - cbn. repeat split; auto.
  - cbv zeta. rewrite parseFrom_data_S.
    destruct (parseHex s (12 + 3 * i) (12 + 3 * i + 2) result) as [v r].
    destruct (IH (S i) (set_data i v m) r) as (Hc & Hh & Hr & Hl & Hn & Hb & Hcell).
    rewrite Hc, Hh, Hr, Hl, Hn. cbn [set_data msg_command msg_hash msg_response
      msg_length msg_data]. rewrite length_insert.
    repeat split; try reflexivity.
    + intros Hall. apply Hb. cbn [set_data msg_data].
      apply Forall_insert; [assumption|]. auto with machine_int.
    + intros j Hj. rewrite Hcell by lia. rewrite get_data_set_data.
      rewrite decide_False by lia. reflexivity.
Qed.

(** X5: a message that [parseFrom] reports as parsed is a valid message:
    every field within its type, [length] the text's length digit and at most
    8, eight data bytes, zeros from index [length] on; its response flag says
    whether the character at offset 5 is something else than a space. *)
Theorem parseFrom_valid (m0 : TrackMessage) (s : string) :
  fst (parseFrom m0 s) = true ->
  valid_message (snd (parseFrom m0 s)) /\
  msg_length (snd (parseFrom m0 s)) = length_digit s /\
  msg_response (snd (parseFrom m0 s)) = negb (Ascii.eqb (charAt s 5) " ").
Proof.
  unfold parseFrom. cbv zeta.
  destruct (String.length s <? 11)%nat; [discriminate|].
  destruct (parseHex s 0 4 true) as [h r1].
  destruct (parseHex s 7 9 r1) as [c r2].
  pose proof (parseHex_length_field s r2) as Hfield.
  destruct (parseHex s 10 11 r2) as [l r3].
  cbn [fst msg_length set_length] in *.
  destruct (Z.ltb_spec 8 (to_byte l)) as [|Hfit]; [discriminate|].
  destruct (Z.of_nat (String.length s) <? 11 + 3 * to_byte l); [discriminate|].
  match goal with |- context [parseFrom_data s 0 ?n ?m ?r] =>
    pose proof (parseFrom_data_inv s n 0 m r) as Hinv;
    destruct (parseFrom_data s 0 n m r) as [m' r5]
  end.
  cbv zeta in Hinv.
  cbn [fst snd msg_command msg_hash msg_response msg_length msg_data set_length
       set_command set_response set_hash clear] in *.
  destruct Hinv as (Hc & Hh & Hr & Hl & Hn & Hb & Hcell).
  intros _. pose proof (to_byte_range l) as Hlr.
  split; [|split].
  - constructor; [constructor|].
    + rewrite Hc. auto with machine_int.
    + rewrite Hh. auto with machine_int.
    + rewrite Hl. lia.
    + rewrite Hn. apply length_replicate.
    + apply Hb. apply Forall_replicate. lia.
    + intros j Hj. rewrite Hl in Hj. rewrite Hcell by lia.
      apply (get_data_clear m0 j).
  - rewrite Hl, Hfield. unfold length_digit.
    destruct (hex_value (charAt s 10)) as [d|]; [reflexivity|].
    rewrite Hfield in Hfit. lia.
  - exact Hr.
Qed.

Lemma parseFrom_valid_witness :
  valid_message (snd (parseFrom new_message "12AB R 0b 1 ff")).
Proof.
  destruct (parseFrom_valid new_message "12AB R 0b 1 ff") as (Hvalid & _);
    [reflexivity | exact Hvalid].
Defined.

Lemma parseHex_loop_app_l (s e : string) n : forall i value,
  (i + n <= String.length s)%nat ->
  parseHex_loop (s ++ e) i n value = parseHex_loop s i n value.
Proof.
  induction n as [|n IH]; intros i value Hin; [reflexivity|].
  rewrite !parseHex_loop_step, charAt_app_l by lia.
  destruct (hex_value (charAt s i)); [|reflexivity].
  apply IH. lia.
Qed.

Lemma parseHex_app_l (s e : string) start end_ ok :
  (start <= end_ <= String.length s)%nat ->
  parseHex (s ++ e) start end_ ok = parseHex s start end_ ok.
Proof. intros H. unfold parseHex. rewrite parseHex_loop_app_l by lia. reflexivity. Qed.

Lemma parseFrom_data_app_l (s e : string) n : forall i m result,
  (11 + 3 * (i + n) <= String.length s)%nat ->
  parseFrom_data (s ++ e) i n m result = parseFrom_data s i n m result.
Proof.
  induction n as [|n IH]; intros i m result Hlen; [reflexivity|].
  rewrite !parseFrom_data_S, parseHex_app_l by lia.
  destruct (parseHex s (12 + 3 * i) (12 + 3 * i + 2) result) as [v r].
  apply IH. lia.
Qed.

(** X6: [parseFrom] does not look past the last data byte: when it parses a
    text with success, it parses that text followed by anything to the same
    result. *)
Theorem parseFrom_ignores_trailing (m0 : TrackMessage) (s extra : string) :
  fst (parseFrom m0 s) = true ->
  parseFrom m0 (s ++ extra) = parseFrom m0 s.
Proof.
  unfold parseFrom. cbv zeta. rewrite str_length_app.
  destruct (Nat.ltb_spec (String.length s) 11) as [|Hlong]; [discriminate|].
  destruct (Nat.ltb_spec (String.length s + String.length extra) 11); [lia|].
  rewrite (parseHex_app_l s extra 0 4) by lia.
  destruct (parseHex s 0 4 true) as [h r1].
  rewrite (charAt_app_l s extra 5) by lia.
  rewrite (parseHex_app_l s extra 7 9) by lia.
  destruct (parseHex s 7 9 r1) as [c r2].
  rewrite (parseHex_app_l s extra 10 11) by lia.
  destruct (parseHex s 10 11 r2) as [l r3].
  cbn [msg_length set_length].
  pose proof (to_byte_range l) as Hl.
  destruct (Z.ltb_spec 8 (to_byte l)); [discriminate|].
  destruct (Z.ltb_spec (Z.of_nat (String.length s)) (11 + 3 * to_byte l)); [discriminate|].
  destruct (Z.ltb_spec (Z.of_nat (String.length s + String.length extra))
                       (11 + 3 * to_byte l)); [lia|].
  intros _. rewrite parseFrom_data_app_l by lia. reflexivity.
Qed.

Lemma parseFrom_ignores_trailing_witness :
  parseFrom new_message ("1234 R 05 2 00 01" ++ " and more")
  = parseFrom new_message "1234 R 05 2 00 01".
Proof.
  apply (parseFrom_ignores_trailing new_message "1234 R 05 2 00 01" " and more").
  reflexivity.
Defined.

(* ================================================================== *)
(** * More on [fromCanMsg] *)
(* ================================================================== *)

(** X7: whatever the identifier and the buffer, [fromCanMsg] with a byte
    count of at most 8 leaves a valid message: fields within their types,
    [length] the byte count, eight data bytes, zeros from index [length] on
    (nothing of the object's earlier content is left). *)
Theorem fromCanMsg_valid (m0 : TrackMessage) (aId aExt aRtr aLen : Z) (aBuf : list Z) :
  0 <= aLen <= 8 ->
  valid_message (snd (fromCanMsg m0 aId aExt aRtr aLen aBuf)) /\
  msg_length (snd (fromCanMsg m0 aId aExt aRtr aLen aBuf)) = aLen.
Proof.
  intros Hlen.
  destruct (fromCanMsg_fields m0 aId aExt aRtr aLen aBuf)
    as (m' & -> & Hc & Hh & Hr & Hl & Hn & Hcell).
  cbn [snd]. rewrite to_byte_small in Hl, Hcell by lia.
  split; [|exact Hl].
  constructor; [constructor|].
  - rewrite Hc. auto with machine_int.
  - rewrite Hh. auto with machine_int.
  - lia.
  - exact Hn.
  - apply Forall_lookup. intros i b Hb.
    specialize (Hcell i). unfold get_data, byte_at in Hcell. rewrite Hb in Hcell.
    cbn [default from_option] in Hcell. unfold id in Hcell. rewrite Hcell.
    case_decide; [auto with machine_int | lia].
  - intros i Hi. rewrite Hl in Hi. rewrite Hcell. rewrite decide_False by lia. reflexivity.
Qed.

Lemma fromCanMsg_valid_witness :
  valid_message (snd (fromCanMsg new_message 589923 1 0 2 [300; 2; 3])).
Proof.
  destruct (fromCanMsg_valid new_message 589923 1 0 2 [300; 2; 3]) as (Hvalid & _);
    [lia | exact Hvalid].
Defined.





(* ================================================================== *)
(** * Every way an exchange can end *)
(* ================================================================== *)

Lemma sent_frames_bus_events t : sent_frames (bus_events t) = sent_frames t.
Proof.
  induction t as [|e t IH]; [reflexivity|].
  destruct e; cbn [bus_events sent_frames]; rewrite ?IH; reflexivity.
Qed.

Lemma sent_frames_recv_events l : sent_frames (recv_events l) = [].
Proof. induction l as [|[f|] l IH]; cbn [recv_events sent_frames]; assumption || reflexivity. Qed.

(** The loop polls some number of times, at most its bound, and does
    nothing else to the world but read the clock. *)
Lemma exchangeMessage_loop_world ctl command deadline fuel : forall in_ w,
  exists k, (k <= fuel)%nat /\
    bus_events (w_trace (outcome_world (exchangeMessage_loop fuel ctl command deadline in_ w)))
    = bus_events (w_trace w) ++ recv_events (take k (w_rx w)) /\
    w_rx (outcome_world (exchangeMessage_loop fuel ctl command deadline in_ w))
    = drop k (w_rx w) /\
    w_clock (outcome_world (exchangeMessage_loop fuel ctl command deadline in_ w))
    = w_clock w /\
    w_tx (outcome_world (exchangeMessage_loop fuel ctl command deadline in_ w)) = w_tx w /\
    w_ntx (outcome_world (exchangeMessage_loop fuel ctl command deadline in_ w)) = w_ntx w.
Proof.
  induction fuel as [|fuel IH]; intros in_ w.
  { exists 0%nat. cbn [exchangeMessage_loop outcome_world out_of_fuel take drop recv_events].
    rewrite app_nil_r. repeat split; reflexivity || lia. }
  destruct (Z.lt_ge_cases (loop_clock w 0) deadline) as [Hlt|Hge].
  - destruct (is_reply command (poll_at w 0)) eqn:Hrep.
    + destruct (poll_at w 0) as [f|] eqn:Hp; [|discriminate Hrep].
      destruct (loop_iter_found ctl command deadline fuel in_ w f Hlt Hp Hrep)
        as (w2 & Hrun2 & Hb & Hrx & Hc & _ & Ht & Hnt).
      rewrite Hrun2. cbn [outcome_world]. exists 1%nat.
      repeat split; assumption || lia.
    + destruct (loop_iter_continue ctl command deadline fuel in_ w Hlt Hrep)
        as (w2 & in2 & Hrun2 & Hb & Hrx & Hc & _ & Ht & Hnt).
      rewrite Hrun2. destruct (IH in2 w2) as (k & Hk & Hb2 & Hrx2 & Hc2 & Ht2 & Hnt2).
      exists (S k). split; [lia|].
      rewrite Hb2, Hrx2, Hc2, Ht2, Hnt2, Hb, Hrx, drop_drop, <- app_assoc,
        <- recv_events_app, <- take_S_drop.
      repeat split; assumption || reflexivity.
  - destruct (loop_iter_timeout ctl command deadline fuel in_ w Hge)
      as (w2 & Hrun2 & Hb & Hrx & Hc & _ & Ht & Hnt).
    rewrite Hrun2. cbn [outcome_world]. exists 0%nat.
    cbn [take drop recv_events]. rewrite app_nil_r.
    repeat split; assumption || lia.
Qed.

(** Whatever way an exchange ends: it handed its request to the driver,
    once, then polled some number of times and took what it found; it never
    waited in [delay], and it left the driver's later answers as they
    were. *)
Lemma exchangeMessage_world fuel ctl out in_ timeout w :
  exists k, (k <= fuel)%nat /\
    bus_events (w_trace (outcome_world (exchangeMessage fuel ctl out in_ timeout w)))
    = bus_events (w_trace w)
      ++ EvSend (sent_frame ctl out) (to_byte (w_tx w (w_ntx w)))
         :: recv_events (take k (w_rx w)) /\
    w_rx (outcome_world (exchangeMessage fuel ctl out in_ timeout w)) = drop k (w_rx w) /\
    w_clock (outcome_world (exchangeMessage fuel ctl out in_ timeout w)) = w_clock w /\
    w_tx (outcome_world (exchangeMessage fuel ctl out in_ timeout w)) = w_tx w /\
    w_ntx (outcome_world (exchangeMessage fuel ctl out in_ timeout w)) = S (w_ntx w).
Proof.
  remember (exchangeMessage fuel ctl out in_ timeout w) as o eqn:Ho.
  destruct (Z.eq_dec (to_byte (w_tx w (w_ntx w))) CAN_OK) as [Hok|Hrej].
  - destruct (exchangeMessage_accepted fuel ctl out in_ timeout w Hok)
      as (w1 & Hrun & Hb1 & Hrx1 & Hc1 & _ & Ht1 & Hnt1).
    rewrite Hrun in Ho. rewrite Hok. clear Hrun. unfold mbind at 1, M_bind at 1 in Ho.
    match type of Ho with context [exchangeMessage_loop fuel ctl ?c ?d ?i w1] =>
      destruct (exchangeMessage_loop_world ctl c d fuel i w1)
        as (k & Hk & Hb & Hrx & Hc & Ht & Hnt);
      destruct (exchangeMessage_loop fuel ctl c d i w1) as [[found in1] w2|w2|w2]
    end; cbn [outcome_world] in *; exists k; (split; [exact Hk|]).
    + revert Ho; run_M; intros Ho.
      destruct found; [|destruct (mDebug ctl) eqn:Hdebug]; subst o;
        cbn [outcome_world]; run_M; trace_simpl;
        rewrite Hb, Hb1, Hrx, Hrx1, Hc, Hc1, Ht, Ht1, Hnt, Hnt1, <- app_assoc;
        repeat split; reflexivity.
    + subst o. cbn [outcome_world].
      rewrite Hb, Hb1, Hrx, Hrx1, Hc, Hc1, Ht, Ht1, Hnt, Hnt1, <- app_assoc.
      repeat split; reflexivity.
    + subst o. cbn [outcome_world].
      rewrite Hb, Hb1, Hrx, Hrx1, Hc, Hc1, Ht, Ht1, Hnt, Hnt1, <- app_assoc.
      repeat split; reflexivity.
  - destruct (sendMessage_run ctl out w) as (w0 & Hrun0 & _ & Hb0 & Hrx0 & Hc0 & _ & Ht0 & Hnt0).
    pose proof Hrej as Hrej'. apply Z.eqb_neq in Hrej'. rewrite Hrej' in Hrun0.
    exists 0%nat. split; [lia|].
    unfold exchangeMessage in Ho. unfold mbind at 1, M_bind at 1 in Ho.
    rewrite Hrun0 in Ho. cbn [negb] in Ho.
    cbn [take drop recv_events].
    destruct (mDebug ctl) eqn:Hdebug; revert Ho; run_M; rewrite ?Hdebug; run_M; intros ->;
      cbn [outcome_world]; run_M; trace_simpl;
      rewrite Hb0, Hrx0, Hc0, Ht0, Hnt0; repeat split; reflexivity.
Qed.

(** Among the first [k] turns, either all are idle or there is a first one
    that is not. *)
Lemma idle_prefix_dec w command timeout k :
  (forall j, (j < k)%nat -> idle_turn w command timeout j) \/
  exists n, (n < k)%nat /\
            (forall j, (j < n)%nat -> idle_turn w command timeout j) /\
            ~ idle_turn w command timeout n.
Proof.
  induction k as [|k IH]; [left; intros j Hj; lia|].
  destruct IH as [Hall|(n & Hn & Hidle & Hbusy)].
  - destruct (idle_turn_dec w command timeout k) as [Hk|Hk].
    + left. intros j Hj. destruct (Nat.eq_dec j k) as [->|]; [assumption|]. apply Hall. lia.
    + right. exists k. split; [lia|]. split; assumption.
  - right. exists n. split; [lia|]. split; assumption.
Qed.

(** Every turn within the model's bound is idle: the bound runs out. *)
Lemma exchangeMessage_all_idle fuel ctl out in_ timeout w :
  to_byte (w_tx w (w_ntx w)) = CAN_OK ->
  (forall j, (j < fuel)%nat -> idle_turn w (msg_command out) timeout j) ->
  exists w', exchangeMessage fuel ctl out in_ timeout w = OutOfFuel w'.
Proof.
  intros Hok Hturns.
  destruct (exchangeMessage_accepted fuel ctl out in_ timeout w Hok)
    as (w1 & Hrun & Hb1 & Hrx1 & Hc1 & Hn1 & _).
  rewrite Hrun. clear Hrun.
  assert (Hclock : forall j, loop_clock w1 j = exchange_clock w j).
  { intros j. unfold loop_clock, exchange_clock. rewrite Hc1, Hn1. reflexivity. }
  assert (Hpoll : forall j, poll_at w1 j = poll_at w j).
  { intros j. unfold poll_at. rewrite Hrx1. reflexivity. }
  match goal with |- context [exchangeMessage_loop _ _ ?c ?d ?i] =>
    destruct (exchangeMessage_loop_skip ctl c d fuel 0 w1 i)
      as (w2 & in2 & Hrun2 & _)
  end.
  { intros j Hj. rewrite Hclock, Hpoll. apply Hturns. assumption. }
  rewrite Nat.add_0_r in Hrun2.
  unfold mbind at 1, M_bind at 1. rewrite Hrun2.
  exists w2. reflexivity.
Qed.

(** What a returned result says about the run: the driver took the
    request, and after some idle turns the loop either found a reply in time
    ([true]) or read a clock that had reached [time + timeout] ([false]). *)
Lemma exchangeMessage_Ret_inv fuel ctl out in_ timeout w r out1 in1 w' :
  exchangeMessage fuel ctl out in_ timeout w = Ret (r, out1, in1) w' ->
  to_byte (w_tx w (w_ntx w)) = CAN_OK /\
  out1 = out_after ctl out in_ in1 /\
  exists n, (n < fuel)%nat /\
    (forall j, (j < n)%nat -> idle_turn w (msg_command out) timeout j) /\
    if r then
      exchange_clock w n < exchange_deadline w timeout /\
      exists f, poll_at w n = Some f /\ is_reply (msg_command out) (Some f) = true /\
                in1 = received_message f /\ w_rx w' = drop (S n) (w_rx w)
    else
      exchange_deadline w timeout <= exchange_clock w n /\ w_rx w' = drop n (w_rx w).
Proof.
  intros Hret.
  destruct (Z.eq_dec (to_byte (w_tx w (w_ntx w))) CAN_OK) as [Hok|Hrej].
  2:{ destruct (exchangeMessage_rejected fuel ctl out in_ timeout w Hrej) as (w1 & Hrun & _).
      congruence. }
  split; [exact Hok|].
  destruct (idle_prefix_dec w (msg_command out) timeout fuel)
    as [Hall|(n & Hn & Hidle & Hbusy)].
  { destruct (exchangeMessage_all_idle fuel ctl out in_ timeout w Hok Hall) as (w1 & Hrun).
    congruence. }
  unfold idle_turn in Hbusy.
  destruct (Z_lt_dec (exchange_clock w n) (exchange_deadline w timeout)) as [Hlt|Hge].
  - destruct (is_reply (msg_command out) (poll_at w n)) eqn:Hrep; [|tauto].
    destruct (poll_at w n) as [f|] eqn:Hp; [|discriminate Hrep].
    destruct (exchangeMessage_found fuel ctl out in_ timeout w n f Hok Hidle Hlt Hp Hrep Hn)
      as (w1 & Hrun & _ & Hrx).
    rewrite Hrun in Hret. injection Hret as <- <- <- <-.
    split; [reflexivity|]. exists n. split; [exact Hn|]. split; [exact Hidle|].
    split; [exact Hlt|]. exists f. repeat split; assumption.
  - destruct (exchangeMessage_timeout fuel ctl out in_ timeout w n Hok Hidle)
      as (in' & w1 & Hrun & _ & Hrx); [lia | exact Hn |].
    rewrite Hrun in Hret. injection Hret as <- <- <- <-.
    split; [reflexivity|]. exists n. split; [exact Hn|]. split; [exact Hidle|].
    split; [lia | exact Hrx].
Qed.

(* ================================================================== *)
(** * [receiveMessage] and [exchangeMessage], seen from the caller *)
(* ================================================================== *)


(** X10: what a returned result of [exchangeMessage] guarantees.  The
    driver took the request.  A result [true] comes with a frame that waited
    in the driver and was polled before the clock reached [time + timeout]:
    [in] is that frame decoded, it has the request's command and the response
    flag, every frame polled before it was no such reply, and all of them are
    gone from the driver.  A result [false] means that a turn of the loop read
    a clock that had reached [time + timeout], and that no frame polled until
    then was a reply.  When [out] and [in] are one object, [out] is left
    holding what [in] holds; otherwise [out] keeps its content with the
    controller's hash stamped. *)
Theorem exchangeMessage_result_sound
    (fuel : nat) (ctl : TrackController) (out : TrackMessage) (in_ : InRef)
    (timeout : Z) (w : World) (r : bool) (out1 in1 : TrackMessage) (w' : World) :
  exchangeMessage fuel ctl out in_ timeout w = Ret (r, out1, in1) w' ->
  to_byte (w_tx w (w_ntx w)) = CAN_OK /\
  out1 = match in_ with SameAsOut => in1 | Other _ => set_hash (mHash ctl) out end /\
  exists n,
    (forall j, (j < n)%nat -> is_reply (msg_command out) (poll_at w j) = false) /\
    if r then
      msg_command in1 = msg_command out /\ msg_response in1 = true /\
      exchange_clock w n < exchange_deadline w timeout /\
      exists f, poll_at w n = Some f /\ in1 = received_message f /\
                w_rx w' = drop (S n) (w_rx w)
    else
      exchange_deadline w timeout <= exchange_clock w n /\ w_rx w' = drop n (w_rx w).
Proof.
  intros Hret.
  destruct (exchangeMessage_Ret_inv _ _ _ _ _ _ _ _ _ _ Hret)
    as (Hok & Hout & n & Hn & Hidle & Hres).
  split; [exact Hok|]. split; [exact Hout|].
  exists n. split; [intros j Hj; exact (proj2 (Hidle j Hj))|].
  destruct r; [|exact Hres].
  destruct Hres as (Hlt & f & Hp & Hrep & Hin & Hrx).
  cbn [is_reply] in Hrep. apply andb_true_iff in Hrep. destruct Hrep as [Hc Hr].
  apply Z.eqb_eq in Hc. subst in1.
  split; [exact Hc|]. split; [exact Hr|]. split; [exact Hlt|].
  exists f. repeat split; assumption.
Qed.

Lemma exchangeMessage_result_sound_witness :
  let other := mkFrame 721203 1 0 0 [] in
  let reply := mkFrame 589923 1 0 6 [0; 0; 0; 5; 3; 232] in
  let w := mkWorld (fun k => 100 * Z.of_nat k) 0 (fun _ => CAN_OK) 0
                   [None; Some other; Some reply; Some other] [] in
  let ctl := mkController 4660 false in
  let out := set_data 3 5 (set_length 4 (set_command 4 new_message)) in
  exists out1 in1 w',
    exchangeMessage 20 ctl out SameAsOut 1000 w = Ret (true, out1, in1) w' /\
    msg_command in1 = 4 /\ msg_response in1 = true /\ out1 = in1 /\
    exists n, w_rx w' = drop (S n) (w_rx w).
Proof.
  cbv zeta.
  set (w := mkWorld (fun k => 100 * Z.of_nat k) 0 (fun _ => CAN_OK) 0
              [None; Some (mkFrame 721203 1 0 0 []);
               Some (mkFrame 589923 1 0 6 [0; 0; 0; 5; 3; 232]);
               Some (mkFrame 721203 1 0 0 [])] []).
  set (ctl := mkController 4660 false).
  set (out := set_data 3 5 (set_length 4 (set_command 4 new_message))).
  set (m := received_message (mkFrame 589923 1 0 6 [0; 0; 0; 5; 3; 232])).
  destruct (outcome_value_Ret (exchangeMessage 20 ctl out SameAsOut 1000 w) (true, m, m))
    as [w' Hrun]; [vm_compute; reflexivity|].
  exists m, m, w'. split; [exact Hrun|].
  destruct (exchangeMessage_result_sound 20 ctl out SameAsOut 1000 w true m m w' Hrun)
    as (_ & Hout & n & _ & Hc & Hr & _ & f & _ & _ & Hrx).
  split; [exact Hc|]. split; [exact Hr|]. split; [exact Hout|].
  exists n. exact Hrx.
Defined.

(** X11: whichever way [exchangeMessage] ends (it returns, it halts, or
    it is still polling when the model's loop bound stops it), it handed
    exactly one frame to the driver, its request: it never sends again while
    it waits.  Everything else it did on the bus was to take out, in order,
    the first [k] polls' frames; it never waited in [delay], and what it did
    not poll is still in the driver. *)
Theorem exchangeMessage_sends_once
    (fuel : nat) (ctl : TrackController) (out : TrackMessage) (in_ : InRef)
    (timeout : Z) (w : World) :
  let w' := outcome_world (exchangeMessage fuel ctl out in_ timeout w) in
  sent_frames (w_trace w') = sent_frames (w_trace w) ++ [sent_frame ctl out] /\
  exists k,
    bus_events (w_trace w')
    = bus_events (w_trace w)
      ++ EvSend (sent_frame ctl out) (to_byte (w_tx w (w_ntx w)))
         :: recv_events (take k (w_rx w)) /\
    w_rx w' = drop k (w_rx w).
Proof.
  cbv zeta.
  destruct (exchangeMessage_world fuel ctl out in_ timeout w) as (k & _ & Hb & Hrx & _).
  split.
  - rewrite <- (sent_frames_bus_events (w_trace _)), Hb, sent_frames_app.
    cbn [sent_frames]. rewrite sent_frames_bus_events, sent_frames_recv_events. reflexivity.
  - exists k. split; assumption.
Qed.

(** X12: the loop of [exchangeMessage] compares [millis()] with
    [time + timeout] computed in 32 bits.  When that sum passes 2^32 it wraps
    to a value below [time], so a clock that has not yet wrapped itself is
    already past it: the call reports a timeout at once, without a single
    poll, and a reply that waits in the driver stays there. *)
Theorem exchangeMessage_deadline_wraps
    (fuel : nat) (ctl : TrackController) (out : TrackMessage) (in_ : InRef)
    (timeout : Z) (w : World) :
  to_byte (w_tx w (w_ntx w)) = CAN_OK ->
  4294967296 <= exchange_start w + to_word timeout ->
  exchange_start w <= exchange_clock w 0 ->
  (0 < fuel)%nat ->
  exchange_deadline w timeout = exchange_start w + to_word timeout - 4294967296 /\
  exists in' w',
    exchangeMessage fuel ctl out in_ timeout w
    = Ret (false, out_after ctl out in_ in', in') w' /\
    bus_events (w_trace w')
    = bus_events (w_trace w) ++ [EvSend (sent_frame ctl out) CAN_OK] /\
    w_rx w' = w_rx w.
Proof.
  intros Hok Hwrap Hclock Hfuel.
  pose proof (to_ulong_range (w_clock w (w_nclock w))) as Hs. fold (exchange_start w) in Hs.
  pose proof (to_word_range timeout) as Ht.
  assert (Hd : exchange_deadline w timeout
               = exchange_start w + to_word timeout - 4294967296).
  { unfold exchange_deadline, to_ulong. symmetry. apply Z.mod_unique with 1; lia. }
  split; [exact Hd|].
  destruct (exchangeMessage_timeout fuel ctl out in_ timeout w 0 Hok)
    as (in' & w' & Hrun & Hb & Hrx); [intros j Hj; lia | lia | exact Hfuel |].
  exists in', w'. split; [exact Hrun|]. split; assumption.
Qed.

Lemma exchangeMessage_deadline_wraps_witness :
  let reply := mkFrame 589923 1 0 6 [0; 0; 0; 5; 3; 232] in
  let w := mkWorld (fun k => 4294967000 + Z.of_nat k) 0 (fun _ => CAN_OK) 0 [Some reply] [] in
  let out := set_data 3 5 (set_length 4 (set_command 4 new_message)) in
  exchange_deadline w 1000 = 704 /\
  exists in' w',
    exchangeMessage 20 (mkController 4660 false) out SameAsOut 1000 w
    = Ret (false, in', in') w' /\
    w_rx w' = [Some reply].
Proof.
  cbv zeta.
  destruct (exchangeMessage_deadline_wraps 20 (mkController 4660 false)
              (set_data 3 5 (set_length 4 (set_command 4 new_message))) SameAsOut 1000
              (mkWorld (fun k => 4294967000 + Z.of_nat k) 0 (fun _ => CAN_OK) 0
                 [Some (mkFrame 589923 1 0 6 [0; 0; 0; 5; 3; 232])] []))
    as (Hd & in' & w' & Hrun & _ & Hrx).
  - reflexivity.
  - vm_compute. discriminate.
  - vm_compute. discriminate.
  - lia.
  - split; [rewrite Hd; reflexivity|].
    exists in', w'. split; [exact Hrun | exact Hrx].
Defined.

(* ================================================================== *)
(** * The commands on the wire *)
(* ================================================================== *)

(** The frame of a message, as a request frame. *)
Lemma sent_frame_request ctl m c payload :
  msg_command m = c -> 0 <= c < 256 ->
  msg_length m = Z.of_nat (length payload) ->
  take (length payload) (msg_data m) = payload ->
  sent_frame ctl m = request_frame ctl c payload.
Proof.
  intros Hc Hr Hl Hp. unfold sent_frame, frame_of, request_frame.
  rewrite can_id_of_value
    by (cbn [set_hash msg_command msg_hash]; auto with machine_int; lia).
  cbn [set_hash msg_command msg_hash msg_length msg_data].
  rewrite Hc, Hl, Nat2Z.id, Hp. reflexivity.
Qed.

Lemma to_byte_highByte x : to_byte (highByte x) = highByte x.
Proof. apply to_byte_small. unfold highByte. auto with machine_int. Qed.

Lemma to_byte_lowByte x : to_byte (lowByte x) = lowByte x.
Proof. apply to_byte_small. unfold lowByte. auto with machine_int. Qed.

Lemma to_byte_to_byte x : to_byte (to_byte x) = to_byte x.
Proof. apply to_byte_small. auto with machine_int. Qed.

(** Computes the frame of a message built by a run of assignments. *)
Ltac request_frame_tac :=
  apply sent_frame_request;
  cbn [set_hash set_data set_length set_command set_response msg_length msg_data
       msg_command msg_hash msg_response new_message clear length
       replicate list_insert insert take];
  rewrite ?to_byte_highByte, ?to_byte_lowByte, ?to_byte_to_byte;
  try reflexivity; try lia.

(** [sendMessage], as a call that only sends. *)
Lemma sendMessage_sent_only ctl m w :
  sent_only w (sendMessage ctl m w) (sent_frame ctl m)
            (to_byte (w_tx w (w_ntx w)) =? CAN_OK, set_hash (mHash ctl) m).
Proof.
  destruct (sendMessage_run ctl m w) as (w' & Hrun & _ & Hb & Hrx & _ & Hn & _).
  unfold sent_only. rewrite Hrun. cbn [outcome_value outcome_world].
  repeat split; assumption.
Qed.

(** X13: [setPower2], [getPower2] and [getAccessory2] only send.  Each
    hands one frame to the driver and returns at once with the driver's
    verdict ([true] exactly when the status was [CAN_OK]): no poll, no look at
    the clock, no wait, and no halt when the driver refuses the frame.  The
    frames: command 0 with bytes 0,0,0,0 and 1 or 0 for [setPower2];
    command 0 with four zero bytes for [getPower2]; command 0x0b with the
    address in bytes 2 and 3, high byte first, for [getAccessory2]. *)
Theorem send_only_commands (ctl : TrackController) (w : World) :
  let ok := to_byte (w_tx w (w_ntx w)) =? CAN_OK in
  (forall power : bool,
      sent_only w (setPower2 ctl power w)
                (request_frame ctl 0 [0; 0; 0; 0; if power then 1 else 0]) ok) /\
  sent_only w (getPower2 ctl w) (request_frame ctl 0 [0; 0; 0; 0]) ok /\
  (forall address,
      sent_only w (getAccessory2 ctl address w)
                (request_frame ctl 11 [0; 0; highByte (to_word address);
                                       lowByte (to_word address)]) ok).
Proof.
  cbv zeta. split; [|split].
  - intros power. unfold setPower2. cbv zeta. unfold mbind, M_bind.
    match goal with |- context [sendMessage ctl ?m w] =>
      destruct (sendMessage_sent_only ctl m w) as (Hv & Hb & Hrx & Hn);
      replace (sent_frame ctl m)
        with (request_frame ctl 0 [0; 0; 0; 0; if power then 1 else 0]) in Hb
        by (symmetry; destruct power; request_frame_tac);
      destruct (sendMessage ctl m w) as [[r m1] w1|w1|w1]; try discriminate Hv
    end.
    injection Hv as <- _. repeat split; assumption.
  - unfold getPower2. cbv zeta. unfold mbind, M_bind.
    match goal with |- context [sendMessage ctl ?m w] =>
      destruct (sendMessage_sent_only ctl m w) as (Hv & Hb & Hrx & Hn);
      replace (sent_frame ctl m) with (request_frame ctl 0 [0; 0; 0; 0]) in Hb
        by (symmetry; request_frame_tac);
      destruct (sendMessage ctl m w) as [[r m1] w1|w1|w1]; try discriminate Hv
    end.
    injection Hv as <- _. repeat split; assumption.
  - intros address. unfold getAccessory2. cbv zeta. unfold mbind, M_bind.
    match goal with |- context [sendMessage ctl ?m w] =>
      destruct (sendMessage_sent_only ctl m w) as (Hv & Hb & Hrx & Hn);
      replace (sent_frame ctl m)
        with (request_frame ctl 11 [0; 0; highByte (to_word address);
                                    lowByte (to_word address)]) in Hb
        by (symmetry; request_frame_tac);
      destruct (sendMessage ctl m w) as [[r m1] w1|w1|w1]; try discriminate Hv
    end.
    injection Hv as <- _. repeat split; assumption.
Qed.

(** X14: [setAccessory2] hands the driver the frame that [setAccessory]
    starts with (command 0x0b, the address in bytes 2 and 3, position and
    power in bytes 4 and 5) and returns [true] whatever status the driver
    gave; it polls nothing and waits for nothing, and its [time] argument has
    no effect at all. *)
Theorem setAccessory2_always_true
    (ctl : TrackController) (address position power time : Z) (w : World) :
  sent_only w (setAccessory2 ctl address position power time w)
            (request_frame ctl 11 [0; 0; highByte (to_word address);
                                   lowByte (to_word address);
                                   to_byte position; to_byte power]) true /\
  forall time', setAccessory2 ctl address position power time' w
                = setAccessory2 ctl address position power time w.
Proof.
  split; [|reflexivity].
  unfold setAccessory2. cbv zeta. unfold mbind, M_bind.
  match goal with |- context [sendMessage ctl ?m w] =>
    destruct (sendMessage_sent_only ctl m w) as (Hv & Hb & Hrx & Hn);
    replace (sent_frame ctl m)
      with (request_frame ctl 11 [0; 0; highByte (to_word address);
                                  lowByte (to_word address);
                                  to_byte position; to_byte power]) in Hb
      by (symmetry; request_frame_tac);
    destruct (sendMessage ctl m w) as [[r m1] w1|w1|w1]; try discriminate Hv
  end.
  repeat split; assumption.
Qed.

(** X15: [init] always returns, also when the driver refuses the frame.
    It waits 500 ms and then hands the driver one frame: command 0x1b with the
    bytes 0,0,0,0,0x11.  It polls nothing. *)
Theorem init_handshake (ctl : TrackController) (w : World) :
  exists w',
    init ctl w = Ret tt w' /\
    bus_events (w_trace w')
    = bus_events (w_trace w)
      ++ [EvDelay 500;
          EvSend (request_frame ctl 27 [0; 0; 0; 0; 17]) (to_byte (w_tx w (w_ntx w)))] /\
    w_rx w' = w_rx w.
Proof.
  unfold init. cbv zeta. unfold mbind, M_bind, delay, emit.
  match goal with |- context [sendMessage ctl ?m ?w0] =>
    destruct (sendMessage_sent_only ctl m w0) as (Hv & Hb & Hrx & Hn);
    replace (sent_frame ctl m) with (request_frame ctl 27 [0; 0; 0; 0; 17]) in Hb
      by (symmetry; request_frame_tac);
    destruct (sendMessage ctl m w0) as [[r m1] w1|w1|w1]; try discriminate Hv
  end.
  cbn [outcome_world w_trace w_rx w_tx w_ntx] in *.
  exists w1. split; [reflexivity|]. split; [|exact Hrx].
  rewrite Hb, bus_events_app, <- app_assoc. reflexivity.
Qed.

Ltac halt_tac Hrej :=
  cbv zeta; run_M;
  match goal with |- context [exchangeMessage ?fuel ?ctl ?m ?i ?t ?w] =>
    let w' := fresh "w'" in
    let Hrun := fresh "Hrun" in
    let Hb := fresh "Hb" in
    destruct (exchangeMessage_rejected fuel ctl m i t w Hrej) as (w' & Hrun & Hb & _);
    rewrite Hrun; eexists; exists w'; split; [reflexivity | exact Hb]
  end.

(** X16: the emergency stop of [exchangeMessage] reaches every command
    that waits for a reply.  When the driver refuses the frame of the first
    request, none of these calls ever returns: [setPower], [setLocoDirection],
    [toggleLocoDirection], [setLocoSpeed], [accelerateLoco], [decelerateLoco],
    [setLocoFunction], [toggleLocoFunction], [setAccessory], [setTurnout],
    [getLocoDirection], [getLocoSpeed], [getLocoFunction], [getAccessory],
    [writeConfig], [readConfig] and [getSystemStatus] all spin for ever after
    that one send, and nothing more happens on the bus. *)
Theorem commands_halt_on_rejected_send (fuel : nat) (ctl : TrackController) (w : World) :
  to_byte (w_tx w (w_ntx w)) <> CAN_OK ->
  (forall power, halted_after_send w (setPower fuel ctl power w)) /\
  (forall address direction,
      halted_after_send w (setLocoDirection fuel ctl address direction w)) /\
  (forall address, halted_after_send w (toggleLocoDirection fuel ctl address w)) /\
  (forall address speed, halted_after_send w (setLocoSpeed fuel ctl address speed w)) /\
  (forall address, halted_after_send w (accelerateLoco fuel ctl address w)) /\
  (forall address, halted_after_send w (decelerateLoco fuel ctl address w)) /\
  (forall address function power,
      halted_after_send w (setLocoFunction fuel ctl address function power w)) /\
  (forall address function,
      halted_after_send w (toggleLocoFunction fuel ctl address function w)) /\
  (forall address position power time,
      halted_after_send w (setAccessory fuel ctl address position power time w)) /\
  (forall address straight, halted_after_send w (setTurnout fuel ctl address straight w)) /\
  (forall address direction,
      halted_after_send w (getLocoDirection fuel ctl address direction w)) /\
  (forall address speed, halted_after_send w (getLocoSpeed fuel ctl address speed w)) /\
  (forall address function power,
      halted_after_send w (getLocoFunction fuel ctl address function power w)) /\
  (forall address position power,
      halted_after_send w (getAccessory fuel ctl address position power w)) /\
  (forall address number value,
      halted_after_send w (writeConfig fuel ctl address number value w)) /\
  (forall address number value,
      halted_after_send w (readConfig fuel ctl address number value w)) /\
  (forall uid channel status,
      halted_after_send w (getSystemStatus fuel ctl uid channel status w)).
Proof.
  intros Hrej. unfold halted_after_send.
  repeat match goal with |- _ /\ _ => split end; intros.
  - unfold setPower. destruct power; halt_tac Hrej.
  - unfold setLocoDirection. halt_tac Hrej.
  - unfold toggleLocoDirection, setLocoDirection. halt_tac Hrej.
  - unfold setLocoSpeed. halt_tac Hrej.
  - unfold accelerateLoco, getLocoSpeed. halt_tac Hrej.
  - unfold decelerateLoco, getLocoSpeed. halt_tac Hrej.
  - unfold setLocoFunction. halt_tac Hrej.
  - unfold toggleLocoFunction, getLocoFunction. halt_tac Hrej.
  - unfold setAccessory. halt_tac Hrej.
  - unfold setTurnout, setAccessory. halt_tac Hrej.
  - unfold getLocoDirection. halt_tac Hrej.
  - unfold getLocoSpeed. halt_tac Hrej.
  - unfold getLocoFunction. halt_tac Hrej.
  - unfold getAccessory. halt_tac Hrej.
  - unfold writeConfig. halt_tac Hrej.
  - unfold readConfig. halt_tac Hrej.
  - unfold getSystemStatus. halt_tac Hrej.
Qed.

Lemma commands_halt_on_rejected_send_witness :
  let w := mkWorld (fun k => Z.of_nat k) 0 (fun _ => 7) 0 [] [] in
  let ctl := mkController 4660 false in
  halted_after_send w (setLocoSpeed 5 ctl 3 100 w) /\
  halted_after_send w (getSystemStatus 5 ctl 1 1 0 w).
Proof.
  cbv zeta.
  assert (Hrej :
    to_byte (w_tx (mkWorld (fun k => Z.of_nat k) 0 (fun _ => 7) 0 [] [])
                  (w_ntx (mkWorld (fun k => Z.of_nat k) 0 (fun _ => 7) 0 [] [])))
    <> CAN_OK) by (vm_compute; discriminate).
  destruct (commands_halt_on_rejected_send 5 (mkController 4660 false) _ Hrej)
    as (_ & _ & _ & Hs & _ & _ & _ & _ & _ & _ & _ & _ & _ & _ & _ & _ & Hg).
  split; [apply Hs | apply Hg].
Defined.

(* ================================================================== *)
(** * The queries *)
(* ================================================================== *)

Lemma received_byte_range f i : 0 <= get_data (received_message f) i < 256.
Proof.
  unfold received_message.
  destruct (fromCanMsg_fields new_message (to_ulong (can_id f)) (to_byte (can_ext f))
              (to_byte (can_rtr f)) (to_byte (can_len f)) (cdata_of f))
    as (m' & -> & _ & _ & _ & _ & _ & Hd).
  cbn [snd]. rewrite Hd. case_decide; [auto with machine_int | lia].
Qed.

Lemma makeWord_value h l :
  0 <= h < 256 -> 0 <= l < 256 -> makeWord h l = 256 * h + l.
Proof.
  intros Hh Hl. unfold makeWord.
  rewrite Z.shiftl_mul_pow2 by lia. change (2 ^ 8) with 256.
  rewrite <- Z.add_nocarry_lor.
  - rewrite to_word_small by lia. lia.
  - apply Z.bits_inj'; intros n Hn.
    rewrite Z.land_spec, Z.bits_0.
    destruct (Z.lt_ge_cases n 8) as [Hlt|Hge].
    + replace (h * 256) with (h * 2 ^ 8) by reflexivity.
      rewrite Z.mul_pow2_bits_low by lia. reflexivity.
    + rewrite (Z.bits_above_log2 l n); [apply andb_false_r|lia|].
      destruct (Z.eq_dec l 0) as [->|Hnz]; [simpl; lia|].
      apply Z.lt_le_trans with 8; [|lia].
      apply Z.log2_lt_pow2; lia.
Qed.

(** A command that starts with an exchange on one object and returns: what
    the exchange did, and what the rest of the command started from. *)
Lemma exchange_bind_Ret {B} fuel ctl m timeout
    (k : bool * TrackMessage * TrackMessage -> M B) w b w' :
  mbind k (exchangeMessage fuel ctl m SameAsOut timeout) w = Ret b w' ->
  exists r in1 w1,
    k (r, in1, in1) w1 = Ret b w' /\
    sent_frames (w_trace w1) = sent_frames (w_trace w) ++ [sent_frame ctl m] /\
    exists n,
      (forall j, (j < n)%nat -> is_reply (msg_command m) (poll_at w j) = false) /\
      if r then
        exchange_clock w n < exchange_deadline w timeout /\
        exists f, poll_at w n = Some f /\ is_reply (msg_command m) (Some f) = true /\
                  in1 = received_message f /\ w_rx w1 = drop (S n) (w_rx w)
      else
        exchange_deadline w timeout <= exchange_clock w n /\ w_rx w1 = drop n (w_rx w).
Proof.
  unfold mbind, M_bind.
  destruct (exchangeMessage_world fuel ctl m SameAsOut timeout w) as (k0 & _ & Hb & _).
  destruct (exchangeMessage fuel ctl m SameAsOut timeout w)
    as [[[r m1] m2] w1|w1|w1] eqn:Hex; try discriminate.
  intros Hk. cbn [outcome_world] in Hb.
  destruct (exchangeMessage_Ret_inv _ _ _ _ _ _ _ _ _ _ Hex)
    as (Hok & Hout & n & Hn & Hidle & Hres).
  cbn [out_after] in Hout. subst m1.
  exists r, m2, w1. split; [exact Hk|]. split.
  { rewrite <- (sent_frames_bus_events (w_trace w1)), Hb, sent_frames_app.
    cbn [sent_frames]. rewrite sent_frames_bus_events, sent_frames_recv_events. reflexivity. }
  exists n. split; [intros j Hj; exact (proj2 (Hidle j Hj))|].
  destruct r; [|exact Hres].
  destruct Hres as (Hlt & f & Hp & Hrep & Hin & Hrx).
  split; [exact Hlt|]. exists f. repeat split; assumption.
Qed.

Ltac frame_in Hs f :=
  match type of Hs with context [sent_frame ?ctl ?m] =>
    replace (sent_frame ctl m) with f in Hs by (symmetry; request_frame_tac)
  end.

(** X17: [getLocoSpeed] that returns.  It handed the driver one frame:
    command 4 with the address in bytes 2 and 3, high byte first.  With the
    result [true], [speed] holds bytes 4 and 5 of the first frame polled that
    had command 4 and the response flag, as [256 * data[4] + data[5]]; with
    the result [false], [speed] is as the caller left it. *)
Theorem getLocoSpeed_result
    (fuel : nat) (ctl : TrackController) (address speed : Z) (w : World)
    (r : bool) (v : Z) (w' : World) :
  getLocoSpeed fuel ctl address speed w = Ret (r, v) w' ->
  sent_frames (w_trace w')
  = sent_frames (w_trace w)
    ++ [request_frame ctl 4 [0; 0; highByte (to_word address); lowByte (to_word address)]] /\
  if r then
    exists n f,
      first_reply w 4 n f /\
      v = 256 * get_data (received_message f) 4 + get_data (received_message f) 5
  else v = speed.
Proof.
  unfold getLocoSpeed. cbv zeta. intros H.
  apply exchange_bind_Ret in H.
  destruct H as (r0 & in1 & w1 & Hk & Hs & n & Hbefore & Hres).
  frame_in Hs (request_frame ctl 4 [0; 0; highByte (to_word address);
                                    lowByte (to_word address)]).
  destruct r0; injection Hk as <- <- <-; (split; [exact Hs|]).
  - destruct Hres as (_ & f & Hp & Hrep & -> & _).
    exists n, f. split; [repeat split; assumption|].
    apply makeWord_value; apply received_byte_range.
  - reflexivity.
Qed.

Lemma getLocoSpeed_result_witness :
  let other := mkFrame 721203 1 0 0 [] in
  let reply := mkFrame 589923 1 0 6 [0; 0; 0; 5; 3; 232] in
  let w := mkWorld (fun k => 100 * Z.of_nat k) 0 (fun _ => CAN_OK) 0
                   [Some other; Some reply] [] in
  let ctl := mkController 4660 false in
  exists w',
    getLocoSpeed 20 ctl 5 0 w = Ret (true, 1000) w' /\
    sent_frames (w_trace w') = [request_frame ctl 4 [0; 0; 0; 5]].
Proof.
  cbv zeta.
  set (w := mkWorld (fun k => 100 * Z.of_nat k) 0 (fun _ => CAN_OK) 0
              [Some (mkFrame 721203 1 0 0 []);
               Some (mkFrame 589923 1 0 6 [0; 0; 0; 5; 3; 232])] []).
  set (ctl := mkController 4660 false).
  destruct (outcome_value_Ret (getLocoSpeed 20 ctl 5 0 w) (true, 1000))
    as [w' Hrun]; [vm_compute; reflexivity|].
  exists w'. split; [exact Hrun|].
  destruct (getLocoSpeed_result 20 ctl 5 0 w true 1000 w' Hrun) as (Hs & _).
  exact Hs.
Defined.

(** X18: [getLocoDirection] that returns.  It handed the driver one
    frame: command 5 with the address in bytes 2 and 3.  With the result
    [true], [direction] holds byte 4 of the first frame polled that had
    command 5 and the response flag; with the result [false], [direction] is
    as the caller left it. *)
Theorem getLocoDirection_result
    (fuel : nat) (ctl : TrackController) (address direction : Z) (w : World)
    (r : bool) (v : Z) (w' : World) :
  getLocoDirection fuel ctl address direction w = Ret (r, v) w' ->
  sent_frames (w_trace w')
  = sent_frames (w_trace w)
    ++ [request_frame ctl 5 [0; 0; highByte (to_word address); lowByte (to_word address)]] /\
  if r then
    exists n f,
      first_reply w 5 n f /\ v = get_data (received_message f) 4 /\ 0 <= v < 256
  else v = direction.
Proof.
  unfold getLocoDirection. cbv zeta. intros H.
  apply exchange_bind_Ret in H.
  destruct H as (r0 & in1 & w1 & Hk & Hs & n & Hbefore & Hres).
  frame_in Hs (request_frame ctl 5 [0; 0; highByte (to_word address);
                                    lowByte (to_word address)]).
  destruct r0; injection Hk as <- <- <-; (split; [exact Hs|]).
  - destruct Hres as (_ & f & Hp & Hrep & -> & _).
    exists n, f. split; [repeat split; assumption|].
    split; [reflexivity | apply received_byte_range].
  - reflexivity.
Qed.

Lemma getLocoDirection_result_witness :
  let reply := mkFrame 721203 1 0 5 [0; 0; 0; 5; 2] in
  let w := mkWorld (fun k => 100 * Z.of_nat k) 0 (fun _ => CAN_OK) 0 [None; Some reply] [] in
  let ctl := mkController 4660 false in
  exists w',
    getLocoDirection 20 ctl 5 0 w = Ret (true, 2) w' /\
    sent_frames (w_trace w') = [request_frame ctl 5 [0; 0; 0; 5]].
Proof.
  cbv zeta.
  set (w := mkWorld (fun k => 100 * Z.of_nat k) 0 (fun _ => CAN_OK) 0
              [None; Some (mkFrame 721203 1 0 5 [0; 0; 0; 5; 2])] []).
  set (ctl := mkController 4660 false).
  destruct (outcome_value_Ret (getLocoDirection 20 ctl 5 0 w) (true, 2))
    as [w' Hrun]; [vm_compute; reflexivity|].
  exists w'. split; [exact Hrun|].
  destruct (getLocoDirection_result 20 ctl 5 0 w true 2 w' Hrun) as (Hs & _).
  exact Hs.
Defined.

(** X19: [getLocoFunction] that returns.  It handed the driver one frame:
    command 6 with the address in bytes 2 and 3 and the function number in
    byte 4.  With the result [true], [power] holds byte 5 of the first frame
    polled that had command 6 and the response flag; with the result [false],
    [power] is as the caller left it. *)
Theorem getLocoFunction_result
    (fuel : nat) (ctl : TrackController) (address function power : Z) (w : World)
    (r : bool) (v : Z) (w' : World) :
  getLocoFunction fuel ctl address function power w = Ret (r, v) w' ->
  sent_frames (w_trace w')
  = sent_frames (w_trace w)
    ++ [request_frame ctl 6 [0; 0; highByte (to_word address); lowByte (to_word address);
                             to_byte function]] /\
  if r then
    exists n f,
      first_reply w 6 n f /\ v = get_data (received_message f) 5 /\ 0 <= v < 256
  else v = power.
Proof.
  unfold getLocoFunction. cbv zeta. intros H.
  apply exchange_bind_Ret in H.
  destruct H as (r0 & in1 & w1 & Hk & Hs & n & Hbefore & Hres).
  frame_in Hs (request_frame ctl 6 [0; 0; highByte (to_word address);
                                    lowByte (to_word address); to_byte function]).
  destruct r0; injection Hk as <- <- <-; (split; [exact Hs|]).
  - destruct Hres as (_ & f & Hp & Hrep & -> & _).
    exists n, f. split; [repeat split; assumption|].
    split; [reflexivity | apply received_byte_range].
  - reflexivity.
Qed.

Lemma getLocoFunction_result_witness :
  let reply := mkFrame 852275 1 0 6 [0; 0; 0; 5; 2; 1] in
  let w := mkWorld (fun k => 100 * Z.of_nat k) 0 (fun _ => CAN_OK) 0 [Some reply] [] in
  let ctl := mkController 4660 false in
  exists w',
    getLocoFunction 20 ctl 5 2 0 w = Ret (true, 1) w' /\
    sent_frames (w_trace w') = [request_frame ctl 6 [0; 0; 0; 5; 2]].
Proof.
  cbv zeta.
  set (w := mkWorld (fun k => 100 * Z.of_nat k) 0 (fun _ => CAN_OK) 0
              [Some (mkFrame 852275 1 0 6 [0; 0; 0; 5; 2; 1])] []).
  set (ctl := mkController 4660 false).
  destruct (outcome_value_Ret (getLocoFunction 20 ctl 5 2 0 w) (true, 1))
    as [w' Hrun]; [vm_compute; reflexivity|].
  exists w'. split; [exact Hrun|].
  destruct (getLocoFunction_result 20 ctl 5 2 0 w true 1 w' Hrun) as (Hs & _).
  exact Hs.
Defined.

(** X20: [getAccessory] that returns.  It handed the driver one frame:
    command 0x0b with the address in bytes 2 and 3.  With the result [true],
    [position] and [power] hold bytes 4 and 5 of the first frame polled that
    had command 0x0b and the response flag; with the result [false], both are
    as the caller left them. *)
Theorem getAccessory_result
    (fuel : nat) (ctl : TrackController) (address position power : Z) (w : World)
    (r : bool) (vpos vpow : Z) (w' : World) :
  getAccessory fuel ctl address position power w = Ret (r, vpos, vpow) w' ->
  sent_frames (w_trace w')
  = sent_frames (w_trace w)
    ++ [request_frame ctl 11 [0; 0; highByte (to_word address); lowByte (to_word address)]] /\
  if r then
    exists n f,
      first_reply w 11 n f /\
      vpos = get_data (received_message f) 4 /\ vpow = get_data (received_message f) 5
  else vpos = position /\ vpow = power.
Proof.
  unfold getAccessory. cbv zeta. intros H.
  apply exchange_bind_Ret in H.
  destruct H as (r0 & in1 & w1 & Hk & Hs & n & Hbefore & Hres).
  frame_in Hs (request_frame ctl 11 [0; 0; highByte (to_word address);
                                     lowByte (to_word address)]).
  destruct r0; injection Hk as <- <- <- <-; (split; [exact Hs|]).
  - destruct Hres as (_ & f & Hp & Hrep & -> & _).
    exists n, f. split; [repeat split; assumption|].
    split; reflexivity.
  - split; reflexivity.
Qed.

Lemma getAccessory_result_witness :
  let reply := mkFrame 1507635 1 0 6 [0; 0; 48; 1; 1; 0] in
  let w := mkWorld (fun k => 100 * Z.of_nat k) 0 (fun _ => CAN_OK) 0 [Some reply] [] in
  let ctl := mkController 4660 false in
  exists w',
    getAccessory 20 ctl 12289 7 7 w = Ret (true, 1, 0) w' /\
    sent_frames (w_trace w') = [request_frame ctl 11 [0; 0; 48; 1]].
Proof.
  cbv zeta.
  set (w := mkWorld (fun k => 100 * Z.of_nat k) 0 (fun _ => CAN_OK) 0
              [Some (mkFrame 1507635 1 0 6 [0; 0; 48; 1; 1; 0])] []).
  set (ctl := mkController 4660 false).
  destruct (outcome_value_Ret (getAccessory 20 ctl 12289 7 7 w) (true, 1, 0))
    as [w' Hrun]; [vm_compute; reflexivity|].
  exists w'. split; [exact Hrun|].
  destruct (getAccessory_result 20 ctl 12289 7 7 w true 1 0 w' Hrun) as (Hs & _).
  exact Hs.
Defined.

(** X21: [readConfig] that returns.  It handed the driver one frame:
    command 7 with the address in bytes 2 and 3, the variable number in
    bytes 4 and 5 and the count 1 in byte 6; it waits up to 10000 ms.  With
    the result [true], [value] holds byte 6 of the first frame polled that had
    command 7 and the response flag, polled while the clock read less than the
    10000 ms bound; with the result [false], [value] is as the caller left
    it. *)
Theorem readConfig_result
    (fuel : nat) (ctl : TrackController) (address number value : Z) (w : World)
    (r : bool) (v : Z) (w' : World) :
  readConfig fuel ctl address number value w = Ret (r, v) w' ->
  sent_frames (w_trace w')
  = sent_frames (w_trace w)
    ++ [request_frame ctl 7 [0; 0; highByte (to_word address); lowByte (to_word address);
                             highByte (to_word number); lowByte (to_word number); 1]] /\
  if r then
    exists n f,
      first_reply w 7 n f /\
      exchange_clock w n < exchange_deadline w 10000 /\
      v = get_data (received_message f) 6 /\ 0 <= v < 256
  else
    v = value /\ exists n, exchange_deadline w 10000 <= exchange_clock w n.
Proof.
  unfold readConfig. cbv zeta. intros H.
  apply exchange_bind_Ret in H.
  destruct H as (r0 & in1 & w1 & Hk & Hs & n & Hbefore & Hres).
  frame_in Hs (request_frame ctl 7 [0; 0; highByte (to_word address);
                                    lowByte (to_word address);
                                    highByte (to_word number); lowByte (to_word number); 1]).
  destruct r0; injection Hk as <- <- <-; (split; [exact Hs|]).
  - destruct Hres as (Hlt & f & Hp & Hrep & -> & _).
    exists n, f. split; [repeat split; assumption|].
    split; [exact Hlt|]. split; [reflexivity | apply received_byte_range].
  - split; [reflexivity|]. exists n. exact (proj1 Hres).
Qed.

Lemma readConfig_result_witness :
  let reply := mkFrame 983347 1 0 7 [0; 0; 0; 5; 4; 3; 77] in
  let w := mkWorld (fun k => 100 * Z.of_nat k) 0 (fun _ => CAN_OK) 0 [Some reply] [] in
  let ctl := mkController 4660 false in
  exists w',
    readConfig 20 ctl 5 1027 0 w = Ret (true, 77) w' /\
    sent_frames (w_trace w') = [request_frame ctl 7 [0; 0; 0; 5; 4; 3; 1]].
Proof.
  cbv zeta.
  set (w := mkWorld (fun k => 100 * Z.of_nat k) 0 (fun _ => CAN_OK) 0
              [Some (mkFrame 983347 1 0 7 [0; 0; 0; 5; 4; 3; 77])] []).
  set (ctl := mkController 4660 false).
  destruct (outcome_value_Ret (readConfig 20 ctl 5 1027 0 w) (true, 77))
    as [w' Hrun]; [vm_compute; reflexivity|].
  exists w'. split; [exact Hrun|].
  destruct (readConfig_result 20 ctl 5 1027 0 w true 77 w' Hrun) as (Hs & _).
  exact Hs.
Defined.

(** The four bytes of a 32-bit value, most significant first. *)
Lemma ulong_bytes u :
  0 <= u < 4294967296 ->
  u = 16777216 * to_byte (Z.shiftr u 24) + 65536 * to_byte (Z.shiftr u 16)
      + 256 * to_byte (Z.shiftr u 8) + to_byte u.
Proof.
  intros Hu. unfold to_byte. rewrite !Z.shiftr_div_pow2 by lia.
  change (2 ^ 24) with (256 * 256 * 256). change (2 ^ 16) with (256 * 256).
  change (2 ^ 8) with 256.
  rewrite <- !Z.div_div by lia.
  pose proof (Z.div_mod u 256 ltac:(lia)) as H1.
  pose proof (Z.div_mod (u / 256) 256 ltac:(lia)) as H2.
  pose proof (Z.div_mod (u / 256 / 256) 256 ltac:(lia)) as H3.
  assert (H4 : 0 <= u / 256 / 256 / 256 < 256).
  { split.
    - repeat apply Z.div_pos; lia.
    - repeat (apply Z.div_lt_upper_bound; [lia|]). lia. }
  rewrite (Z.mod_small (u / 256 / 256 / 256)) by exact H4.
  lia.
Qed.

(** X22: [getSystemStatus] that returns.  It handed the driver one frame:
    command 0 with the 32-bit [uid] in bytes 0 to 3, most significant byte
    first, the sub-command 0x0b in byte 4 and the channel in byte 5.  The
    result is [true] only when the first frame polled that had command 0 and
    the response flag carried exactly 8 bytes; [status] is then
    [256 * data[6] + data[7]] of that frame.  With the result [false], which
    includes a reply of another length, [status] is as the caller left it. *)
Theorem getSystemStatus_result
    (fuel : nat) (ctl : TrackController) (uid channel status : Z) (w : World)
    (r : bool) (v : Z) (w' : World) :
  getSystemStatus fuel ctl uid channel status w = Ret (r, v) w' ->
  let u := to_ulong uid in
  sent_frames (w_trace w')
  = sent_frames (w_trace w)
    ++ [request_frame ctl 0 [to_byte (Z.shiftr u 24); to_byte (Z.shiftr u 16);
                             to_byte (Z.shiftr u 8); to_byte u; 11; to_byte channel]] /\
  u = 16777216 * to_byte (Z.shiftr u 24) + 65536 * to_byte (Z.shiftr u 16)
      + 256 * to_byte (Z.shiftr u 8) + to_byte u /\
  if r then
    exists n f,
      first_reply w 0 n f /\
      msg_length (received_message f) = 8 /\
      v = 256 * get_data (received_message f) 6 + get_data (received_message f) 7
  else v = status.
Proof.
  unfold getSystemStatus. cbv zeta. intros H.
  apply exchange_bind_Ret in H.
  destruct H as (r0 & in1 & w1 & Hk & Hs & n & Hbefore & Hres).
  frame_in Hs (request_frame ctl 0
                 [to_byte (Z.shiftr (to_ulong uid) 24); to_byte (Z.shiftr (to_ulong uid) 16);
                  to_byte (Z.shiftr (to_ulong uid) 8); to_byte (to_ulong uid); 11;
                  to_byte channel]).
  assert (Hu : to_ulong uid
               = 16777216 * to_byte (Z.shiftr (to_ulong uid) 24)
                 + 65536 * to_byte (Z.shiftr (to_ulong uid) 16)
                 + 256 * to_byte (Z.shiftr (to_ulong uid) 8) + to_byte (to_ulong uid))
    by (apply ulong_bytes; auto with machine_int).
  destruct r0; cbn [negb] in Hk.
  - destruct (Z.eqb_spec (msg_length in1) 8) as [Hl|Hl]; cbn [negb] in Hk;
      injection Hk as <- <- <-; (split; [exact Hs|]); (split; [exact Hu|]);
      [|reflexivity].
    destruct Hres as (_ & f & Hp & Hrep & -> & _).
    exists n, f. split; [repeat split; assumption|]. split; [exact Hl|].
    apply makeWord_value; apply received_byte_range.
  - injection Hk as <- <- <-. split; [exact Hs|]. split; [exact Hu|]. reflexivity.
Qed.

Lemma getSystemStatus_result_witness :
  let short := mkFrame 65635 1 0 6 [1; 2; 3; 4; 11; 1] in
  let full := mkFrame 65635 1 0 8 [1; 2; 3; 4; 11; 1; 2; 88] in
  let clock := fun k => 100 * Z.of_nat k in
  let ctl := mkController 4660 false in
  (exists w',
     getSystemStatus 20 ctl 16909060 1 0 (mkWorld clock 0 (fun _ => CAN_OK) 0 [Some full] [])
     = Ret (true, 600) w' /\
     sent_frames (w_trace w') = [request_frame ctl 0 [1; 2; 3; 4; 11; 1]]) /\
  (exists w',
     getSystemStatus 20 ctl 16909060 1 0 (mkWorld clock 0 (fun _ => CAN_OK) 0 [Some short] [])
     = Ret (false, 0) w').
Proof.
  cbv zeta. set (clock := fun k => 100 * Z.of_nat k). set (ctl := mkController 4660 false).
  split.
  - set (w := mkWorld clock 0 (fun _ => CAN_OK) 0
                [Some (mkFrame 65635 1 0 8 [1; 2; 3; 4; 11; 1; 2; 88])] []).
    destruct (outcome_value_Ret (getSystemStatus 20 ctl 16909060 1 0 w) (true, 600))
      as [w' Hrun]; [vm_compute; reflexivity|].
    exists w'. split; [exact Hrun|].
    destruct (getSystemStatus_result 20 ctl 16909060 1 0 w true 600 w' Hrun) as (Hs & _).
    exact Hs.
  - set (w := mkWorld clock 0 (fun _ => CAN_OK) 0
                [Some (mkFrame 65635 1 0 6 [1; 2; 3; 4; 11; 1])] []).
    destruct (outcome_value_Ret (getSystemStatus 20 ctl 16909060 1 0 w) (false, 0))
      as [w' Hrun]; [vm_compute; reflexivity|].
    exists w'. exact Hrun.
Defined.

(** Two exchanges made in the same world with requests of the same command
    end the same way, and a reply found is the same reply. *)
Lemma exchangeMessage_result_indep fuel ctl out out' timeout w :
  msg_command out = msg_command out' ->
  match exchangeMessage fuel ctl out SameAsOut timeout w,
        exchangeMessage fuel ctl out' SameAsOut timeout w with
  | Ret (r, o1, i1) _, Ret (r', o1', i1') _ =>
      r = r' /\ (r = true -> o1 = o1' /\ i1 = i1')
  | Halt _, Halt _ => True
  | OutOfFuel _, OutOfFuel _ => True
  | _, _ => False
  end.
Proof.
  intros Hc.
  destruct (Z.eq_dec (to_byte (w_tx w (w_ntx w))) CAN_OK) as [Hok|Hrej].
  2:{ destruct (exchangeMessage_rejected fuel ctl out SameAsOut timeout w Hrej)
        as (w1 & -> & _).
      destruct (exchangeMessage_rejected fuel ctl out' SameAsOut timeout w Hrej)
        as (w2 & -> & _).
      exact I. }
  destruct (idle_prefix_dec w (msg_command out) timeout fuel)
    as [Hall|(n & Hn & Hidle & Hbusy)].
  { destruct (exchangeMessage_all_idle fuel ctl out SameAsOut timeout w Hok Hall)
      as (w1 & ->).
    rewrite Hc in Hall.
    destruct (exchangeMessage_all_idle fuel ctl out' SameAsOut timeout w Hok Hall)
      as (w2 & ->).
    exact I. }
  unfold idle_turn in Hbusy.
  destruct (Z_lt_dec (exchange_clock w n) (exchange_deadline w timeout)) as [Hlt|Hge].
  - destruct (is_reply (msg_command out) (poll_at w n)) eqn:Hrep; [|tauto].
    destruct (poll_at w n) as [f|] eqn:Hp; [|discriminate Hrep].
    destruct (exchangeMessage_found fuel ctl out SameAsOut timeout w n f
                Hok Hidle Hlt Hp Hrep Hn) as (w1 & -> & _).
    rewrite Hc in Hidle, Hrep.
    destruct (exchangeMessage_found fuel ctl out' SameAsOut timeout w n f
                Hok Hidle Hlt Hp Hrep Hn) as (w2 & -> & _).
    split; [reflexivity|]. intros _. split; reflexivity.
  - destruct (exchangeMessage_timeout fuel ctl out SameAsOut timeout w n Hok Hidle)
      as (in1 & w1 & -> & _); [lia | exact Hn |].
    rewrite Hc in Hidle.
    destruct (exchangeMessage_timeout fuel ctl out' SameAsOut timeout w n Hok Hidle)
      as (in2 & w2 & -> & _); [lia | exact Hn |].
    split; [reflexivity | discriminate].
Qed.

Ltac indep_tac :=
  cbv zeta; unfold mbind, M_bind;
  match goal with
  |- outcome_value (match exchangeMessage ?fuel ?ctl ?m SameAsOut ?t ?w with _ => _ end)
     = outcome_value (match exchangeMessage _ _ ?m' SameAsOut _ _ with _ => _ end) =>
    let H := fresh "H" in
    pose proof (exchangeMessage_result_indep fuel ctl m m' t w eq_refl) as H;
    destruct (exchangeMessage fuel ctl m SameAsOut t w) as [[[r o1] i1] w1|w1|w1];
    destruct (exchangeMessage fuel ctl m' SameAsOut t w) as [[[r' o1'] i1'] w1'|w1'|w1'];
    try contradiction; try reflexivity;
    destruct H as [<- H]; destruct r; [destruct (H eq_refl) as [<- <-]|];
    cbn [negb]; try match goal with |- context [negb ?b] => destruct (negb b) end;
    reflexivity
  end.

(** X23: a reply is matched to a request by its command alone.  What a
    query returns, result and value, is settled by what is on the bus and does
    not depend on the address, function number, variable number, device or
    channel that was asked about: asking about another one in the same
    situation gives the same answer. *)
Theorem queries_match_by_command_only (fuel : nat) (ctl : TrackController) (w : World) :
  (forall address address' speed,
      outcome_value (getLocoSpeed fuel ctl address speed w)
      = outcome_value (getLocoSpeed fuel ctl address' speed w)) /\
  (forall address address' direction,
      outcome_value (getLocoDirection fuel ctl address direction w)
      = outcome_value (getLocoDirection fuel ctl address' direction w)) /\
  (forall address address' function function' power,
      outcome_value (getLocoFunction fuel ctl address function power w)
      = outcome_value (getLocoFunction fuel ctl address' function' power w)) /\
  (forall address address' position power,
      outcome_value (getAccessory fuel ctl address position power w)
      = outcome_value (getAccessory fuel ctl address' position power w)) /\
  (forall address address' number number' value,
      outcome_value (readConfig fuel ctl address number value w)
      = outcome_value (readConfig fuel ctl address' number' value w)) /\
  (forall uid uid' channel channel' status,
      outcome_value (getSystemStatus fuel ctl uid channel status w)
      = outcome_value (getSystemStatus fuel ctl uid' channel' status w)).
Proof.
  repeat match goal with |- _ /\ _ => split end; intros.
  - unfold getLocoSpeed. indep_tac.
  - unfold getLocoDirection. indep_tac.
  - unfold getLocoFunction. indep_tac.
  - unfold getAccessory. indep_tac.
  - unfold readConfig. indep_tac.
  - unfold getSystemStatus. indep_tac.
Qed.

(* ================================================================== *)
(** * The commands that write *)
(* ================================================================== *)

(** The two bytes of a 16-bit value, high byte first. *)
Lemma word_bytes x : 0 <= x < 65536 -> 256 * highByte x + lowByte x = x.
Proof.
  intros Hx. unfold highByte, lowByte, to_byte.
  rewrite Z.shiftr_div_pow2 by lia. change (2 ^ 8) with 256.
  change 255 with (Z.ones 8). rewrite Z.land_ones by lia. change (2 ^ 8) with 256.
  rewrite Z.mod_mod by lia.
  rewrite (Z.mod_small (x / 256)).
  - pose proof (Z.div_mod x 256 ltac:(lia)). lia.
  - split; [apply Z.div_pos; lia | apply Z.div_lt_upper_bound; lia].
Qed.

(** A command that starts with an exchange on one object: either the
    exchange returned and the rest of the command goes on from there, or the
    command ended with the exchange, without a result. *)
Lemma exchange_bind_cases {B} fuel ctl m timeout
    (k : bool * TrackMessage * TrackMessage -> M B) w :
  exists n w1,
    bus_events (w_trace w1)
    = bus_events (w_trace w)
      ++ EvSend (sent_frame ctl m) (to_byte (w_tx w (w_ntx w)))
         :: recv_events (take n (w_rx w)) /\
    w_rx w1 = drop n (w_rx w) /\
    w_tx w1 = w_tx w /\ w_ntx w1 = S (w_ntx w) /\
    ((exists r in1,
        mbind k (exchangeMessage fuel ctl m SameAsOut timeout) w = k (r, in1, in1) w1 /\
        to_byte (w_tx w (w_ntx w)) = CAN_OK) \/
     (outcome_value (mbind k (exchangeMessage fuel ctl m SameAsOut timeout) w) = None /\
      outcome_world (mbind k (exchangeMessage fuel ctl m SameAsOut timeout) w) = w1)).
Proof.
  unfold mbind, M_bind.
  destruct (exchangeMessage_world fuel ctl m SameAsOut timeout w)
    as (n & _ & Hb & Hrx & _ & Ht & Hnt).
  destruct (exchangeMessage fuel ctl m SameAsOut timeout w)
    as [[[r m1] m2] w1|w1|w1] eqn:Hex; cbn [outcome_world] in *;
    exists n, w1; (split; [exact Hb|]); (split; [exact Hrx|]);
    (split; [exact Ht|]); (split; [exact Hnt|]).
  - left. destruct (exchangeMessage_Ret_inv _ _ _ _ _ _ _ _ _ _ Hex) as (Hok & Hout & _).
    cbn [out_after] in Hout. subst m1. exists r, m2. split; [reflexivity | exact Hok].
  - right. split; reflexivity.
  - right. split; reflexivity.
Qed.

Lemma sent_frames_of_bus t t0 f status l :
  bus_events t = bus_events t0 ++ EvSend f status :: recv_events l ->
  sent_frames t = sent_frames t0 ++ [f].
Proof.
  intros H. rewrite <- (sent_frames_bus_events t), H, sent_frames_app.
  cbn [sent_frames]. rewrite sent_frames_bus_events, sent_frames_recv_events. reflexivity.
Qed.

(** A command that is one exchange and returns its result. *)
Lemma write_command_run fuel ctl m t w :
  sent_frames (w_trace (outcome_world
    (('(r, _, _) ← exchangeMessage fuel ctl m SameAsOut t; mret r) w)))
  = sent_frames (w_trace w) ++ [sent_frame ctl m] /\
  (outcome_value (('(r, _, _) ← exchangeMessage fuel ctl m SameAsOut t; mret r) w)
   = Some true ->
   exists n f, first_reply w (msg_command m) n f).
Proof.
  unfold mbind, M_bind.
  destruct (exchangeMessage_world fuel ctl m SameAsOut t w) as (n & _ & Hb & _).
  apply sent_frames_of_bus in Hb.
  destruct (exchangeMessage fuel ctl m SameAsOut t w) as [[[r m1] m2] w1|w1|w1] eqn:Hex;
    cbn [outcome_world outcome_value mret M_ret] in *; (split; [exact Hb|]);
    try discriminate.
  intros [= ->].
  destruct (exchangeMessage_Ret_inv _ _ _ _ _ _ _ _ _ _ Hex)
    as (_ & _ & n0 & _ & Hidle & _ & f & Hp & Hrep & _).
  exists n0, f. split; [exact Hp|]. split; [exact Hrep|].
  intros j Hj. exact (proj2 (Hidle j Hj)).
Qed.

(** X24: the commands that write one value.  Whichever way the call
    ends, [setLocoSpeed], [setLocoFunction] and [writeConfig] hand the driver
    exactly one frame: command 4 with address and speed, command 6 with
    address, function number and power, command 8 with address, variable
    number and value; addresses, speed and variable number go high byte first,
    so that [256 * high + low] is the 16-bit argument.  A result [true] means
    that a frame with the same command and the response flag was polled. *)
Theorem write_commands (fuel : nat) (ctl : TrackController) (address : Z) (w : World) :
  let ah := highByte (to_word address) in
  let al := lowByte (to_word address) in
  256 * ah + al = to_word address /\
  (forall speed,
      let o := setLocoSpeed fuel ctl address speed w in
      sent_frames (w_trace (outcome_world o))
      = sent_frames (w_trace w)
        ++ [request_frame ctl 4 [0; 0; ah; al; highByte (to_word speed);
                                 lowByte (to_word speed)]] /\
      256 * highByte (to_word speed) + lowByte (to_word speed) = to_word speed /\
      (outcome_value o = Some true -> exists n f, first_reply w 4 n f)) /\
  (forall function power,
      let o := setLocoFunction fuel ctl address function power w in
      sent_frames (w_trace (outcome_world o))
      = sent_frames (w_trace w)
        ++ [request_frame ctl 6 [0; 0; ah; al; to_byte function; to_byte power]] /\
      (outcome_value o = Some true -> exists n f, first_reply w 6 n f)) /\
  (forall number value,
      let o := writeConfig fuel ctl address number value w in
      sent_frames (w_trace (outcome_world o))
      = sent_frames (w_trace w)
        ++ [request_frame ctl 8 [0; 0; ah; al; highByte (to_word number);
                                 lowByte (to_word number); to_byte value; 0]] /\
      256 * highByte (to_word number) + lowByte (to_word number) = to_word number /\
      (outcome_value o = Some true -> exists n f, first_reply w 8 n f)).
Proof.
  cbv zeta.
  split; [apply word_bytes; auto with machine_int|].
  split; [|split].
  - intros speed. unfold setLocoSpeed. cbv zeta.
    match goal with |- context [exchangeMessage fuel ctl ?m SameAsOut ?t] =>
      destruct (write_command_run fuel ctl m t w) as [Hs Hr]
    end.
    frame_in Hs (request_frame ctl 4 [0; 0; highByte (to_word address);
                   lowByte (to_word address); highByte (to_word speed);
                   lowByte (to_word speed)]).
    split; [exact Hs|]. split; [apply word_bytes; auto with machine_int | exact Hr].
  - intros function power. unfold setLocoFunction. cbv zeta.
    match goal with |- context [exchangeMessage fuel ctl ?m SameAsOut ?t] =>
      destruct (write_command_run fuel ctl m t w) as [Hs Hr]
    end.
    frame_in Hs (request_frame ctl 6 [0; 0; highByte (to_word address);
                   lowByte (to_word address); to_byte function; to_byte power]).
    split; [exact Hs | exact Hr].
  - intros number value. unfold writeConfig. cbv zeta.
    match goal with |- context [exchangeMessage fuel ctl ?m SameAsOut ?t] =>
      destruct (write_command_run fuel ctl m t w) as [Hs Hr]
    end.
    frame_in Hs (request_frame ctl 8 [0; 0; highByte (to_word address);
                   lowByte (to_word address); highByte (to_word number);
                   lowByte (to_word number); to_byte value; 0]).
    split; [exact Hs|]. split; [apply word_bytes; auto with machine_int | exact Hr].
Qed.

Lemma write_commands_witness :
  let reply := mkFrame 1114419 1 0 8 [0; 0; 0; 5; 4; 3; 77; 0] in
  let w := mkWorld (fun k => 100 * Z.of_nat k) 0 (fun _ => CAN_OK) 0 [Some reply] [] in
  let ctl := mkController 4660 false in
  outcome_value (writeConfig 20 ctl 5 1027 77 w) = Some true /\
  sent_frames (w_trace (outcome_world (writeConfig 20 ctl 5 1027 77 w)))
  = [request_frame ctl 8 [0; 0; 0; 5; 4; 3; 77; 0]] /\
  exists n f, first_reply w 8 n f.
Proof.
  cbv zeta.
  destruct (write_commands 20 (mkController 4660 false) 5
              (mkWorld (fun k => 100 * Z.of_nat k) 0 (fun _ => CAN_OK) 0
                 [Some (mkFrame 1114419 1 0 8 [0; 0; 0; 5; 4; 3; 77; 0])] []))
    as (_ & _ & _ & Hw).
  destruct (Hw 1027 77) as (Hs & _ & Hr).
  assert (Hv : outcome_value
                 (writeConfig 20 (mkController 4660 false) 5 1027 77
                    (mkWorld (fun k => 100 * Z.of_nat k) 0 (fun _ => CAN_OK) 0
                       [Some (mkFrame 1114419 1 0 8 [0; 0; 0; 5; 4; 3; 77; 0])] []))
               = Some true) by (vm_compute; reflexivity).
  split; [exact Hv|]. split; [exact Hs|]. exact (Hr Hv).
Defined.

(* ================================================================== *)
(** * Commands made of several exchanges *)
(* ================================================================== *)

Lemma first_reply_later w w1 k command n f :
  w_rx w1 = drop k (w_rx w) -> first_reply w1 command n f ->
  poll_at w (k + n) = Some f /\ is_reply command (Some f) = true.
Proof.
  intros Hrx (Hp & Hrep & _). rewrite (poll_at_drop w w1 k n Hrx) in Hp.
  split; assumption.
Qed.

(** X25: [setLocoDirection] makes two exchanges: first command 0 with the
    address and the sub-command 3 in byte 4, then command 5 with the address
    and the direction in byte 4.  Whichever way the call ends, the frames it
    handed to the driver are the first or both of these, in this order, and
    both when it returned.  Its result is that of the second exchange alone: a
    [true] means a frame with command 5 and the response flag was polled.
    [toggleLocoDirection] is [setLocoDirection] with direction 3. *)
Theorem setLocoDirection_frames
    (fuel : nat) (ctl : TrackController) (address direction : Z) (w : World) :
  let o := setLocoDirection fuel ctl address direction w in
  let ah := highByte (to_word address) in
  let al := lowByte (to_word address) in
  let frames := [request_frame ctl 0 [0; 0; ah; al; 3];
                 request_frame ctl 5 [0; 0; ah; al; to_byte direction]] in
  (exists k, (1 <= k <= 2)%nat /\
     sent_frames (w_trace (outcome_world o)) = sent_frames (w_trace w) ++ take k frames /\
     (outcome_value o <> None -> k = 2%nat)) /\
  (outcome_value o = Some true ->
   exists n f, poll_at w n = Some f /\ is_reply 5 (Some f) = true) /\
  toggleLocoDirection fuel ctl address w = setLocoDirection fuel ctl address 3 w.
Proof.
  cbv zeta. split; [|split].
  - unfold setLocoDirection. cbv zeta.
    match goal with |- context [mbind ?k (exchangeMessage fuel ctl ?m SameAsOut ?t) w] =>
      destruct (exchange_bind_cases fuel ctl m t k w)
        as (n1 & w1 & Hb1 & Hrx1 & _ & _ & [(r1 & in1 & Heq & _)|[Hv Hw]]);
      apply sent_frames_of_bus in Hb1;
      frame_in Hb1 (request_frame ctl 0 [0; 0; highByte (to_word address);
                                         lowByte (to_word address); 3])
    end.
    + rewrite Heq. cbn beta iota.
      match goal with |- context [exchangeMessage fuel ctl ?m SameAsOut ?t] =>
        destruct (write_command_run fuel ctl m t w1) as [Hs2 _];
        frame_in Hs2 (request_frame ctl 5 [0; 0; highByte (to_word address);
                                           lowByte (to_word address); to_byte direction])
      end.
      exists 2%nat. split; [lia|]. split; [|reflexivity].
      rewrite Hs2, Hb1, <- app_assoc. reflexivity.
    + rewrite Hw, Hv. exists 1%nat. split; [lia|]. split; [exact Hb1 | congruence].
  - unfold setLocoDirection. cbv zeta.
    match goal with |- context [mbind ?k (exchangeMessage fuel ctl ?m SameAsOut ?t) w] =>
      destruct (exchange_bind_cases fuel ctl m t k w)
        as (n1 & w1 & _ & Hrx1 & _ & _ & [(r1 & in1 & Heq & _)|[Hv Hw]])
    end.
    + rewrite Heq. cbn beta iota.
      match goal with |- context [exchangeMessage fuel ctl ?m SameAsOut ?t] =>
        destruct (write_command_run fuel ctl m t w1) as [_ Hr2]
      end.
      intros Htrue. destruct (Hr2 Htrue) as (n & f & Hfirst).
      exists (n1 + n)%nat, f. exact (first_reply_later w w1 n1 5 n f Hrx1 Hfirst).
    + rewrite Hv. discriminate.
  - unfold toggleLocoDirection, DIR_CHANGE, setLocoDirection. cbv zeta.
    rewrite (to_word_small (to_word address)) by auto with machine_int. reflexivity.
Qed.

Lemma setLocoDirection_frames_witness :
  let reply := mkFrame 721203 1 0 5 [0; 0; 0; 5; 2] in
  let w := mkWorld (fun k => 400 * Z.of_nat k) 0 (fun _ => CAN_OK) 0 [None; Some reply] [] in
  let ctl := mkController 4660 false in
  outcome_value (setLocoDirection 20 ctl 5 2 w) = Some true /\
  exists n f, poll_at w n = Some f /\ is_reply 5 (Some f) = true.
Proof.
  cbv zeta.
  assert (Hv : outcome_value
                 (setLocoDirection 20 (mkController 4660 false) 5 2
                    (mkWorld (fun k => 400 * Z.of_nat k) 0 (fun _ => CAN_OK) 0
                       [None; Some (mkFrame 721203 1 0 5 [0; 0; 0; 5; 2])] []))
               = Some true) by (vm_compute; reflexivity).
  split; [exact Hv|].
  destruct (setLocoDirection_frames 20 (mkController 4660 false) 5 2
              (mkWorld (fun k => 400 * Z.of_nat k) 0 (fun _ => CAN_OK) 0
                 [None; Some (mkFrame 721203 1 0 5 [0; 0; 0; 5; 2])] []))
    as (_ & Hr & _).
  exact (Hr Hv).
Defined.

(** X26: [setPower].  Switching on takes three exchanges, all of command
    0: first the bytes 0,0,0,0,9,0,0x0d, then 0,0,0,0,8,7, then the
    switch itself 0,0,0,0,1.  Switching off is the one exchange 0,0,0,0,0.
    Whichever way the call ends, the frames it handed to the driver are a
    beginning of that list, at least its first frame, and all of it when the
    call returned.  The results of the first two exchanges are dropped: the
    result is that of the last one, and a [true] means a frame with command 0
    and the response flag was polled. *)
Theorem setPower_frames (fuel : nat) (ctl : TrackController) (power : bool) (w : World) :
  let o := setPower fuel ctl power w in
  let frames :=
    (if power then [request_frame ctl 0 [0; 0; 0; 0; 9; 0; 13];
                    request_frame ctl 0 [0; 0; 0; 0; 8; 7]]
     else [])
    ++ [request_frame ctl 0 [0; 0; 0; 0; if power then 1 else 0]] in
  (exists k, (1 <= k <= length frames)%nat /\
     sent_frames (w_trace (outcome_world o)) = sent_frames (w_trace w) ++ take k frames /\
     (outcome_value o <> None -> k = length frames)) /\
  (outcome_value o = Some true ->
   exists n f, poll_at w n = Some f /\ is_reply 0 (Some f) = true).
Proof.
  cbv zeta. unfold setPower. cbv zeta. destruct power.
  - run_M.
    match goal with |- context [exchangeMessage fuel ctl ?m SameAsOut ?t w] =>
      destruct (exchangeMessage_world fuel ctl m SameAsOut t w)
        as (n1 & _ & Hb1 & Hrx1 & _);
      apply sent_frames_of_bus in Hb1;
      frame_in Hb1 (request_frame ctl 0 [0; 0; 0; 0; 9; 0; 13]);
      destruct (exchangeMessage fuel ctl m SameAsOut t w) as [[[r1 o1] i1] w1|w1|w1]
    end; cbn [outcome_world outcome_value] in *.
    2,3: (split; [exists 1%nat; cbn [app length take]; split; [lia|];
                  split; [exact Hb1 | congruence] | discriminate]).
    match goal with |- context [exchangeMessage fuel ctl ?m SameAsOut ?t w1] =>
      destruct (exchangeMessage_world fuel ctl m SameAsOut t w1)
        as (n2 & _ & Hb2 & Hrx2 & _);
      apply sent_frames_of_bus in Hb2;
      frame_in Hb2 (request_frame ctl 0 [0; 0; 0; 0; 8; 7]);
      destruct (exchangeMessage fuel ctl m SameAsOut t w1) as [[[r2 o2] i2] w2|w2|w2]
    end; cbn [outcome_world outcome_value] in *.
    2,3: (split; [exists 2%nat; cbn [app length take]; split; [lia|];
                  split; [rewrite Hb2, Hb1, <- app_assoc; reflexivity | congruence]
                 | discriminate]).
    match goal with |- context [exchangeMessage fuel ctl ?m SameAsOut ?t w2] =>
      destruct (exchangeMessage_world fuel ctl m SameAsOut t w2)
        as (n3 & _ & Hb3 & Hrx3 & _);
      apply sent_frames_of_bus in Hb3;
      frame_in Hb3 (request_frame ctl 0 [0; 0; 0; 0; 1]);
      destruct (exchangeMessage fuel ctl m SameAsOut t w2)
        as [[[r3 o3] i3] w3|w3|w3] eqn:Hex
    end; cbn [outcome_world outcome_value] in *.
    2,3: (split; [exists 3%nat; cbn [app length take]; split; [lia|];
                  split; [rewrite Hb3, Hb2, Hb1, <- !app_assoc; reflexivity | congruence]
                 | discriminate]).
    split.
    + exists 3%nat. cbn [app length take]. split; [lia|].
      split; [rewrite Hb3, Hb2, Hb1, <- !app_assoc; reflexivity | reflexivity].
    + intros [= ->].
      destruct (exchangeMessage_Ret_inv _ _ _ _ _ _ _ _ _ _ Hex)
        as (_ & _ & n & _ & _ & _ & f & Hp & Hrep & _).
      rewrite (poll_at_drop w1 w2 n2 n Hrx2), (poll_at_drop w w1 n1 _ Hrx1) in Hp.
      eexists; exists f. split; [exact Hp | exact Hrep].
  - run_M.
    match goal with |- context [exchangeMessage fuel ctl ?m SameAsOut ?t w] =>
      destruct (exchangeMessage_world fuel ctl m SameAsOut t w)
        as (n1 & _ & Hb1 & Hrx1 & _);
      apply sent_frames_of_bus in Hb1;
      frame_in Hb1 (request_frame ctl 0 [0; 0; 0; 0; 0]);
      destruct (exchangeMessage fuel ctl m SameAsOut t w)
        as [[[r1 o1] i1] w1|w1|w1] eqn:Hex
    end; cbn [outcome_world outcome_value] in *.
    2,3: (split; [exists 1%nat; cbn [app length take]; split; [lia|];
                  split; [exact Hb1 | congruence] | discriminate]).
    split.
    + exists 1%nat. cbn [app length take]. split; [lia|].
      split; [exact Hb1 | reflexivity].
    + intros [= ->].
      destruct (exchangeMessage_Ret_inv _ _ _ _ _ _ _ _ _ _ Hex)
        as (_ & _ & n & _ & _ & _ & f & Hp & Hrep & _).
      exists n, f. split; [exact Hp | exact Hrep].
Qed.

Lemma setPower_frames_witness :
  let reply := mkFrame 65635 1 0 5 [0; 0; 0; 0; 1] in
  let w := mkWorld (fun k => 400 * Z.of_nat k) 0 (fun _ => CAN_OK) 0
                   [None; None; Some reply] [] in
  let ctl := mkController 4660 false in
  outcome_value (setPower 20 ctl true w) = Some true /\
  sent_frames (w_trace (outcome_world (setPower 20 ctl true w)))
  = [request_frame ctl 0 [0; 0; 0; 0; 9; 0; 13]; request_frame ctl 0 [0; 0; 0; 0; 8; 7];
     request_frame ctl 0 [0; 0; 0; 0; 1]] /\
  exists n f, poll_at w n = Some f /\ is_reply 0 (Some f) = true.
Proof.
  cbv zeta.
  assert (Hv : outcome_value
                 (setPower 20 (mkController 4660 false) true
                    (mkWorld (fun k => 400 * Z.of_nat k) 0 (fun _ => CAN_OK) 0
                       [None; None; Some (mkFrame 65635 1 0 5 [0; 0; 0; 0; 1])] []))
               = Some true) by (vm_compute; reflexivity).
  split; [exact Hv|]. split; [vm_compute; reflexivity|].
  destruct (setPower_frames 20 (mkController 4660 false) true
              (mkWorld (fun k => 400 * Z.of_nat k) 0 (fun _ => CAN_OK) 0
                 [None; None; Some (mkFrame 65635 1 0 5 [0; 0; 0; 0; 1])] []))
    as (_ & Hr).
  exact (Hr Hv).
Defined.

(** [setAccessory] that returns: the activation, and when [time] is not 0
    the wait and the deactivation. *)
Lemma setAccessory_run fuel ctl address position power time w r w' :
  setAccessory fuel ctl address position power time w = Ret r w' ->
  r = true /\
  exists n1 n2,
    bus_events (w_trace w')
    = bus_events (w_trace w)
      ++ EvSend (request_frame ctl 11 [0; 0; highByte (to_word address);
                                       lowByte (to_word address);
                                       to_byte position; to_byte power]) CAN_OK
         :: recv_events (take n1 (w_rx w))
      ++ (if to_word time =? 0 then []
          else EvDelay (to_word time)
               :: EvSend (request_frame ctl 11 [0; 0; highByte (to_word address);
                                                lowByte (to_word address);
                                                to_byte position; 0]) CAN_OK
               :: recv_events (take n2 (drop n1 (w_rx w)))).
Proof.
  unfold setAccessory. cbv zeta. run_M.
  match goal with |- context [exchangeMessage fuel ctl ?m SameAsOut ?t w] =>
    destruct (exchangeMessage_world fuel ctl m SameAsOut t w)
      as (n1 & _ & Hb1 & Hrx1 & _);
    frame_in Hb1 (request_frame ctl 11 [0; 0; highByte (to_word address);
                    lowByte (to_word address); to_byte position; to_byte power]);
    destruct (exchangeMessage fuel ctl m SameAsOut t w)
      as [[[r1 o1] i1] w1|w1|w1] eqn:Hex1
  end; cbn [outcome_world] in *; try discriminate.
  destruct (exchangeMessage_Ret_inv _ _ _ _ _ _ _ _ _ _ Hex1) as (Hok1 & _).
  rewrite Hok1 in Hb1.
  destruct (to_word time =? 0) eqn:Htime; cbn [negb]; run_M.
  - intros [= <- <-]. split; [reflexivity|]. exists n1, 0%nat.
    rewrite Hb1, app_nil_r. reflexivity.
  - match goal with |- context [exchangeMessage fuel ctl ?m SameAsOut ?t ?w2] =>
      destruct (exchangeMessage_world fuel ctl m SameAsOut t w2)
        as (n2 & _ & Hb2 & _);
      frame_in Hb2 (request_frame ctl 11 [0; 0; highByte (to_word address);
                      lowByte (to_word address); to_byte position; 0]);
      destruct (exchangeMessage fuel ctl m SameAsOut t w2)
        as [[[r2 o2] i2] w3|w3|w3] eqn:Hex2
    end; cbn [outcome_world w_trace w_rx w_tx w_ntx] in *; try discriminate.
    destruct (exchangeMessage_Ret_inv _ _ _ _ _ _ _ _ _ _ Hex2) as (Hok2 & _).
    cbn [w_tx w_ntx] in Hok2. rewrite Hok2 in Hb2.
    intros [= <- <-]. split; [reflexivity|]. exists n1, n2.
    rewrite Hb2, bus_events_app, Hb1, Hrx1. cbn [bus_events].
    rewrite <- !app_assoc. cbn [app]. reflexivity.
Qed.

(** X27: [setAccessory] and [setTurnout] that return.  [setAccessory]
    first exchanges the activation: command 0x0b with the address in bytes 2
    and 3, the position in byte 4 and the power in byte 5.  When [time] is not
    0 it then waits [time] ms and exchanges the deactivation, the same frame
    with power 0; when [time] is 0 it sends nothing more.  Replies are polled
    but their absence changes nothing: the result is always [true].
    [setTurnout] is the activation alone, with position 1 for straight and 0
    for round and with power 1: it never waits and never sends the
    deactivation. *)
Theorem setAccessory_sequence
    (fuel : nat) (ctl : TrackController) (address : Z) (w : World) :
  let ah := highByte (to_word address) in
  let al := lowByte (to_word address) in
  (forall position power time r w',
      setAccessory fuel ctl address position power time w = Ret r w' ->
      r = true /\
      exists n1 n2,
        bus_events (w_trace w')
        = bus_events (w_trace w)
          ++ EvSend (request_frame ctl 11 [0; 0; ah; al; to_byte position; to_byte power])
                    CAN_OK
             :: recv_events (take n1 (w_rx w))
          ++ (if to_word time =? 0 then []
              else EvDelay (to_word time)
                   :: EvSend (request_frame ctl 11 [0; 0; ah; al; to_byte position; 0])
                             CAN_OK
                   :: recv_events (take n2 (drop n1 (w_rx w))))) /\
  (forall (straight : bool) r w',
      setTurnout fuel ctl address straight w = Ret r w' ->
      r = true /\
      exists n,
        bus_events (w_trace w')
        = bus_events (w_trace w)
          ++ EvSend (request_frame ctl 11 [0; 0; ah; al; if straight then 1 else 0; 1])
                    CAN_OK
             :: recv_events (take n (w_rx w))).
Proof.
  cbv zeta. split.
  - intros position power time r w' H.
    exact (setAccessory_run _ _ _ _ _ _ _ _ _ H).
  - intros straight r w' H. unfold setTurnout in H.
    apply setAccessory_run in H. destruct H as (Hr & n1 & n2 & Hb).
    split; [exact Hr|]. exists n1.
    rewrite (to_word_small (to_word address)) in Hb by auto with machine_int.
    change (to_word 0 =? 0) with true in Hb. cbn iota in Hb.
    rewrite app_nil_r in Hb. rewrite Hb.
    destruct straight; reflexivity.
Qed.

Lemma setAccessory_sequence_witness :
  let w := mkWorld (fun k => 400 * Z.of_nat k) 0 (fun _ => CAN_OK) 0 [] [] in
  let ctl := mkController 4660 false in
  (exists w',
     setAccessory 20 ctl 5 1 1 250 w = Ret true w' /\
     bus_events (w_trace w')
     = [EvSend (request_frame ctl 11 [0; 0; 0; 5; 1; 1]) CAN_OK;
        EvDelay 250;
        EvSend (request_frame ctl 11 [0; 0; 0; 5; 1; 0]) CAN_OK]) /\
  (exists w',
     setTurnout 20 ctl 5 true w = Ret true w' /\
     bus_events (w_trace w') = [EvSend (request_frame ctl 11 [0; 0; 0; 5; 1; 1]) CAN_OK]).
Proof.
  cbv zeta.
  set (w := mkWorld (fun k => 400 * Z.of_nat k) 0 (fun _ => CAN_OK) 0 [] []).
  set (ctl := mkController 4660 false).
  destruct (setAccessory_sequence 20 ctl 5 w) as [Ha Ht].
  split.
  - destruct (outcome_value_Ret (setAccessory 20 ctl 5 1 1 250 w) true)
      as [w' Hrun]; [vm_compute; reflexivity|].
    exists w'. split; [exact Hrun|].
    destruct (Ha 1 1 250 true w' Hrun) as (_ & n1 & n2 & Hb).
    rewrite Hb. subst w. cbn [w_rx w_trace bus_events].
    rewrite ?drop_nil, ?take_nil. reflexivity.
  - destruct (outcome_value_Ret (setTurnout 20 ctl 5 true w) true)
      as [w' Hrun]; [vm_compute; reflexivity|].
    exists w'. split; [exact Hrun|].
    destruct (Ht true true w' Hrun) as (_ & n & Hb).
    rewrite Hb. subst w. cbn [w_rx w_trace bus_events].
    rewrite take_nil. reflexivity.
Defined.

(* ================================================================== *)
(** * Read, then write: toggle, accelerate, decelerate *)
(* ================================================================== *)

(** X28: [toggleLocoFunction] that returns.  It first asks for the state
    of the function: command 6 with the address and the function number.
    When that read fails, the call returns [false] and has sent nothing else.
    When it succeeds (a frame with command 6 and the response flag was
    polled), the call goes on to write the opposite state: command 6 with the
    address, the function number and, in byte 5, 1 when byte 5 of the reply
    was 0 and 0 when it was anything else. *)
Theorem toggleLocoFunction_result
    (fuel : nat) (ctl : TrackController) (address function : Z) (w : World)
    (r : bool) (w' : World) :
  toggleLocoFunction fuel ctl address function w = Ret r w' ->
  let ah := highByte (to_word address) in
  let al := lowByte (to_word address) in
  let query := request_frame ctl 6 [0; 0; ah; al; to_byte function] in
  (r = false /\ sent_frames (w_trace w') = sent_frames (w_trace w) ++ [query]) \/
  (exists n f,
     first_reply w 6 n f /\
     sent_frames (w_trace w')
     = sent_frames (w_trace w)
       ++ [query;
           request_frame ctl 6 [0; 0; ah; al; to_byte function;
                                if get_data (received_message f) 5 =? 0 then 1 else 0]]).
Proof.
  cbv zeta. intros H. unfold toggleLocoFunction in H. cbv zeta in H.
  unfold mbind at 1, M_bind at 1 in H.
  destruct (getLocoFunction fuel ctl (to_word address) (to_byte function) 0 w)
    as [[rr p] w1|w1|w1] eqn:Hget; try discriminate.
  unfold getLocoFunction in Hget. cbv zeta in Hget.
  apply exchange_bind_Ret in Hget.
  destruct Hget as (r0 & in1 & w0 & Hk & Hs & n & Hbefore & Hres).
  rewrite (to_word_small (to_word address)) in Hs by auto with machine_int.
  frame_in Hs (request_frame ctl 6 [0; 0; highByte (to_word address);
                                    lowByte (to_word address); to_byte function]).
  destruct r0; injection Hk as <- <- <-.
  - destruct Hres as (_ & f & Hp & Hrep & -> & _).
    right. exists n, f. split; [repeat split; assumption|].
    unfold setLocoFunction in H. cbv zeta in H.
    rewrite (to_word_small (to_word address)) in H by auto with machine_int.
    match type of H with context [exchangeMessage fuel ctl ?m SameAsOut ?t] =>
      destruct (write_command_run fuel ctl m t w0) as [Hs2 _]
    end.
    rewrite H in Hs2. cbn [outcome_world] in Hs2.
    destruct (get_data (received_message f) 5 =? 0); cbn [negb] in Hs2.
    + frame_in Hs2 (request_frame ctl 6 [0; 0; highByte (to_word address);
                                         lowByte (to_word address); to_byte function; 1]).
      rewrite Hs2, Hs, <- app_assoc. reflexivity.
    + frame_in Hs2 (request_frame ctl 6 [0; 0; highByte (to_word address);
                                         lowByte (to_word address); to_byte function; 0]).
      rewrite Hs2, Hs, <- app_assoc. reflexivity.
  - left. injection H as <- <-. split; [reflexivity | exact Hs].
Qed.

Lemma toggleLocoFunction_result_witness :
  let reply := mkFrame 852275 1 0 6 [0; 0; 0; 5; 2; 1] in
  let w := mkWorld (fun k => 100 * Z.of_nat k) 0 (fun _ => CAN_OK) 0
                   [Some reply; Some reply] [] in
  let ctl := mkController 4660 false in
  exists w',
    toggleLocoFunction 20 ctl 5 2 w = Ret true w' /\
    sent_frames (w_trace w')
    = [request_frame ctl 6 [0; 0; 0; 5; 2]; request_frame ctl 6 [0; 0; 0; 5; 2; 0]].
Proof.
  cbv zeta.
  set (w := mkWorld (fun k => 100 * Z.of_nat k) 0 (fun _ => CAN_OK) 0
              [Some (mkFrame 852275 1 0 6 [0; 0; 0; 5; 2; 1]);
               Some (mkFrame 852275 1 0 6 [0; 0; 0; 5; 2; 1])] []).
  set (ctl := mkController 4660 false).
  destruct (outcome_value_Ret (toggleLocoFunction 20 ctl 5 2 w) true)
    as [w' Hrun]; [vm_compute; reflexivity|].
  exists w'. split; [exact Hrun|].
  destruct (toggleLocoFunction_result 20 ctl 5 2 w true w' Hrun)
    as [[Hr _]|(n & f & (Hp & _ & Hbefore) & Hs)]; [discriminate Hr|].
  destruct n as [|n].
  - vm_compute in Hp. injection Hp as <-. exact Hs.
  - specialize (Hbefore 0%nat ltac:(lia)). vm_compute in Hbefore. discriminate Hbefore.
Defined.

Lemma accelerate_speed_range current : 0 <= accelerate_speed current <= 1023.
Proof.
  unfold accelerate_speed. pose proof (to_word_range (current + 77)).
  destruct (Z.ltb_spec 1023 (to_word (current + 77))); lia.
Qed.

Lemma decelerate_speed_range current : 0 <= decelerate_speed current <= 32767.
Proof.
  unfold decelerate_speed. pose proof (to_word_range (current - 77)).
  destruct (Z.ltb_spec 32767 (to_word (current - 77))); lia.
Qed.

(** A speed step that returns: the read, and on success the write. *)
Lemma speed_step_run fuel ctl address (step : Z -> Z) w r w' :
  ('(r, speed) ← getLocoSpeed fuel ctl (to_word address) 0;
   if r : bool then setLocoSpeed fuel ctl (to_word address) (step speed)
   else mret false) w = Ret r w' ->
  (forall s, 0 <= step s < 65536) ->
  let ah := highByte (to_word address) in
  let al := lowByte (to_word address) in
  (r = false /\
   sent_frames (w_trace w')
   = sent_frames (w_trace w) ++ [request_frame ctl 4 [0; 0; ah; al]]) \/
  (exists n f,
     first_reply w 4 n f /\
     let current := 256 * get_data (received_message f) 4
                    + get_data (received_message f) 5 in
     sent_frames (w_trace w')
     = sent_frames (w_trace w)
       ++ [request_frame ctl 4 [0; 0; ah; al];
           request_frame ctl 4 [0; 0; ah; al; highByte (step current);
                                lowByte (step current)]]).
Proof.
  cbv zeta. intros H Hstep.
  unfold mbind at 1, M_bind at 1 in H.
  destruct (getLocoSpeed fuel ctl (to_word address) 0 w)
    as [[rr p] w1|w1|w1] eqn:Hget; try discriminate.
  unfold getLocoSpeed in Hget. cbv zeta in Hget.
  apply exchange_bind_Ret in Hget.
  destruct Hget as (r0 & in1 & w0 & Hk & Hs & n & Hbefore & Hres).
  rewrite (to_word_small (to_word address)) in Hs by auto with machine_int.
  frame_in Hs (request_frame ctl 4 [0; 0; highByte (to_word address);
                                    lowByte (to_word address)]).
  destruct r0; injection Hk as <- <- <-.
  - destruct Hres as (_ & f & Hp & Hrep & -> & _).
    right. exists n, f. split; [repeat split; assumption|].
    rewrite makeWord_value in H by apply received_byte_range.
    unfold setLocoSpeed in H. cbv zeta in H.
    rewrite (to_word_small (to_word address)) in H by auto with machine_int.
    rewrite (to_word_small (step _)) in H by apply Hstep.
    match type of H with context [exchangeMessage fuel ctl ?m SameAsOut ?t] =>
      destruct (write_command_run fuel ctl m t w0) as [Hs2 _]
    end.
    rewrite H in Hs2. cbn [outcome_world] in Hs2.
    match type of Hs2 with context [step ?c] =>
      frame_in Hs2 (request_frame ctl 4 [0; 0; highByte (to_word address);
                                         lowByte (to_word address);
                                         highByte (step c); lowByte (step c)])
    end.
    rewrite Hs2, Hs, <- app_assoc. reflexivity.
  - left. injection H as <- <-. split; [reflexivity | exact Hs].
Qed.

(** X29: [accelerateLoco] and [decelerateLoco] that return.  Each first
    reads the speed: command 4 with the address.  When the read fails the call
    returns [false] and has sent nothing else: no speed is written.  When it
    succeeds with [current] (bytes 4 and 5 of the reply), the call goes on to
    write the new speed, command 4 with the address and the speed in bytes 4
    and 5.  The speed written by [accelerateLoco] is never above 1023, and
    the one written by [decelerateLoco] never above 32767. *)
Theorem speed_steps (fuel : nat) (ctl : TrackController) (address : Z) (w : World) :
  let ah := highByte (to_word address) in
  let al := lowByte (to_word address) in
  let query := request_frame ctl 4 [0; 0; ah; al] in
  let write s := request_frame ctl 4 [0; 0; ah; al; highByte s; lowByte s] in
  let read_of f := 256 * get_data (received_message f) 4
                   + get_data (received_message f) 5 in
  (forall r w',
      accelerateLoco fuel ctl address w = Ret r w' ->
      (r = false /\ sent_frames (w_trace w') = sent_frames (w_trace w) ++ [query]) \/
      (exists n f,
         first_reply w 4 n f /\
         sent_frames (w_trace w')
         = sent_frames (w_trace w) ++ [query; write (accelerate_speed (read_of f))])) /\
  (forall r w',
      decelerateLoco fuel ctl address w = Ret r w' ->
      (r = false /\ sent_frames (w_trace w') = sent_frames (w_trace w) ++ [query]) \/
      (exists n f,
         first_reply w 4 n f /\
         sent_frames (w_trace w')
         = sent_frames (w_trace w) ++ [query; write (decelerate_speed (read_of f))])) /\
  (forall current,
      0 <= accelerate_speed current <= 1023 /\ 0 <= decelerate_speed current <= 32767).
Proof.
  cbv zeta. split; [|split].
  - intros r w' H. unfold accelerateLoco in H. cbv zeta in H.
    apply (speed_step_run fuel ctl address accelerate_speed w r w' H).
    intros s. pose proof (accelerate_speed_range s). lia.
  - intros r w' H. unfold decelerateLoco in H. cbv zeta in H.
    apply (speed_step_run fuel ctl address decelerate_speed w r w' H).
    intros s. pose proof (decelerate_speed_range s). lia.
  - intros current. split; [apply accelerate_speed_range | apply decelerate_speed_range].
Qed.

Lemma speed_steps_witness :
  let reply := mkFrame 589923 1 0 6 [0; 0; 0; 5; 3; 232] in
  let ctl := mkController 4660 false in
  let clock := fun k => 400 * Z.of_nat k in
  (exists w',
     accelerateLoco 20 ctl 5 (mkWorld clock 0 (fun _ => CAN_OK) 0 [] []) = Ret false w' /\
     sent_frames (w_trace w') = [request_frame ctl 4 [0; 0; 0; 5]]) /\
  (exists w',
     decelerateLoco 20 ctl 5 (mkWorld clock 0 (fun _ => CAN_OK) 0 [Some reply; Some reply] [])
     = Ret true w' /\
     sent_frames (w_trace w')
     = [request_frame ctl 4 [0; 0; 0; 5]; request_frame ctl 4 [0; 0; 0; 5; 3; 155]]).
Proof.
  cbv zeta.
  set (ctl := mkController 4660 false). set (clock := fun k => 400 * Z.of_nat k).
  split.
  - set (w := mkWorld clock 0 (fun _ => CAN_OK) 0 [] []).
    destruct (outcome_value_Ret (accelerateLoco 20 ctl 5 w) false)
      as [w' Hrun]; [vm_compute; reflexivity|].
    exists w'. split; [exact Hrun|].
    destruct (speed_steps 20 ctl 5 w) as (Ha & _ & _).
    destruct (Ha false w' Hrun) as [[_ Hs]|(n & f & (Hp & _) & _)]; [exact Hs|].
    unfold poll_at in Hp. subst w. cbn [w_rx] in Hp.
    rewrite lookup_nil in Hp. discriminate Hp.
  - set (w := mkWorld clock 0 (fun _ => CAN_OK) 0
                [Some (mkFrame 589923 1 0 6 [0; 0; 0; 5; 3; 232]);
                 Some (mkFrame 589923 1 0 6 [0; 0; 0; 5; 3; 232])] []).
    destruct (outcome_value_Ret (decelerateLoco 20 ctl 5 w) true)
      as [w' Hrun]; [vm_compute; reflexivity|].
    exists w'. split; [exact Hrun|].
    destruct (speed_steps 20 ctl 5 w) as (_ & Hd & _).
    destruct (Hd true w' Hrun) as [[Hr _]|(n & f & (Hp & _ & Hbefore) & Hs)];
      [discriminate Hr|].
    destruct n as [|n].
    + vm_compute in Hp. injection Hp as <-. exact Hs.
    + specialize (Hbefore 0%nat ltac:(lia)). vm_compute in Hbefore. discriminate Hbefore.
Defined.

(* ================================================================== *)
(** * [getVersion] drains the driver *)
(* ================================================================== *)






